(** * OpenVPN control panel: the browser-side orchestration scripts

    A shallow embedding of [static/js/utils.js], [static/js/server-actions.js]
    and of the terminal, client-management and server-action modules of the
    control panel, with the properties of its specification that concern
    them.

    JavaScript strings are sequences of UTF-16 code units; they are modelled
    as [list N].  An [async] function that awaits one HTTP exchange is
    modelled by the events it produces before the exchange, the request it
    sends, and a continuation that maps the outcome of the exchange to the
    events produced afterwards. *)

From stdpp Require Import base list gmap sets.
From Stdlib Require Import NArith String Ascii DecimalString Lia.
From Stdlib Require PrimFloat.

Local Open Scope N_scope.

(** ** JavaScript values *)

Module JS.

(** A string is a list of UTF-16 code units. *)
Definition jsstring := list N.

(** *** String literals

    Literals of the source are written as Rocq strings (UTF-8 bytes) and
    decoded to code units. *)

Definition cont (b : N) : N := N.land b 63.

Fixpoint utf8_decode (bs : list N) : list N :=
  match bs with
  | [] => []
  | b0 :: t0 =>
    if b0 <? 128 then b0 :: utf8_decode t0
    else match t0 with
    | [] => []
    | b1 :: t1 =>
      if b0 <? 224 then (N.land b0 31 * 64 + cont b1) :: utf8_decode t1
      else match t1 with
      | [] => []
      | b2 :: t2 =>
        if b0 <? 240
        then (N.land b0 15 * 4096 + cont b1 * 64 + cont b2) :: utf8_decode t2
        else match t2 with
        | [] => []
        | b3 :: t3 =>
          (N.land b0 7 * 262144 + cont b1 * 4096 + cont b2 * 64 + cont b3)
            :: utf8_decode t3
        end
      end
    end
  end.

Definition utf16_units (cp : N) : list N :=
  if cp <? 65536 then [cp]
  else let v := cp - 65536 in [55296 + v / 1024; 56320 + v mod 1024].

Definition js (s : string) : jsstring :=
  flat_map utf16_units (utf8_decode (map N_of_ascii (list_ascii_of_string s))).

(** The double quote and the line feed, which the literals below splice in. *)
Definition dquote : jsstring := [34].
Definition nl : jsstring := [10].

Definition str_eqb (a b : jsstring) : bool := bool_decide (a = b).

(** *** Numbers printed in decimal (template literals on integers) *)

Definition decimal (n : N) : jsstring :=
  js (NilZero.string_of_uint (N.to_uint n)).

(** *** White space: [WhiteSpace] and [LineTerminator] of ECMAScript,
    the characters removed by [String.prototype.trim] and matched by the
    regular-expression class [\s]. *)

Definition isLineTerminator (c : N) : bool :=
  (c =? 10) || (c =? 13) || (c =? 8232) || (c =? 8233).

Definition isWhiteSpace (c : N) : bool :=
  (c =? 9) || (c =? 11) || (c =? 12) || (c =? 32) || (c =? 160)
  || (c =? 5760) || ((8192 <=? c) && (c <=? 8202))
  || (c =? 8239) || (c =? 8287) || (c =? 12288) || (c =? 65279).

Definition isSpace (c : N) : bool := isWhiteSpace c || isLineTerminator c.

Fixpoint trimStart (s : jsstring) : jsstring :=
  match s with
  | c :: t => if isSpace c then trimStart t else s
  | [] => []
  end.

Definition trimEnd (s : jsstring) : jsstring := rev (trimStart (rev s)).

(** [String.prototype.trim] *)
Definition trim (s : jsstring) : jsstring := trimEnd (trimStart s).

(** *** Case conversion

    On ASCII the mappings are fixed; on strings with other code units they
    follow the Unicode tables of the engine, which are a parameter
    ([engine] below). *)

Definition isAscii (c : N) : bool := c <? 128.

Definition asciiLower (c : N) : N :=
  if (65 <=? c) && (c <=? 90) then c + 32 else c.

Definition asciiUpper (c : N) : N :=
  if (97 <=? c) && (c <=? 122) then c - 32 else c.

(** What the host engine decides: Unicode case mapping, the source text of
    a native function after the keyword [function], and the message of the
    [TypeError] raised when a property of [undefined] is read. *)
Record engine := {
  unicodeLower : jsstring -> jsstring;
  unicodeUpper : jsstring -> jsstring;
  nativeSource : jsstring -> jsstring;
  undefinedPropertyMessage : jsstring -> jsstring;
  stackTrace : jsstring -> jsstring
}.

Definition toLowerCase (E : engine) (s : jsstring) : jsstring :=
  if forallb isAscii s then map asciiLower s else unicodeLower E s.

Definition toUpperCase (E : engine) (s : jsstring) : jsstring :=
  if forallb isAscii s then map asciiUpper s else unicodeUpper E s.

(** *** Values that reach template literals and [||] *)

Inductive jsval :=
| VUndefined
| VStr (s : jsstring)
| VNum (n : N)
| VBool (b : bool)
| VNative (name : jsstring)      (* a built-in function object *)
| VObjectPrototype.              (* the object [Object.prototype] *)

Definition truthy (v : jsval) : bool :=
  match v with
  | VUndefined => false
  | VStr s => negb (str_eqb s [])
  | VNum n => negb (n =? 0)
  | VBool b => b
  | VNative _ | VObjectPrototype => true
  end.

(** [a || b] *)
Definition or_ (a b : jsval) : jsval := if truthy a then a else b.

(** [ToString], as applied by template literals and string concatenation *)
Definition toString (E : engine) (v : jsval) : jsstring :=
  match v with
  | VUndefined => js "undefined"
  | VStr s => s
  | VNum n => decimal n
  | VBool true => js "true"
  | VBool false => js "false"
  | VNative name => js "function " ++ nativeSource E name
  | VObjectPrototype => js "[object Object]"
  end.

Definition ofStr (o : option jsstring) : jsval :=
  match o with Some s => VStr s | None => VUndefined end.

Definition ofNum (o : option N) : jsval :=
  match o with Some n => VNum n | None => VUndefined end.

Definition ofBool (o : option bool) : jsval :=
  match o with Some b => VBool b | None => VUndefined end.

(** *** Property lookup on an object literal with string values

    [obj[key]] looks at the own properties first and then at
    [Object.prototype], whose properties every object literal inherits. *)

Definition objectPrototypeFunctions : list jsstring :=
  [ js "constructor"; js "hasOwnProperty"; js "isPrototypeOf";
    js "propertyIsEnumerable"; js "toLocaleString"; js "toString";
    js "valueOf"; js "__defineGetter__"; js "__defineSetter__";
    js "__lookupGetter__"; js "__lookupSetter__" ].

Fixpoint ownProperty (o : list (jsstring * jsstring)) (k : jsstring)
  : option jsstring :=
  match o with
  | [] => None
  | (k', v) :: o' => if str_eqb k' k then Some v else ownProperty o' k
  end.

Definition inherited (k : jsstring) : jsval :=
  if existsb (str_eqb k) objectPrototypeFunctions
  then VNative (if str_eqb k (js "constructor") then js "Object" else k)
  else if str_eqb k (js "__proto__") then VObjectPrototype
  else VUndefined.

Definition getProperty (E : engine) (o : list (jsstring * jsstring))
    (key : jsval) : jsval :=
  let k := toString E key in
  match ownProperty o k with
  | Some v => VStr v
  | None => inherited k
  end.

End JS.
Export JS.


(** ** Regular expressions

    The regular expressions of the source are sequences of anchors and of
    single-character classes under a quantifier, at most one of them inside a
    capturing group.  Matching is the backtracking search of ECMAScript:
    quantifiers are greedy, and a match is looked for at the leftmost start
    position first. *)

Module Regex.

Inductive quant := Once | Optional | OneOrMore.

Inductive atom :=
| Bol                                   (* ^ *)
| Eol                                   (* $ *)
| Cls (p : N -> bool) (q : quant)       (* a class, quantified *)
| Cap (p : N -> bool) (q : quant).      (* the same inside ( ) *)

Definition regex := list atom.

Section Greedy.
Context {R : Type}.
Variable p : N -> bool.
(** continuation: the text matched by the atom, and the rest *)
Variable k : jsstring -> jsstring -> option R.

(** Having matched [acc], take as many further characters as possible,
    giving them back one at a time while the continuation fails. *)
Fixpoint more (acc s : jsstring) : option R :=
  match s with
  | c :: t =>
    if p c then
      match more (acc ++ [c]) t with
      | Some r => Some r
      | None => k acc s
      end
    else k acc s
  | [] => k acc s
  end.

Definition quantified (q : quant) (s : jsstring) : option R :=
  match q, s with
  | Once, c :: t => if p c then k [c] t else None
  | Once, [] => None
  | Optional, c :: t =>
    if p c then
      match k [c] t with
      | Some r => Some r
      | None => k [] s
      end
    else k [] s
  | Optional, [] => k [] s
  | OneOrMore, c :: t => if p c then more [c] t else None
  | OneOrMore, [] => None
  end.
End Greedy.

Definition isEmpty (s : jsstring) : bool :=
  match s with [] => true | _ => false end.

(** Match at the current position; the result is the list of captures. *)
Fixpoint matchHere (re : regex) (atStart : bool) (s : jsstring)
  : option (list jsstring) :=
  match re with
  | [] => Some []
  | Bol :: re' => if atStart then matchHere re' atStart s else None
  | Eol :: re' =>
    match s with
    | [] => matchHere re' atStart s
    | _ :: _ => None
    end
  | Cls p q :: re' =>
    quantified p
      (fun m rest => matchHere re' (atStart && isEmpty m) rest) q s
  | Cap p q :: re' =>
    quantified p
      (fun m rest =>
         match matchHere re' (atStart && isEmpty m) rest with
         | Some caps => Some (m :: caps)
         | None => None
         end) q s
  end.

Fixpoint searchFrom (re : regex) (atStart : bool) (s : jsstring)
  : option (list jsstring) :=
  match matchHere re atStart s with
  | Some caps => Some caps
  | None =>
    match s with
    | [] => None
    | _ :: t => searchFrom re false t
    end
  end.

(** [String.prototype.match] without the [g] flag: the captures of the
    leftmost match, or [None] for [null]. *)
Definition exec (re : regex) (s : jsstring) : option (list jsstring) :=
  searchFrom re true s.

(** [RegExp.prototype.test] *)
Definition test (re : regex) (s : jsstring) : bool :=
  match exec re s with Some _ => true | None => false end.

(** A literal run of characters. *)
Definition lit (s : jsstring) : regex := map (fun c => Cls (N.eqb c) Once) s.

(** [s.replace(/[class]/g, f)]: every character of the class, left to
    right, is replaced by [f] of the one-character match. *)
Definition replaceAll (p : N -> bool) (f : jsstring -> jsstring)
    (s : jsstring) : jsstring :=
  flat_map (fun c => if p c then f [c] else [c]) s.

End Regex.

(** ** The page, the HTTP exchange and the observable events *)

Module Page.

(** An exception object. *)
Record jsError := {
  err_name : jsstring;
  err_message : jsstring;
  err_stack : jsstring
}.

(** [new Error(message)] *)
Definition newError (E : engine) (message : jsstring) : jsError :=
  {| err_name := js "Error"; err_message := message;
     err_stack := stackTrace E message |}.

(** The [TypeError] of reading property [prop] of [undefined]. *)
Definition undefinedProperty (E : engine) (prop : jsstring) : jsError :=
  {| err_name := js "TypeError";
     err_message := undefinedPropertyMessage E prop;
     err_stack := stackTrace E (undefinedPropertyMessage E prop) |}.

Inductive outcome (A : Type) :=
| Returned (a : A)
| Thrown (e : jsError).
Arguments Returned {A} a.
Arguments Thrown {A} e.

(** The JSON object of a response body, with the fields of the REST
    contract; a field that is absent reads as [undefined]. *)
Record apiData := {
  success : option bool;
  message : option jsstring;
  output : option jsstring;
  error : option jsstring;
  steps : option (list jsstring);
  status : option jsstring;
  client_id : option jsstring;
  public_key : option jsstring;
  key_type : option jsstring;
  clients_on_server : option N;
  clients_in_db : option N;
  clients_removed : option N;
  orphaned_clients : option (list jsstring);
  new_clients : option (list jsstring);
  service_running : option bool
}.

(** The object literal [{}] *)
Definition emptyObject : apiData :=
  {| success := None; message := None; output := None; error := None;
     steps := None; status := None; client_id := None; public_key := None;
     key_type := None; clients_on_server := None; clients_in_db := None;
     clients_removed := None; orphaned_clients := None;
     new_clients := None; service_running := None |}.

(** An HTTP response: [json] is what [response.json()] settles to, and
    [blob] what [response.blob()] settles to: the size of the blob, or the
    error of reading the body. *)
Record httpResponse := {
  http_status : N;
  json : outcome apiData;
  contentDisposition : option jsstring;
  blob : outcome N
}.

(** [response.ok] *)
Definition ok (r : httpResponse) : bool :=
  (200 <=? http_status r) && (http_status r <=? 299).

(** What [fetch] settles to. *)
Inductive fetched :=
| NetworkFailure (e : jsError)
| Responded (r : httpResponse).

(** A request: the body is the object handed to [JSON.stringify].  The
    headers (content type and CSRF token of the page) are the same for every
    request and are left out. *)
Record request := {
  url : jsstring;
  method : jsstring;
  payload : option (list (jsstring * jsval))
}.

(** The buttons an operation disables while it runs. *)
Inductive buttons :=
| ByOnclick (fragment : jsstring)   (* buttons whose onclick contains it *)
| ById (id : jsstring).

#[global] Instance buttons_eq_dec : EqDecision buttons.
Proof. solve_decision. Defined.

Inductive logArg :=
| LStr (s : jsstring)
| LNum (n : N)
| LVal (v : jsval)
| LList (l : list jsstring)
| LData (d : apiData)
| LError (e : jsError).

Inductive event :=
| ConsoleLog (args : list logArg)
| ConsoleError (args : list logArg)
| SetStatus (text : jsval) (type : jsstring)
| Alert (text : jsstring)
| Confirm (text : jsstring)
| Prompt (text : jsstring) (preset : jsval)
| ButtonLoading (target : buttons) (html : jsstring)
| ButtonRestore (target : buttons) (html : option jsstring)
| Sent (req : request)
| TerminalAppend (html : jsstring)
| ReloadPage (delay : N)
| SaveFile (filename : jsstring) (size : N)
| ModalHide
| FormReset
| SetInterval (period : N)
| ClearInterval.

(** What the scripts read from the page.  [isConnected] is the global
    flag of the terminal module, read when a response is handled.  The
    elements that the scripts use without a test (the form fields, the
    create button, the modal) are taken to be on the page. *)
Record page := {
  statusPresent : bool;      (* #ssh-status and #status-message exist *)
  terminalPresent : bool;    (* #terminal-output exists *)
  isConnected : bool
}.

(** An [async] function with at most one awaited exchange. *)
Inductive async :=
| Finished (es : list event)
| Awaiting (es : list event) (req : request) (k : fetched -> list event).

Definition dispatched (a : async) : option request :=
  match a with Finished _ => None | Awaiting _ req _ => Some req end.

(** The whole trace of a call whose exchange settles to [f]. *)
Definition run (a : async) (f : fetched) : list event :=
  match a with
  | Finished es => es
  | Awaiting es req k => es ++ Sent req :: k f
  end.

Definition requests (es : list event) : list request :=
  flat_map (fun e => match e with Sent r => [r] | _ => [] end) es.

End Page.
Export Page.

(** ** [static/js/utils.js] *)

Module Utils.
Import Regex.

Section WithEngine.
Variable E : engine.

(** [showStatus(message, type)] writes only when both status elements
    are on the page. *)
Definition showStatus (pg : page) (message : jsval) (type : jsstring)
  : list event :=
  if statusPresent pg then [SetStatus message type] else [].

(** [showButtonLoading], applied to every button of [target]. *)
Definition showButtonLoading (target : buttons) (message : jsstring)
  : list event :=
  [ButtonLoading target
     (js "<i class=" ++ dquote ++ js "fas fa-spinner fa-spin" ++ dquote
        ++ js "></i> " ++ message)].

(** [restoreButton], applied to every button of [target] with the HTML
    that [showButtonLoading] returned for it. *)
Definition restoreButton (target : buttons) : list event :=
  [ButtonRestore target None].

Definition showAlert (message title : jsstring) : list event :=
  if truthy (VStr title)
  then [Alert (title ++ nl ++ nl ++ message)]
  else [Alert message].

Definition reloadPage (delay : N) : list event := [ReloadPage delay].

Definition htmlEntities : list (jsstring * jsstring) :=
  [ (js "&", js "&amp;"); (js "<", js "&lt;"); (js ">", js "&gt;");
    (dquote, js "&quot;"); (js "'", js "&#039;") ].

(** the class of [&], [<], [>], the double quote and the apostrophe *)
Definition isHtmlSpecial (c : N) : bool :=
  (c =? 38) || (c =? 60) || (c =? 62) || (c =? 34) || (c =? 39).

Definition escapeHtml (text : jsstring) : jsstring :=
  replaceAll isHtmlSpecial
    (fun m => toString E (getProperty E htmlEntities (VStr m))) text.

(** the class [^\s@] *)
Definition notSpaceNorAt (c : N) : bool := negb (isSpace c || (c =? 64)).

(** /^[^\s@]+@[^\s@]+\.[^\s@]+$/ *)
Definition emailRe : regex :=
  [ Bol; Cls notSpaceNorAt OneOrMore; Cls (N.eqb 64) Once;
    Cls notSpaceNorAt OneOrMore; Cls (N.eqb 46) Once;
    Cls notSpaceNorAt OneOrMore; Eol ].

Definition isValidEmail (email : jsstring) : bool := test emailRe email.

(** the class [a-zA-Z0-9_-] *)
Definition isNameChar (c : N) : bool :=
  ((97 <=? c) && (c <=? 122)) || ((65 <=? c) && (c <=? 90))
  || ((48 <=? c) && (c <=? 57)) || (c =? 95) || (c =? 45).

(** /^[a-zA-Z0-9_-]+$/ *)
Definition clientNameRe : regex := [ Bol; Cls isNameChar OneOrMore; Eol ].

Definition isValidClientName (name : jsstring) : bool :=
  test clientNameRe name.

Definition handleApiError (error : jsError) (context : jsstring)
  : list event :=
  ConsoleError [LStr (context ++ js " error:"); LError error]
    :: showAlert (context ++ js ": " ++ err_message error) (js "Ошибка").

(** [apiRequest(url, options)] as the handlers use it, once [fetch] has
    settled to [f]; the request itself is the [Awaiting] node of the caller.
    The body is an object of the REST contract and the CSRF token is taken
    to be readable; [Api.apiRequest] below follows the function on any
    cookie and any body. *)
Definition apiRequest (f : fetched) : outcome apiData :=
  match f with
  | NetworkFailure e => Thrown e
  | Responded response =>
    if negb (ok response) then
      let data :=
        match json response with
        | Returned d => d
        | Thrown _ => emptyObject
        end in
      Thrown (newError E
        (toString E
           (or_ (ofStr (error data))
                (VStr (js "HTTP error! status: "
                         ++ decimal (http_status response))))))
    else json response
  end.

(** The request [apiRequest] sends. *)
Definition apiCall (url method : jsstring)
    (payload : option (list (jsstring * jsval))) : request :=
  {| url := url; method := method; payload := payload |}.

End WithEngine.
End Utils.

(** ** The terminal module *)

Module Terminal.
Import Regex Utils.

Definition terminalHtml (E : engine) (text : jsstring) : jsstring :=
  replaceAll (N.eqb 32) (fun _ => js "&nbsp;")
    (replaceAll (N.eqb 10) (fun _ => js "<br>") (escapeHtml E text)).

(** [appendToTerminal(text)]: the [innerHTML] of the appended element. *)
Definition appendToTerminal (E : engine) (pg : page) (text : jsstring)
  : list event :=
  if terminalPresent pg then [TerminalAppend (terminalHtml E text)] else [].

End Terminal.

(** ** The client-management module *)

Module Clients.
Import Regex Utils Terminal.

Section WithEngine.
Variable E : engine.

(** /filename="?(.+)"?/ : the dot is any character but a line
    terminator. *)
Definition filenameRe : regex :=
  lit (js "filename=")
    ++ [ Cls (N.eqb 34) Optional;
         Cap (fun c => negb (isLineTerminator c)) OneOrMore;
         Cls (N.eqb 34) Optional ].

(** [createClient()]: [serverId] is the data attribute of the page,
    [nameValue] and [emailValue] the values of the two form fields. *)
Definition createClient (pg : page) (serverId : option jsstring)
    (nameValue emailValue : jsstring) : async :=
  let clientName := trim nameValue in
  let clientEmail := trim emailValue in
  if negb (truthy (VStr clientName)) then
    Finished (showAlert (js "Введите имя клиента") [])
  else if negb (isValidClientName clientName) then
    Finished (showAlert
      (js "Имя клиента может содержать только латинские буквы, цифры, дефис и подчеркивание")
      [])
  else if truthy (VStr clientEmail) && negb (isValidEmail clientEmail) then
    Finished (showAlert (js "Введите корректный email адрес") [])
  else
    let createBtn := ById (js "createClientBtn") in
    let requestData :=
      (js "client_name", VStr clientName)
        :: (if truthy (VStr clientEmail)
            then [(js "email", VStr clientEmail)] else []) in
    Awaiting
      (ConsoleLog [LStr (js "Creating client:"); LStr clientName;
                   LStr (js "for server:"); LVal (ofStr serverId)]
         :: showButtonLoading createBtn (js "Создаем..."))
      (apiCall
         (js "/api/servers/" ++ toString E (ofStr serverId)
            ++ js "/create-client/")
         (js "POST") (Some requestData))
      (fun f =>
         match apiRequest E f with
         | Returned data =>
           ConsoleLog [LStr (js "API Response data:"); LData data]
           :: (if truthy (ofBool (success data)) then
                 showAlert
                   (js "Клиент " ++ dquote ++ clientName ++ dquote
                      ++ js " успешно создан!" ++ nl ++ nl ++ js "ID: "
                      ++ toString E (ofStr (client_id data)) ++ nl ++ nl
                      ++ js "Теперь вы можете скачать конфигурационный файл .ovpn")
                   (js "Успешно")
                 ++ [ModalHide; FormReset]
                 ++ (if truthy (ofStr (output data)) && isConnected pg then
                       appendToTerminal E pg
                         (nl ++ js "=== Client Creation Output ===" ++ nl)
                       ++ appendToTerminal E pg
                            (toString E (ofStr (output data)) ++ nl)
                       ++ appendToTerminal E pg
                            (js "=== Client Created Successfully ===" ++ nl)
                     else [])
                 ++ reloadPage 1500
               else
                 let errorMsg :=
                   or_ (or_ (ofStr (error data)) (ofStr (message data)))
                       (VStr (js "Неизвестная ошибка")) in
                 showAlert
                   (js "Ошибка создания клиента: " ++ toString E errorMsg)
                   (js "Ошибка")
                 ++ (if truthy (ofStr (output data)) && isConnected pg then
                       appendToTerminal E pg
                         (nl ++ js "=== Client Creation Error ===" ++ nl)
                       ++ appendToTerminal E pg
                            (toString E (ofStr (output data)) ++ nl)
                       ++ (if truthy (ofStr (error data)) then
                             appendToTerminal E pg
                               (js "Error: "
                                  ++ toString E (ofStr (error data)) ++ nl)
                           else [])
                       ++ appendToTerminal E pg (js "=== End Error ===" ++ nl)
                     else []))
         | Thrown error =>
           handleApiError error (js "Ошибка создания клиента")
         end
         ++ [ConsoleLog [LStr (js "Client creation request completed")]]
         ++ restoreButton createBtn).

(** The file name [downloadClientConfig] saves under. *)
Definition downloadFilename (clientName : jsstring)
    (contentDisposition : option jsstring) : jsstring :=
  let filename := clientName ++ js ".ovpn" in
  match contentDisposition with
  | Some header =>
    if truthy (VStr header) then
      match exec filenameRe header with
      | Some (group1 :: _) => group1
      | _ => filename
      end
    else filename
  | None => filename
  end.

(** The selector of the download buttons,
    [button[onclick*=...]] with [downloadClientConfig('NAME')] between
    double quotes.  A name without a double quote, a backslash, a line
    break, a null character or a surrogate stands for itself between the
    quotes, and the buttons are those whose onclick contains the text.  For
    any other name the outcome is that of the CSS parser of the host,
    [special]: other buttons, or the SyntaxError that
    [document.querySelectorAll] throws. *)
Definition isCssPlain (c : N) : bool :=
  negb ((c =? 34) || (c =? 92) || (c =? 10) || (c =? 13) || (c =? 12)
        || (c =? 0) || ((55296 <=? c) && (c <=? 57343))).

Definition downloadButtons (clientName : jsstring) (special : outcome buttons)
  : outcome buttons :=
  if forallb isCssPlain clientName
  then Returned
         (ByOnclick (js "downloadClientConfig('" ++ clientName ++ js "')"))
  else special.

(** [downloadClientConfig(clientName)]; this one calls [fetch] itself.
    The buttons are looked up before the [try]: when the lookup throws, the
    call ends there, its promise rejected. *)
Definition downloadClientConfig (pg : page) (serverId : option jsstring)
    (clientName : jsstring) (special : outcome buttons) : async :=
  let entry :=
    ConsoleLog [LStr (js "Downloading client config:"); LStr clientName;
                LStr (js "from server:"); LVal (ofStr serverId)] in
  match downloadButtons clientName special with
  | Thrown _ => Finished [entry]
  | Returned downloadBtns =>
    Awaiting
      [ entry;
        ButtonLoading downloadBtns
          (js "<i class=" ++ dquote ++ js "fas fa-spinner fa-spin" ++ dquote
             ++ js "></i>") ]
      {| url := js "/api/servers/" ++ toString E (ofStr serverId)
                  ++ js "/download-client/" ++ clientName ++ js "/";
         method := js "GET"; payload := None |}
      (fun f =>
         match f with
         | NetworkFailure error =>
           handleApiError error (js "Ошибка скачивания")
         | Responded response =>
           ConsoleLog [LStr (js "Download response status:");
                       LNum (http_status response)]
           :: (if negb (ok response) then
                 let data :=
                   match json response with
                   | Returned d => d
                   | Thrown _ => emptyObject
                   end in
                 handleApiError
                   (newError E
                      (toString E
                         (or_ (ofStr (error data))
                              (VStr (js "HTTP error! status: "
                                       ++ decimal (http_status response))))))
                   (js "Ошибка скачивания")
               else
                 let filename :=
                   downloadFilename clientName (contentDisposition response) in
                 match blob response with
                 | Returned size =>
                   [ ConsoleLog [LStr (js "Downloaded file:"); LStr filename;
                                 LStr (js "size:"); LNum size];
                     SaveFile filename size ]
                   ++ (if isConnected pg then
                         appendToTerminal E pg
                           (nl ++ js "=== Downloaded: " ++ filename
                              ++ js " ===" ++ nl)
                       else [])
                   ++ showAlert
                        (js "Конфигурационный файл " ++ dquote ++ filename
                           ++ dquote ++ js " успешно скачан!")
                        (js "Успешно")
                 | Thrown error =>
                   handleApiError error (js "Ошибка скачивания")
                 end)
         end
         ++ [ ConsoleLog [LStr (js "Download request completed")];
              ButtonRestore downloadBtns
                (Some (js "<i class=" ++ dquote ++ js "fas fa-download"
                         ++ dquote ++ js "></i>")) ])
  end.

End WithEngine.
End Clients.

(** ** The server-action module *)

Module ServerActions.
Import Regex Utils Terminal.

Section WithEngine.
Variable E : engine.

(** The block written to the terminal after a successful operation:
    shown when the response has output and the terminal is connected. *)
Definition outputBlock (pg : page) (data : apiData)
    (header footer : jsstring) : list event :=
  if truthy (ofStr (output data)) && isConnected pg then
    appendToTerminal E pg header
    ++ appendToTerminal E pg (toString E (ofStr (output data)) ++ nl)
    ++ appendToTerminal E pg footer
  else [].

(** The block written after a failed one. *)
Definition errorBlock (pg : page) (data : apiData) (header : jsstring)
  : list event :=
  if truthy (ofStr (output data)) && isConnected pg then
    appendToTerminal E pg header
    ++ appendToTerminal E pg (toString E (ofStr (output data)) ++ nl)
    ++ (if truthy (ofStr (error data)) then
          appendToTerminal E pg
            (js "Error: " ++ toString E (ofStr (error data)) ++ nl)
        else [])
    ++ appendToTerminal E pg (js "=== End Error ===" ++ nl)
  else [].

(** [data.error || data.message || 'Неизвестная ошибка'] *)
Definition errorMessage (data : apiData) : jsval :=
  or_ (or_ (ofStr (error data)) (ofStr (message data)))
      (VStr (js "Неизвестная ошибка")).

(** [generateSSHKey(serverId)].  [password] is the answer to the prompt
    ([None] when it is dismissed); [useEd25519], [clearPassword] and
    [showKey] are the answers to the three confirmations. *)
Definition generateSSHKey (pg : page) (serverId : N)
    (password : option jsstring) (useEd25519 clearPassword showKey : bool)
  : async :=
  let ask :=
    Prompt (js "Введите пароль SSH для подключения к серверу:") VUndefined in
  if negb (truthy (ofStr password)) then
    Finished
      (ask :: showStatus pg (VStr (js "Отменено: пароль не введен"))
                (js "warning"))
  else
    let keyType := if useEd25519 then js "ed25519" else js "rsa" in
    let generateButtons := ByOnclick (js "generateSSHKey") in
    let caught (error : jsError) :=
      ConsoleError [LStr (js "Error generating SSH key:"); LError error]
        :: showStatus pg (VStr (js "Ошибка: " ++ err_message error))
             (js "danger") in
    Awaiting
      ([ ask;
         Confirm (js "Использовать ED25519 ключ?" ++ nl ++ nl
                    ++ js "ОК = ED25519 (быстрее, безопаснее, рекомендуется)"
                    ++ nl
                    ++ js "Отмена = RSA 4096 (совместимость со старыми системами)");
         ConsoleLog [LStr (js "Generating " ++ keyType
                             ++ js " SSH key for server:");
                     LNum serverId] ]
       ++ showStatus pg
            (VStr (js "Генерируем " ++ toUpperCase E keyType
                     ++ js " SSH ключ и устанавливаем на сервер..."))
            (js "info")
       ++ showButtonLoading generateButtons (js "Генерируем...")
       ++ [Confirm (js "Удалить сохраненный пароль после установки ключа?")])
      (apiCall
         (js "/api/servers/" ++ decimal serverId ++ js "/generate-ssh-key/")
         (js "POST")
         (Some [ (js "password", ofStr password);
                 (js "key_type", VStr keyType);
                 (js "clear_password", VBool clearPassword) ]))
      (fun f =>
         match apiRequest E f with
         | Returned data =>
           ConsoleLog [LStr (js "SSH Key Generation Response:"); LData data]
           :: (if truthy (ofBool (success data)) then
                 showStatus pg (ofStr (message data)) (js "success")
                 ++ (if truthy (ofStr (public_key data)) then
                       match key_type data with
                       | None => caught (undefinedProperty E (js "toUpperCase"))
                       | Some keyTypeOfData =>
                         Confirm
                           (js "✓ SSH ключ успешно сгенерирован и установлен!"
                              ++ nl ++ nl
                              ++ js "Тип ключа: "
                              ++ toUpperCase E keyTypeOfData ++ nl
                              ++ js "Приватный ключ: Сохранен в базе данных"
                              ++ nl
                              ++ js "Публичный ключ: Установлен на сервере"
                              ++ nl ++ nl ++ js "Показать публичный ключ?")
                         :: (if showKey then
                               [Prompt
                                  (js "Публичный ключ (скопируйте при необходимости):")
                                  (ofStr (public_key data))]
                             else [])
                         ++ reloadPage 1000
                       end
                     else reloadPage 1000)
               else
                 let errorMsg :=
                   or_ (ofStr (error data)) (VStr (js "Неизвестная ошибка")) in
                 showStatus pg
                   (VStr (js "Ошибка генерации ключа: " ++ toString E errorMsg))
                   (js "danger"))
         | Thrown error => caught error
         end
         ++ restoreButton generateButtons).

(** [installOpenVPN(serverId)]; [confirmed] is the answer to the
    confirmation dialog. *)
Definition installOpenVPN (pg : page) (serverId : N) (confirmed : bool)
  : async :=
  let ask := Confirm (js "Установить OpenVPN на этом сервере?") in
  if negb confirmed then Finished [ask]
  else
    let installButtons := ByOnclick (js "installOpenVPN") in
    Awaiting
      ([ ask;
         ConsoleLog [LStr (js "Starting OpenVPN installation for server:");
                     LNum serverId] ]
       ++ showStatus pg (VStr (js "Устанавливаем OpenVPN...")) (js "info")
       ++ showButtonLoading installButtons (js "Устанавливаем..."))
      (apiCall
         (js "/api/servers/" ++ decimal serverId ++ js "/install-openvpn/")
         (js "POST") None)
      (fun f =>
         match apiRequest E f with
         | Returned data =>
           ConsoleLog [LStr (js "API Response data:"); LData data]
           :: (if truthy (ofBool (success data)) then
                 showStatus pg (ofStr (message data)) (js "success")
                 ++ outputBlock pg data
                      (nl ++ js "=== OpenVPN Installation Output ===" ++ nl)
                      (js "=== Installation Complete ===" ++ nl)
                 ++ reloadPage 2000
               else
                 showStatus pg
                   (VStr (js "Ошибка установки: "
                            ++ toString E (errorMessage data)))
                   (js "danger")
                 ++ errorBlock pg data
                      (nl ++ js "=== Installation Error ===" ++ nl))
         | Thrown error => handleApiError error (js "Ошибка установки")
         end
         ++ [ConsoleLog [LStr (js "Installation request completed")]]
         ++ restoreButton installButtons).

(** [configureOpenVPN(serverId)] *)
Definition configureOpenVPN (pg : page) (serverId : N) (confirmed : bool)
  : async :=
  let ask :=
    Confirm (js "Настроить OpenVPN сервер? Это создаст CA, сертификаты и конфигурацию.") in
  if negb confirmed then Finished [ask]
  else
    let configButtons := ByOnclick (js "configureOpenVPN") in
    Awaiting
      ([ ask;
         ConsoleLog [LStr (js "Starting OpenVPN configuration for server:");
                     LNum serverId] ]
       ++ showStatus pg (VStr (js "Настраиваем OpenVPN сервер...")) (js "info")
       ++ showButtonLoading configButtons (js "Настраиваем..."))
      (apiCall
         (js "/api/servers/" ++ decimal serverId ++ js "/configure-openvpn/")
         (js "POST") (Some []))
      (fun f =>
         match apiRequest E f with
         | Returned data =>
           ConsoleLog [LStr (js "API Response data:"); LData data]
           :: (if truthy (ofBool (success data)) then
                 showStatus pg (ofStr (message data)) (js "success")
                 ++ outputBlock pg data
                      (nl ++ js "=== OpenVPN Configuration Output ===" ++ nl)
                      (js "=== Configuration Complete ===" ++ nl)
               else
                 showStatus pg
                   (VStr (js "Ошибка настройки: "
                            ++ toString E (errorMessage data)))
                   (js "danger")
                 ++ errorBlock pg data
                      (nl ++ js "=== Configuration Error ===" ++ nl))
         | Thrown error => handleApiError error (js "Ошибка настройки")
         end
         ++ [ConsoleLog [LStr (js "Configuration request completed")]]
         ++ restoreButton configButtons).

(** [startOpenVPN(serverId)] *)
Definition startOpenVPN (pg : page) (serverId : N) (confirmed : bool)
  : async :=
  let ask := Confirm (js "Запустить OpenVPN сервер?") in
  if negb confirmed then Finished [ask]
  else
    let startButtons := ByOnclick (js "startOpenVPN") in
    Awaiting
      ([ ask;
         ConsoleLog [LStr (js "Starting OpenVPN server for server:");
                     LNum serverId] ]
       ++ showStatus pg (VStr (js "Запускаем OpenVPN сервер...")) (js "info")
       ++ showButtonLoading startButtons (js "Запускаем..."))
      (apiCall
         (js "/api/servers/" ++ decimal serverId ++ js "/start-openvpn/")
         (js "POST") None)
      (fun f =>
         match apiRequest E f with
         | Returned data =>
           ConsoleLog [LStr (js "API Response data:"); LData data]
           :: (if truthy (ofBool (success data)) then
                 showStatus pg (VStr (js "OpenVPN сервер успешно запущен!"))
                   (js "success")
                 ++ outputBlock pg data
                      (nl ++ js "=== OpenVPN Start Output ===" ++ nl)
                      (js "=== Server Started ===" ++ nl)
                 ++ reloadPage 2000
               else
                 showStatus pg
                   (VStr (js "Ошибка запуска: "
                            ++ toString E (errorMessage data)))
                   (js "danger")
                 ++ errorBlock pg data (nl ++ js "=== Start Error ===" ++ nl))
         | Thrown error => handleApiError error (js "Ошибка запуска")
         end
         ++ [ConsoleLog [LStr (js "Start request completed")]]
         ++ restoreButton startButtons).

(** The object literal that [checkStatus] indexes with [data.status]. *)
Definition statusLabels : list (jsstring * jsstring) :=
  [ (js "running", js "✅ Работает");
    (js "stopped", js "⛔ Остановлен");
    (js "error", js "❌ Ошибка") ].

(** The text [checkStatus] appends to the status line. *)
Definition statusText (data : apiData) : jsval :=
  or_ (getProperty E statusLabels (ofStr (status data)))
      (ofStr (status data)).

(** [checkStatus(serverId)] *)
Definition checkStatus (pg : page) (serverId : N) : async :=
  Awaiting
    (ConsoleLog [LStr (js "Checking server status:"); LNum serverId]
       :: showStatus pg (VStr (js "Проверяем статус сервера...")) (js "info"))
    (apiCall
       (js "/api/servers/" ++ decimal serverId ++ js "/check-status/")
       (js "POST") None)
    (fun f =>
       match apiRequest E f with
       | Returned data =>
         if truthy (ofBool (success data)) then
           showStatus pg
             (VStr (js "Статус сервера: " ++ toString E (statusText data)))
             (if bool_decide (status data = Some (js "running"))
              then js "success" else js "warning")
           ++ reloadPage 1000
         else
           showStatus pg
             (VStr (js "Ошибка: " ++ toString E (ofStr (error data))))
             (js "danger")
       | Thrown error =>
         ConsoleError [LStr (js "Error checking status:"); LError error]
           :: showStatus pg
                (VStr (js "Ошибка при проверке статуса: "
                         ++ err_message error))
                (js "danger")
       end).

Definition progressMessages : list jsstring :=
  [ js "Останавливаем OpenVPN сервер...";
    js "Удаляем старые конфигурации...";
    js "Переустанавливаем OpenVPN...";
    js "Настраиваем сервер...";
    js "Запускаем OpenVPN..." ].

(** The test on the text typed at the second confirmation of
    [reinstallOpenVPN]: [true] when the operation is called off. *)
Definition reinstallCancelled (confirmText : option jsstring) : bool :=
  match confirmText with
  | None => true
  | Some text =>
    negb (truthy (VStr text))
    || (negb (str_eqb text (js "REINSTALL"))
        && negb (str_eqb (toLowerCase E text) (js "reinstall")))
  end.

(** [reinstallOpenVPN(serverId)].  [confirmed] answers the dialog,
    [confirmText] is what the prompt returns, and [ticks] counts the
    firings of the progress timer before the exchange settles. *)
Definition reinstallOpenVPN (pg : page) (serverId : N) (confirmed : bool)
    (confirmText : option jsstring) (ticks : nat) : async :=
  let called :=
    ConsoleLog [LStr (js "reinstallOpenVPN function called with serverId:");
                LNum serverId] in
  let ask :=
    Confirm
      (js "⚠️ ВНИМАНИЕ! ⚠️" ++ nl ++ nl
         ++ js "Вы собираетесь ПОЛНОСТЬЮ ПЕРЕУСТАНОВИТЬ OpenVPN сервер."
         ++ nl ++ nl
         ++ js "Это действие:" ++ nl
         ++ js "• Остановит OpenVPN сервер" ++ nl
         ++ js "• Удалит ВСЕ конфигурации и сертификаты" ++ nl
         ++ js "• Отключит ВСЕХ подключенных клиентов" ++ nl
         ++ js "• Переустановит OpenVPN с нуля" ++ nl
         ++ js "• Пересоздаст все настройки" ++ nl ++ nl
         ++ js "ВСЕ КЛИЕНТСКИЕ СЕРТИФИКАТЫ БУДУТ УДАЛЕНЫ!" ++ nl ++ nl
         ++ js "Продолжить?") in
  let askText :=
    Prompt
      (js "Для подтверждения введите название сервера или " ++ dquote
         ++ js "REINSTALL" ++ dquote ++ js ":" ++ nl ++ nl
         ++ js "(Это действие необратимо!)")
      VUndefined in
  if negb confirmed then Finished [called; ask]
  else if reinstallCancelled confirmText then
    Finished
      ([called; ask; askText]
       ++ showStatus pg (VStr (js "Переустановка отменена")) (js "warning"))
  else
    let reinstallButtons := ByOnclick (js "reinstallOpenVPN") in
    Awaiting
      ([ called; ask; askText;
         ConsoleLog
           [LStr (js "Starting complete OpenVPN reinstallation for server:");
            LNum serverId] ]
       ++ showStatus pg
            (VStr (js "⚙️ Запускаем полную переустановку OpenVPN..."))
            (js "warning")
       ++ showButtonLoading reinstallButtons (js "Переустанавливаем...")
       ++ [SetInterval 3000])
      (apiCall
         (js "/api/servers/" ++ decimal serverId ++ js "/reinstall-openvpn/")
         (js "POST") None)
      (fun f =>
         flat_map
           (fun m => showStatus pg (VStr (js "⏳ " ++ m)) (js "info"))
           (take ticks progressMessages)
         ++ match apiRequest E f with
            | Returned data =>
              [ ClearInterval;
                ConsoleLog [LStr (js "Reinstallation API Response:");
                            LData data] ]
              ++ (if truthy (ofBool (success data)) then
                    showStatus pg
                      (VStr (js "✅ " ++ toString E (ofStr (message data))))
                      (js "success")
                    ++ match steps data with
                       | Some stepList =>
                         if isConnected pg then
                           appendToTerminal E pg
                             (nl ++ js "=== OpenVPN Reinstallation Steps ==="
                                ++ nl)
                           ++ flat_map
                                (fun step =>
                                   appendToTerminal E pg (step ++ nl))
                                stepList
                           ++ appendToTerminal E pg
                                (js "=== Reinstallation Complete ===" ++ nl)
                         else []
                       | None => []
                       end
                    ++ match service_running data with
                       | Some running =>
                         showStatus pg
                           (VStr (if running
                                  then js "✅ OpenVPN сервер работает"
                                  else js "⚠️ OpenVPN установлен, но не запущен (проверьте логи)"))
                           (if running then js "success" else js "warning")
                       | None => []
                       end
                    ++ showStatus pg
                         (VStr (js "Страница будет перезагружена через 3 секунды..."))
                         (js "info")
                    ++ reloadPage 3000
                  else
                    showStatus pg
                      (VStr (js "❌ Ошибка переустановки: "
                               ++ toString E (errorMessage data)))
                      (js "danger")
                    ++ match steps data with
                       | Some stepList =>
                         if isConnected pg then
                           appendToTerminal E pg
                             (nl ++ js "=== Reinstallation Error ===" ++ nl)
                           ++ flat_map
                                (fun step =>
                                   appendToTerminal E pg (step ++ nl))
                                stepList
                           ++ (if truthy (ofStr (error data)) then
                                 appendToTerminal E pg
                                   (nl ++ js "Error: "
                                      ++ toString E (ofStr (error data))
                                      ++ nl)
                               else [])
                           ++ appendToTerminal E pg
                                (js "=== End Error ===" ++ nl)
                         else []
                       | None => []
                       end)
            | Thrown error =>
              ConsoleError [LStr (js "Error reinstalling OpenVPN:");
                            LError error]
              :: showStatus pg
                   (VStr (js "❌ Ошибка: " ++ err_message error))
                   (js "danger")
              ++ (if isConnected pg then
                    appendToTerminal E pg
                      (nl ++ js "=== Reinstallation Failed ===" ++ nl)
                    ++ appendToTerminal E pg
                         (js "Error: " ++ err_message error ++ nl)
                    ++ appendToTerminal E pg
                         (js "Stack: " ++ err_stack error ++ nl)
                    ++ appendToTerminal E pg (js "=== End Error ===" ++ nl)
                  else [])
            end
         ++ [ConsoleLog [LStr (js "Reinstallation request completed")]]
         ++ restoreButton reinstallButtons).

(** [array.join(', ')] *)
Fixpoint join (sep : jsstring) (l : list jsstring) : jsstring :=
  match l with
  | [] => []
  | [x] => x
  | x :: rest => x ++ sep ++ join sep rest
  end.

(** [syncClients(serverId)] *)
Definition syncClients (pg : page) (serverId : N) : async :=
  Awaiting
    (ConsoleLog [LStr (js "Syncing clients for server:"); LNum serverId]
       :: showStatus pg
            (VStr (js "🔄 Синхронизируем клиентов с сервером..."))
            (js "info"))
    (apiCall
       (js "/api/servers/" ++ decimal serverId ++ js "/sync-clients/")
       (js "POST") None)
    (fun f =>
       match apiRequest E f with
       | Returned data =>
         ConsoleLog [LStr (js "Sync Clients Response:"); LData data]
         :: (if truthy (ofBool (success data)) then
               let msg :=
                 js "✅ " ++ toString E (ofStr (message data)) ++ nl
                 ++ js "Клиентов на сервере: "
                 ++ toString E (or_ (ofNum (clients_on_server data)) (VNum 0))
                 ++ nl
                 ++ js "Клиентов в БД: "
                 ++ toString E (or_ (ofNum (clients_in_db data)) (VNum 0))
                 ++ nl
                 ++ js "Удалено: "
                 ++ toString E (or_ (ofNum (clients_removed data)) (VNum 0)) in
               showStatus pg (VStr msg) (js "success")
               ++ match orphaned_clients data with
                  | Some orphaned =>
                    if (0 <? List.length orphaned)%nat then
                      [ConsoleLog [LStr (js "Removed orphaned clients:");
                                   LList orphaned]]
                    else []
                  | None => []
                  end
               ++ match new_clients data with
                  | Some newClients =>
                    if (0 <? List.length newClients)%nat then
                      ConsoleLog [LStr (js "New clients on server:");
                                  LList newClients]
                      :: showStatus pg
                           (VStr (js "⚠️ На сервере найдены новые клиенты, которых нет в БД: "
                                    ++ join (js ", ") newClients))
                           (js "warning")
                    else []
                  | None => []
                  end
               ++ reloadPage 2000
             else
               let errorMsg :=
                 or_ (ofStr (error data)) (VStr (js "Неизвестная ошибка")) in
               showStatus pg
                 (VStr (js "❌ Ошибка синхронизации: "
                          ++ toString E errorMsg))
                 (js "danger"))
       | Thrown error =>
         ConsoleError [LStr (js "Error syncing clients:"); LError error]
           :: showStatus pg (VStr (js "❌ Ошибка: " ++ err_message error))
                (js "danger")
       end).

End WithEngine.
End ServerActions.

(** ** The reconciliation engine behind [sync-clients] *)

Module Reconciliation.

(** The report of one reconciliation. *)
Record report := {
  on_server : gset jsstring;
  in_db : gset jsstring;
  orphaned : gset jsstring;
  new : gset jsstring
}.

(** Modelled from the spec: the reconciliation engine that serves
    [POST /servers/{id}/sync-clients] is not among the source files; only
    its caller [syncClients] is.  From the identifiers [R] reported by the
    remote host and the identifiers [D] recorded in the database it derives
    [orphaned = D \ R] and [new = R \ D]. *)
Definition reconcile (R D : gset jsstring) : report :=
  {| on_server := R; in_db := D; orphaned := D ∖ R; new := R ∖ D |}.

(** Modelled from the spec: the response of [sync-clients], which carries
    the cardinalities of [R], [D] and [orphaned] and the two derived sets
    as arrays. *)
Definition response (text : jsstring) (r : report) : apiData :=
  {| success := Some true; message := Some text; output := None;
     error := None; steps := None; status := None; client_id := None;
     public_key := None; key_type := None;
     clients_on_server := Some (N.of_nat (size (on_server r)));
     clients_in_db := Some (N.of_nat (size (in_db r)));
     clients_removed := Some (N.of_nat (size (orphaned r)));
     orphaned_clients := Some (elements (orphaned r));
     new_clients := Some (elements (new r));
     service_running := None |}.

End Reconciliation.

(** ** The page as a state machine

    The handlers run to their first [await] without interruption; while an
    exchange is pending the page handles further clicks.  A disabled button
    fires no click event.  The page is the one of a server: its buttons, in
    document order, each with its [onclick] attribute.  The selector
    [button[onclick*=...]] of a handler finds every button whose attribute
    contains the text, so the selector of [installOpenVPN] also finds the
    buttons of [reinstallOpenVPN]. *)

Module Browser.
Import ServerActions.

Inductive operation := Install | Configure | Start | Reinstall.

#[global] Instance operation_eq_dec : EqDecision operation.
Proof. solve_decision. Defined.

(** The text an operation looks for in the [onclick] attributes: its own
    name. *)
Definition nameOf (o : operation) : jsstring :=
  match o with
  | Install => js "installOpenVPN"
  | Configure => js "configureOpenVPN"
  | Start => js "startOpenVPN"
  | Reinstall => js "reinstallOpenVPN"
  end.

(** The selector by which an operation finds the buttons it disables. *)
Definition buttonsOf (o : operation) : buttons := ByOnclick (nameOf o).

(** A button element: its [id] and [onclick] attributes, when it has
    them, and its [disabled] property. *)
Record button := {
  buttonId : option jsstring;
  onclick : option jsstring;
  disabled : bool
}.

Definition withDisabled (value : bool) (b : button) : button :=
  {| buttonId := buttonId b; onclick := onclick b; disabled := value |}.

Fixpoint startsWith (prefix s : jsstring) : bool :=
  match prefix, s with
  | [], _ => true
  | p :: prefix', c :: s' => (p =? c) && startsWith prefix' s'
  | _ :: _, [] => false
  end.

(** [fragment] occurs somewhere in [s]. *)
Fixpoint includes (fragment s : jsstring) : bool :=
  startsWith fragment s
  || match s with
     | [] => false
     | _ :: s' => includes fragment s'
     end.

(** Whether [document.querySelectorAll] with the selector
    [button[onclick*=fragment]] returns the button: the attribute is there
    and contains the fragment, which is not empty. *)
Definition selects (target : buttons) (b : button) : bool :=
  match target with
  | ByOnclick fragment =>
    match onclick b with
    | Some code => negb (Regex.isEmpty fragment) && includes fragment code
    | None => false
    end
  | ById id => bool_decide (buttonId b = Some id)
  end.

(** [document.getElementById] finds the first element with the id. *)
Fixpoint setFirst (id : jsstring) (value : bool) (page : list button)
  : list button :=
  match page with
  | [] => []
  | b :: rest =>
    if selects (ById id) b then withDisabled value b :: rest
    else b :: setFirst id value rest
  end.

(** Setting [disabled] on every button of a target. *)
Definition setDisabled (target : buttons) (value : bool) (page : list button)
  : list button :=
  match target with
  | ByOnclick _ =>
    map (fun b => if selects target b then withDisabled value b else b) page
  | ById id => setFirst id value page
  end.

(** The call that the button of an operation carries as its [onclick]
    attribute on the page of the server [serverId]. *)
Definition callOf (o : operation) (serverId : N) : jsstring :=
  nameOf o ++ js "(" ++ decimal serverId ++ js ")".

(** The operation that a click on the button starts: the one whose call
    is its [onclick] attribute.  Buttons with any other attribute are not
    lifecycle buttons, though a selector may find them. *)
Definition invokes (serverId : N) (b : button) : option operation :=
  List.find (fun o => bool_decide (onclick b = Some (callOf o serverId)))
    [Install; Configure; Start; Reinstall].

(** The answers the user gives to the dialogs of a handler, and the
    number of progress ticks seen while it is pending. *)
Record answers := {
  confirmed : bool;
  confirmText : option jsstring;
  ticks : nat
}.

Definition handler (E : engine) (pg : page) (serverId : N) (o : operation)
    (a : answers) : async :=
  match o with
  | Install => installOpenVPN E pg serverId (confirmed a)
  | Configure => configureOpenVPN E pg serverId (confirmed a)
  | Start => startOpenVPN E pg serverId (confirmed a)
  | Reinstall =>
    reinstallOpenVPN E pg serverId (confirmed a) (confirmText a) (ticks a)
  end.

(** A pending exchange: who waits for it, and what it does on arrival. *)
Record pending := {
  waiting : operation;
  sent : request;
  resume : fetched -> list event
}.

Record browser := {
  controls : list button;
  inflight : list pending
}.

(** The page as loaded: no exchange is pending. *)
Definition loaded (page : list button) : browser :=
  {| controls := page; inflight := [] |}.

(** The effect of one event on the [disabled] properties. *)
Definition applyEvent (page : list button) (e : event) : list button :=
  match e with
  | ButtonLoading target _ => setDisabled target true page
  | ButtonRestore target _ => setDisabled target false page
  | _ => page
  end.

Definition applyEvents (es : list event) (page : list button) : list button :=
  foldl applyEvent page es.

Inductive action :=
| Click (i : nat) (a : answers)      (* a click on the i-th button *)
| Settle (i : nat) (f : fetched).    (* the i-th pending exchange settles *)

Section WithPage.
Variable E : engine.
Variable pg : page.
Variable serverId : N.

Definition step (st : browser) (act : action) : browser :=
  match act with
  | Click i a =>
    match controls st !! i with
    | None => st
    | Some b =>
      if disabled b then st
      else
        match invokes serverId b with
        | None => st
        | Some o =>
          match handler E pg serverId o a with
          | Finished es =>
            {| controls := applyEvents es (controls st);
               inflight := inflight st |}
          | Awaiting es req k =>
            {| controls := applyEvents es (controls st);
               inflight :=
                 inflight st
                   ++ [{| waiting := o; sent := req; resume := k |}] |}
          end
        end
    end
  | Settle i f =>
    match inflight st !! i with
    | None => st
    | Some p =>
      {| controls := applyEvents (resume p f) (controls st);
         inflight := delete i (inflight st) |}
    end
  end.

Definition exec (page : list button) (acts : list action) : browser :=
  foldl step (loaded page) acts.

End WithPage.

(** The operations with an exchange pending. *)
Definition pendingOperations (st : browser) : list operation :=
  waiting <$> inflight st.

(** The events that touch the [disabled] flags. *)
Definition buttonEvents (es : list event) : list event :=
  flat_map (fun e => match e with
                     | ButtonLoading _ _ | ButtonRestore _ _ => [e]
                     | _ => []
                     end) es.

(** What every run of the page keeps.  Of installOpenVPN, configureOpenVPN
    and startOpenVPN no two exchanges are pending, and while one is, the
    buttons that start the operation are disabled; each pending exchange
    ends by enabling the buttons its operation selects. *)
Definition page_invariant (serverId : N) (st : browser) : Prop :=
  (forall i j p q,
     inflight st !! i = Some p -> inflight st !! j = Some q ->
     waiting p = waiting q -> waiting p <> Reinstall -> i = j)
  /\ (forall p b,
        p ∈ inflight st -> waiting p <> Reinstall -> b ∈ controls st ->
        invokes serverId b = Some (waiting p) -> disabled b = true)
  /\ (forall p f, p ∈ inflight st ->
        buttonEvents (resume p f)
        = [ButtonRestore (buttonsOf (waiting p)) None]).

(** A disabled button is one that a pending operation selects. *)
Definition disabled_by_pending (st : browser) : Prop :=
  forall b, b ∈ controls st -> disabled b = true ->
    exists p, p ∈ inflight st /\ selects (buttonsOf (waiting p)) b = true.

(** The user accepts every dialog and types the word asked for. *)
Definition accept : answers :=
  {| confirmed := true; confirmText := Some (js "REINSTALL"); ticks := 0 |}.

End Browser.

(** ** Sample values for the examples *)

Module Sample.

(** An engine for the examples, which are all ASCII. *)
Definition sampleEngine : engine :=
  {| unicodeLower := fun s => s;
     unicodeUpper := fun s => s;
     nativeSource := fun name => name ++ js "() { [native code] }";
     undefinedPropertyMessage :=
       fun prop => js "Cannot read properties of undefined (reading '"
                     ++ prop ++ js "')";
     stackTrace := fun message => js "Error: " ++ message |}.

Definition samplePage : page :=
  {| statusPresent := true; terminalPresent := true; isConnected := true |}.

Definition withJson (code : N) (body : outcome apiData) : fetched :=
  Responded {| http_status := code; json := body;
               contentDisposition := None; blob := Returned 0 |}.

Definition syntaxError : jsError :=
  {| err_name := js "SyntaxError";
     err_message := js "Unexpected token < in JSON at position 0";
     err_stack := js "SyntaxError" |}.

(** A successful check-status body with the given status literal. *)
Definition statusReply (literal : jsstring) : apiData :=
  {| success := Some true; message := None; output := None; error := None;
     steps := None; status := Some literal; client_id := None;
     public_key := None; key_type := None; clients_on_server := None;
     clients_in_db := None; clients_removed := None;
     orphaned_clients := None; new_clients := None;
     service_running := None |}.

(** A failure body with the given error text. *)
Definition errorReply (text : jsstring) : apiData :=
  {| success := Some false; message := None; output := None;
     error := Some text; steps := None; status := None; client_id := None;
     public_key := None; key_type := None; clients_on_server := None;
     clients_in_db := None; clients_removed := None;
     orphaned_clients := None; new_clients := None;
     service_running := None |}.

(** The lifecycle buttons of the page of server 1, all enabled. *)
Definition lifecycleButton (o : Browser.operation) : Browser.button :=
  {| Browser.buttonId := None;
     Browser.onclick := Some (Browser.callOf o 1);
     Browser.disabled := false |}.

Definition lifecyclePage : list Browser.button :=
  [ lifecycleButton Browser.Install; lifecycleButton Browser.Configure;
    lifecycleButton Browser.Start; lifecycleButton Browser.Reinstall ].

(** The header [attachment; filename=...] with the name between double
    quotes. *)
Definition quotedDisposition (name : jsstring) : jsstring :=
  js "attachment; filename=" ++ dquote ++ name ++ dquote.

(** A successful download response. *)
Definition fileResponse (header : option jsstring) (size : N) : fetched :=
  Responded {| http_status := 200; json := Thrown syntaxError;
               contentDisposition := header; blob := Returned size |}.

End Sample.

(** ** What the properties observe *)

Module Observe.

(** Console output and writes to the status line. *)
Definition isLogOrStatus (e : event) : bool :=
  match e with
  | ConsoleLog _ | ConsoleError _ | SetStatus _ _ => true
  | _ => false
  end.

Definition logsAndStatus (es : list event) : list event :=
  List.filter isLogOrStatus es.

(** Dialogs and console output: events that change nothing on the page
    and send nothing. *)
Definition isDialogOrLog (e : event) : bool :=
  match e with
  | ConsoleLog _ | Confirm _ | Prompt _ _ => true
  | _ => false
  end.

(** The HTML that stands for one character of terminal text. *)
Definition renderChar (c : N) : jsstring :=
  if c =? 38 then js "&amp;"
  else if c =? 60 then js "&lt;"
  else if c =? 62 then js "&gt;"
  else if c =? 34 then js "&quot;"
  else if c =? 39 then js "&#039;"
  else if c =? 10 then js "<br>"
  else if c =? 32 then js "&nbsp;"
  else [c].

(** Reading terminal HTML back: [<br>] is a line feed, an entity is its
    character, any other [<] or [&] is markup and is refused. *)
Fixpoint stripPrefix (prefix s : jsstring) : option jsstring :=
  match prefix, s with
  | [], _ => Some s
  | p :: prefix', c :: t => if p =? c then stripPrefix prefix' t else None
  | _ :: _, [] => None
  end.

Definition readables : list (jsstring * N) :=
  [ (js "<br>", 10); (js "&nbsp;", 32); (js "&amp;", 38); (js "&lt;", 60);
    (js "&gt;", 62); (js "&quot;", 34); (js "&#039;", 39) ].

Fixpoint readToken (table : list (jsstring * N)) (s : jsstring)
  : option (N * jsstring) :=
  match table with
  | [] =>
    match s with
    | c :: t => if (c =? 60) || (c =? 38) then None else Some (c, t)
    | [] => None
    end
  | (token, c) :: table' =>
    match stripPrefix token s with
    | Some rest => Some (c, rest)
    | None => readToken table' s
    end
  end.

Fixpoint readHtml (fuel : nat) (s : jsstring) : option jsstring :=
  match s with
  | [] => Some []
  | _ :: _ =>
    match fuel with
    | O => None
    | S fuel' =>
      match readToken readables s with
      | Some (c, rest) =>
        match readHtml fuel' rest with
        | Some text => Some (c :: text)
        | None => None
        end
      | None => None
      end
    end
  end.

End Observe.

(** ** [getCookie] of [static/js/utils.js] *)

Module Cookie.

(** [s.split(sep)] for a one-character separator. *)
Fixpoint splitOn (sep : N) (s : jsstring) : list jsstring :=
  match s with
  | [] => [[]]
  | c :: t =>
    if c =? sep then [] :: splitOn sep t
    else match splitOn sep t with
         | segment :: segments => (c :: segment) :: segments
         | [] => [[c]]
         end
  end.

Section WithDecoder.
(** [decodeURIComponent] of the host, which throws on malformed input. *)
Variable decodeURIComponent : jsstring -> outcome jsstring.

(** The loop of [getCookie] over the pieces of [document.cookie]; it stops
    at the first piece that starts with [name=]. *)
Fixpoint scan (name : jsstring) (cookies : list jsstring)
  : outcome (option jsstring) :=
  match cookies with
  | [] => Returned None
  | piece :: rest =>
    let cookie := trim piece in
    if str_eqb (take (List.length name + 1) cookie) (name ++ js "=")
    then match decodeURIComponent (drop (List.length name + 1) cookie) with
         | Returned value => Returned (Some value)
         | Thrown e => Thrown e
         end
    else scan name rest
  end.

(** What the loop returns once it has found the text of the value. *)
Definition decoded (found : option jsstring) : outcome (option jsstring) :=
  match found with
  | Some text =>
    match decodeURIComponent text with
    | Returned value => Returned (Some value)
    | Thrown e => Thrown e
    end
  | None => Returned None
  end.

(** [getCookie(name)], reading [document.cookie]; [None] is [null]. *)
Definition getCookie (name documentCookie : jsstring)
  : outcome (option jsstring) :=
  if truthy (VStr documentCookie) && negb (str_eqb documentCookie [])
  then scan name (splitOn 59 documentCookie)
  else Returned None.

End WithDecoder.

(** A cookie jar as the browser serialises it: [name=value] pairs joined
    by a semicolon and a space. *)
Fixpoint serialise (jar : list (jsstring * jsstring)) : jsstring :=
  match jar with
  | [] => []
  | [(n, v)] => n ++ js "=" ++ v
  | (n, v) :: rest => n ++ js "=" ++ v ++ js "; " ++ serialise rest
  end.

(** The value of the first pair of the jar with the given name. *)
Fixpoint firstValue (name : jsstring) (jar : list (jsstring * jsstring))
  : option jsstring :=
  match jar with
  | [] => None
  | (n, v) :: rest => if str_eqb n name then Some v else firstValue name rest
  end.

(** Characters of cookie names and values: no white space, no semicolon. *)
Definition isCookieChar (c : N) : bool := negb (isSpace c) && negb (c =? 59).

(** A name has no equals sign either. *)
Definition isCookieName (n : jsstring) : bool :=
  forallb (fun c => isCookieChar c && negb (c =? 61)) n.

Definition wellFormed (jar : list (jsstring * jsstring)) : bool :=
  forallb (fun p => isCookieName (fst p) && forallb isCookieChar (snd p)) jar.

End Cookie.

(** ** [apiRequest] of [static/js/utils.js], on any response

    The handlers above take the body of a response to be an object of the
    REST contract and the CSRF token to be readable.  Here [apiRequest] is
    followed on whatever the page and the server hand it: the cookie string
    of the document, and a body that parses to any JSON value. *)

Module Api.

Local Set Warnings "-register-all".

(** What [JSON.parse] can return.  The members of an object are its own
    properties, each key once. *)
Inductive jsonValue :=
| JNull
| JBool (b : bool)
| JNumber (x : PrimFloat.float)
| JString (s : jsstring)
| JArray (items : list jsonValue)
| JObject (members : list (jsstring * jsonValue)).

(** What the host decides here: the decoding of a cookie value, the
    printing of a number, and the messages of the two [TypeError]s that
    reading a property of [null] and converting an object to a string can
    raise. *)
Record host := {
  decodeURIComponent : jsstring -> outcome jsstring;
  numberToString : PrimFloat.float -> jsstring;
  nullPropertyMessage : jsstring -> jsstring;
  notPrimitiveMessage : jsstring
}.

Definition typeError (E : engine) (message : jsstring) : jsError :=
  {| err_name := js "TypeError"; err_message := message;
     err_stack := stackTrace E message |}.

(** [ToBoolean] *)
Definition toBoolean (v : jsonValue) : bool :=
  match v with
  | JNull => false
  | JBool b => b
  | JNumber x => negb (PrimFloat.is_zero x || PrimFloat.is_nan x)
  | JString s => negb (str_eqb s [])
  | JArray _ | JObject _ => true
  end.

(** An own property of an object. *)
Fixpoint member (key : jsstring) (members : list (jsstring * jsonValue))
  : option jsonValue :=
  match members with
  | [] => None
  | (k, v) :: rest => if str_eqb k key then Some v else member key rest
  end.

Section WithHost.
Variable E : engine.
Variable H : host.

(** [data.error]: of the values that come from JSON only an object can
    have the property, as one of its own; [None] is [undefined].  Reading
    it off [null] throws. *)
Definition readError (data : jsonValue) : outcome (option jsonValue) :=
  match data with
  | JNull => Thrown (typeError E (nullPropertyMessage H (js "error")))
  | JObject members => Returned (member (js "error") members)
  | JBool _ | JNumber _ | JString _ | JArray _ => Returned None
  end.

(** [ToString], which [new Error(message)] applies to its argument.  An
    array is joined with commas, a [null] among its elements giving the
    empty string.  An object prints as [[object Object]], unless it has a
    property of its own named [toString]: a value from JSON cannot be
    called, the inherited [valueOf] returns the object itself, and the
    conversion throws. *)
Fixpoint toStringJson (v : jsonValue) : outcome jsstring :=
  match v with
  | JNull => Returned (js "null")
  | JBool true => Returned (js "true")
  | JBool false => Returned (js "false")
  | JNumber x => Returned (numberToString H x)
  | JString s => Returned s
  | JArray items =>
    (fix join (l : list jsonValue) : outcome jsstring :=
       match l with
       | [] => Returned []
       | x :: rest =>
         match match x with
               | JNull => Returned []
               | _ => toStringJson x
               end with
         | Thrown e => Thrown e
         | Returned first =>
           match rest with
           | [] => Returned first
           | _ :: _ =>
             match join rest with
             | Thrown e => Thrown e
             | Returned others => Returned (first ++ js "," ++ others)
             end
           end
         end
       end) items
  | JObject members =>
    match member (js "toString") members with
    | Some _ => Thrown (typeError E (notPrimitiveMessage H))
    | None => Returned (js "[object Object]")
    end
  end.

(** The options of a call, as far as [apiRequest] and its callers use
    them; a header whose value is [None] has the value [null]. *)
Record requestInit := {
  init_method : option jsstring;
  init_body : option (list (jsstring * jsval));
  init_headers : list (jsstring * option jsstring)
}.

(** [{...a, ...b}] on objects given by their properties in order: a key
    of [b] that [a] has takes the place of the old value, a new one is
    added at the end. *)
Fixpoint assign {V : Type} (o : list (jsstring * V)) (key : jsstring)
    (value : V) : list (jsstring * V) :=
  match o with
  | [] => [(key, value)]
  | (k, v) :: rest =>
    if str_eqb k key then (k, value) :: rest
    else (k, v) :: assign rest key value
  end.

Definition spread {V : Type} (a b : list (jsstring * V))
  : list (jsstring * V) :=
  foldl (fun o kv => assign o (fst kv) (snd kv)) a b.

(** A response: [json] is what [response.json()] settles to. *)
Record response := {
  status : N;
  json : outcome jsonValue
}.

(** [response.ok] *)
Definition ok (r : response) : bool :=
  (200 <=? status r) && (status r <=? 299).

(** What [fetch] settles to. *)
Inductive exchange :=
| Failed (e : jsError)
| Answered (r : response).

(** A call of [apiRequest]: it throws before anything is sent, or it
    calls [fetch] and goes on when the exchange has settled. *)
Inductive call :=
| Rejected (e : jsError)
| Fetch (url : jsstring) (init : requestInit)
    (k : exchange -> outcome jsonValue).

(** [apiRequest(url, options)], with the text of [document.cookie]. *)
Definition apiRequest (documentCookie url : jsstring) (options : requestInit)
  : call :=
  match Cookie.getCookie (decodeURIComponent H) (js "csrftoken")
          documentCookie with
  | Thrown e => Rejected e
  | Returned token =>
    let defaultHeaders :=
      [ (js "Content-Type", Some (js "application/json"));
        (js "X-CSRFToken", token) ] in
    let mergedOptions :=
      {| init_method := init_method options;
         init_body := init_body options;
         init_headers := spread defaultHeaders (init_headers options) |} in
    Fetch url mergedOptions
      (fun settled =>
         match settled with
         | Failed e => Thrown e
         | Answered response =>
           if negb (ok response) then
             let data :=
               match json response with
               | Returned d => d
               | Thrown _ => JObject []
               end in
             match readError data with
             | Thrown e => Thrown e
             | Returned errorField =>
               let fallback :=
                 JString (js "HTTP error! status: "
                            ++ decimal (status response)) in
               let message :=
                 match errorField with
                 | Some v => if toBoolean v then v else fallback
                 | None => fallback
                 end in
               match toStringJson message with
               | Returned text => Thrown (newError E text)
               | Thrown e => Thrown e
               end
             end
           else json response
         end)
  end.

End WithHost.

(** What a call settles to when its exchange settles to [x]. *)
Definition result (c : call) (x : exchange) : outcome jsonValue :=
  match c with
  | Rejected e => Thrown e
  | Fetch _ _ k => k x
  end.

(** What a call hands to [fetch], if it gets there. *)
Definition fetchArguments (c : call) : option (jsstring * requestInit) :=
  match c with
  | Rejected _ => None
  | Fetch url init _ => Some (url, init)
  end.

(** A body without a message: it is not an object, or its [error]
    member is missing or falsy. *)
Definition noErrorText (data : jsonValue) : Prop :=
  match data with
  | JObject members =>
    match member (js "error") members with
    | Some v => toBoolean v = false
    | None => True
    end
  | _ => True
  end.

(** A body of the REST contract and the JSON it stands for, as far as
    [apiRequest] looks at it: the same parse error, or an object with the
    same [error] member. *)
Definition sameBody (typed : outcome apiData) (body : outcome jsonValue)
  : Prop :=
  match typed, body with
  | Thrown e, Thrown e' => e = e'
  | Returned d, Returned (JObject members) =>
    member (js "error") members = JString <$> error d
  | _, _ => False
  end.

(** A host for the examples.  Their cookie values either have no percent
    sign, and decode to themselves, or end in a broken escape, which
    [decodeURIComponent] refuses; they print no number. *)
Definition uriError : jsError :=
  {| err_name := js "URIError"; err_message := js "URI malformed";
     err_stack := js "URIError: URI malformed" |}.

Definition sampleHost : host :=
  {| decodeURIComponent :=
       fun text => if bool_decide (37 ∈ text) then Thrown uriError
                   else Returned text;
     numberToString := fun _ => js "NaN";
     nullPropertyMessage :=
       fun prop => js "Cannot read properties of null (reading '"
                     ++ prop ++ js "')";
     notPrimitiveMessage := js "Cannot convert object to primitive value" |}.

End Api.

(** ** [revokeClient] of the client-management module *)

Module Revocation.
Import Utils.

(** [revokeClient(clientId)]; [confirmed] answers the dialog. *)
Definition revokeClient (E : engine) (clientId : N) (confirmed : bool)
  : async :=
  let ask :=
    Confirm (js "Отозвать сертификат клиента? Это действие необратимо.") in
  if negb confirmed then Finished [ask]
  else
    Awaiting
      [ask; ConsoleLog [LStr (js "Revoking client:"); LNum clientId]]
      (apiCall (js "/clients/" ++ decimal clientId ++ js "/revoke/")
         (js "POST") (Some []))
      (fun f =>
         match apiRequest E f with
         | Returned data =>
           ConsoleLog [LStr (js "Response data:"); LData data]
           :: (if truthy (ofBool (success data)) then
                 showAlert
                   (js "Сертификат успешно отозван: "
                      ++ toString E (or_ (ofStr (message data)) (VStr [])))
                   (js "Успешно")
                 ++ reloadPage 1000
               else
                 showAlert
                   (js "Ошибка: "
                      ++ toString E
                           (or_ (ofStr (error data))
                                (VStr (js "Неизвестная ошибка"))))
                   (js "Ошибка"))
         | Thrown error => handleApiError error (js "Ошибка отзыва сертификата")
         end).

End Revocation.

(** ** [updateAgent] of the server-action module *)

Module AgentUpdate.
Import Utils Terminal.

(** [error.output] in a [catch]: the errors that reach it are built by
    [new Error] in [apiRequest] or by the platform, and have no such
    property. *)
Definition errorOutput (error : jsError) : jsval := VUndefined.

(** [updateAgent(serverId)]; [confirmed] answers the dialog. *)
Definition updateAgent (E : engine) (pg : page) (serverId : N)
    (confirmed : bool) : async :=
  let ask :=
    Confirm (js "Обновить агент на сервере? Это займет несколько минут.") in
  if negb confirmed then Finished [ask]
  else
    let updateButtons := ByOnclick (js "updateAgent") in
    Awaiting
      ([ ask;
         ConsoleLog [LStr (js "Starting agent update for server:");
                     LNum serverId] ]
       ++ showStatus pg (VStr (js "Обновляем агент на сервере...")) (js "info")
       ++ showButtonLoading updateButtons (js "Обновляем..."))
      (apiCall (js "/api/servers/" ++ decimal serverId ++ js "/update-agent/")
         (js "POST") None)
      (fun f =>
         match apiRequest E f with
         | Returned data =>
           ConsoleLog [LStr (js "Agent update successful:"); LData data]
           :: showStatus pg (VStr (js "Агент успешно обновлен!")) (js "success")
           ++ (if truthy (ofStr (output data)) && isConnected pg then
                 appendToTerminal E pg
                   (nl ++ js "=== Agent Update Output ===" ++ nl)
                 ++ appendToTerminal E pg
                      (toString E (ofStr (output data)) ++ nl)
                 ++ appendToTerminal E pg (js "=== Agent Updated ===" ++ nl)
               else [])
           ++ reloadPage 2000
         | Thrown error =>
           ConsoleError [LStr (js "Agent update error:"); LError error]
           :: showStatus pg
                (VStr (js "Ошибка обновления агента: " ++ err_message error))
                (js "danger")
           ++ (if truthy (errorOutput error) && isConnected pg then
                 appendToTerminal E pg
                   (nl ++ js "=== Agent Update Error ===" ++ nl)
                 ++ appendToTerminal E pg
                      (toString E (errorOutput error) ++ nl)
                 ++ appendToTerminal E pg
                      (js "Error: " ++ err_message error ++ nl)
               else [])
         end
         ++ restoreButton updateButtons).

End AgentUpdate.

(** ** [static/js/stunnel-actions.js]

    Each action looks its button up by id and uses it without a test; the
    four buttons are taken to be on the page. *)

Module Stunnel.
Import Utils Terminal AgentUpdate.

Section WithEngine.
Variable E : engine.

(** [setupStunnel(serverId)] *)
Definition setupStunnel (pg : page) (serverId : N) (confirmed : bool)
  : async :=
  let ask :=
    Confirm (js "Настроить STunnel на этом сервере? Это установит сертификат Let's Encrypt.") in
  if negb confirmed then Finished [ask]
  else
    let setupButton := ById (js "setup-stunnel-btn") in
    Awaiting
      ([ ask;
         ConsoleLog [LStr (js "Setting up STunnel for server:"); LNum serverId] ]
       ++ showStatus pg (VStr (js "Настраиваем STunnel...")) (js "info")
       ++ showButtonLoading setupButton (js "Настраиваем..."))
      (apiCall (js "/api/servers/" ++ decimal serverId ++ js "/stunnel/setup/")
         (js "POST") None)
      (fun f =>
         match apiRequest E f with
         | Returned data =>
           ConsoleLog [LStr (js "STunnel setup successful:"); LData data]
           :: showStatus pg (VStr (js "STunnel успешно настроен!")) (js "success")
           ++ (if truthy (ofStr (output data)) && isConnected pg then
                 appendToTerminal E pg
                   (nl ++ js "=== STunnel Setup Output ===" ++ nl)
                 ++ appendToTerminal E pg
                      (toString E (ofStr (output data)) ++ nl)
                 ++ appendToTerminal E pg (js "=== Setup Complete ===" ++ nl)
               else [])
           ++ reloadPage 2000
         | Thrown error =>
           ConsoleError [LStr (js "STunnel setup error:"); LError error]
           :: showStatus pg
                (VStr (js "Ошибка настройки STunnel: " ++ err_message error))
                (js "danger")
           ++ (if truthy (errorOutput error) && isConnected pg then
                 appendToTerminal E pg
                   (nl ++ js "=== STunnel Setup Error ===" ++ nl)
                 ++ appendToTerminal E pg
                      (toString E (errorOutput error) ++ nl)
                 ++ appendToTerminal E pg
                      (js "Error: " ++ err_message error ++ nl)
               else [])
         end
         ++ restoreButton setupButton).

(** [startStunnel(serverId)] *)
Definition startStunnel (pg : page) (serverId : N) (confirmed : bool)
  : async :=
  let ask := Confirm (js "Запустить STunnel сервис?") in
  if negb confirmed then Finished [ask]
  else
    let startButton := ById (js "start-stunnel-btn") in
    Awaiting
      ([ ask;
         ConsoleLog [LStr (js "Starting STunnel for server:"); LNum serverId] ]
       ++ showStatus pg (VStr (js "Запускаем STunnel...")) (js "info")
       ++ showButtonLoading startButton (js "Запускаем..."))
      (apiCall (js "/api/servers/" ++ decimal serverId ++ js "/stunnel/start/")
         (js "POST") None)
      (fun f =>
         match apiRequest E f with
         | Returned data =>
           ConsoleLog [LStr (js "STunnel started:"); LData data]
           :: showStatus pg (VStr (js "STunnel успешно запущен!")) (js "success")
           ++ (if truthy (ofStr (output data)) && isConnected pg then
                 appendToTerminal E pg
                   (nl ++ js "=== STunnel Start Output ===" ++ nl)
                 ++ appendToTerminal E pg
                      (toString E (ofStr (output data)) ++ nl)
                 ++ appendToTerminal E pg (js "=== STunnel Started ===" ++ nl)
               else [])
           ++ reloadPage 2000
         | Thrown error =>
           ConsoleError [LStr (js "STunnel start error:"); LError error]
           :: showStatus pg
                (VStr (js "Ошибка запуска STunnel: " ++ err_message error))
                (js "danger")
         end
         ++ restoreButton startButton).

(** [stopStunnel(serverId)] *)
Definition stopStunnel (pg : page) (serverId : N) (confirmed : bool)
  : async :=
  let ask := Confirm (js "Остановить STunnel сервис?") in
  if negb confirmed then Finished [ask]
  else
    let stopButton := ById (js "stop-stunnel-btn") in
    Awaiting
      ([ ask;
         ConsoleLog [LStr (js "Stopping STunnel for server:"); LNum serverId] ]
       ++ showStatus pg (VStr (js "Останавливаем STunnel...")) (js "info")
       ++ showButtonLoading stopButton (js "Останавливаем..."))
      (apiCall (js "/api/servers/" ++ decimal serverId ++ js "/stunnel/stop/")
         (js "POST") None)
      (fun f =>
         match apiRequest E f with
         | Returned data =>
           ConsoleLog [LStr (js "STunnel stopped:"); LData data]
           :: showStatus pg (VStr (js "STunnel успешно остановлен!"))
                (js "success")
           ++ (if truthy (ofStr (output data)) && isConnected pg then
                 appendToTerminal E pg
                   (nl ++ js "=== STunnel Stop Output ===" ++ nl)
                 ++ appendToTerminal E pg
                      (toString E (ofStr (output data)) ++ nl)
                 ++ appendToTerminal E pg (js "=== STunnel Stopped ===" ++ nl)
               else [])
           ++ reloadPage 2000
         | Thrown error =>
           ConsoleError [LStr (js "STunnel stop error:"); LError error]
           :: showStatus pg
                (VStr (js "Ошибка остановки STunnel: " ++ err_message error))
                (js "danger")
         end
         ++ restoreButton stopButton).

(** [restartStunnel(serverId)] *)
Definition restartStunnel (pg : page) (serverId : N) (confirmed : bool)
  : async :=
  let ask := Confirm (js "Перезапустить STunnel сервис?") in
  if negb confirmed then Finished [ask]
  else
    let restartButton := ById (js "restart-stunnel-btn") in
    Awaiting
      ([ ask;
         ConsoleLog [LStr (js "Restarting STunnel for server:"); LNum serverId] ]
       ++ showStatus pg (VStr (js "Перезапускаем STunnel...")) (js "info")
       ++ showButtonLoading restartButton (js "Перезапускаем..."))
      (apiCall (js "/api/servers/" ++ decimal serverId ++ js "/stunnel/restart/")
         (js "POST") None)
      (fun f =>
         match apiRequest E f with
         | Returned data =>
           ConsoleLog [LStr (js "STunnel restarted:"); LData data]
           :: showStatus pg (VStr (js "STunnel успешно перезапущен!"))
                (js "success")
           ++ (if truthy (ofStr (output data)) && isConnected pg then
                 appendToTerminal E pg
                   (nl ++ js "=== STunnel Restart Output ===" ++ nl)
                 ++ appendToTerminal E pg
                      (toString E (ofStr (output data)) ++ nl)
                 ++ appendToTerminal E pg (js "=== STunnel Restarted ===" ++ nl)
               else [])
           ++ reloadPage 2000
         | Thrown error =>
           ConsoleError [LStr (js "STunnel restart error:"); LError error]
           :: showStatus pg
                (VStr (js "Ошибка перезапуска STunnel: " ++ err_message error))
                (js "danger")
         end
         ++ restoreButton restartButton).

(** The four actions by the last segment of their address. *)
Inductive action := Setup | StartService | StopService | RestartService.

Definition perform (a : action) : page -> N -> bool -> async :=
  match a with
  | Setup => setupStunnel
  | StartService => startStunnel
  | StopService => stopStunnel
  | RestartService => restartStunnel
  end.

Definition segment (a : action) : jsstring :=
  match a with
  | Setup => js "setup"
  | StartService => js "start"
  | StopService => js "stop"
  | RestartService => js "restart"
  end.

Definition buttonOf (a : action) : buttons :=
  ById (segment a ++ js "-stunnel-btn").

End WithEngine.
End Stunnel.

(** ** The terminal module: connection, commands and the input line

    The controls that [connectSSH] and [disconnectSSH] set without a test
    (the two buttons, the input line, the container and the placeholder) are
    taken to be on the page. *)

Module SshTerminal.
Import Utils Terminal.

(** The data attributes of the page; an attribute whose element is absent
    reads as [undefined]. *)
Record serverData := {
  dataServerId : option jsstring;
  dataServerHost : option jsstring;
  dataServerUsername : option jsstring;
  dataServerPort : option jsstring
}.

(** What the terminal module does to the page besides the events of the
    other modules: it sets the [disabled] and [display] properties of
    elements and arms timers.  [After d e] is the effect [e] of a callback
    that [setTimeout] runs [d] milliseconds later. *)
Inductive effect :=
| Emit (e : event)
| SetDisabled (id : jsstring) (disabled : bool)
| SetDisplay (id : jsstring) (display : jsstring)
| HideStatus
| After (delay : N) (e : effect).

Definition withConnected (pg : page) (connected : bool) : page :=
  {| statusPresent := statusPresent pg;
     terminalPresent := terminalPresent pg;
     isConnected := connected |}.

Section WithEngine.
Variable E : engine.

(** The prompt [user@host:~$ ] with the defaults of the source. *)
Definition promptLine (sd : serverData) : jsstring :=
  let serverUsername :=
    or_ (ofStr (dataServerUsername sd)) (VStr (js "user")) in
  let serverHost := or_ (ofStr (dataServerHost sd)) (VStr (js "server")) in
  toString E serverUsername ++ js "@" ++ toString E serverHost ++ js ":~$ ".

(** [connectSSH()]: the page afterwards and the effects. *)
Definition connectSSH (pg : page) (sd : serverData) : page * list effect :=
  if isConnected pg then (pg, [])
  else
    let serverHost := or_ (ofStr (dataServerHost sd)) (VStr (js "server")) in
    let serverUsername :=
      or_ (ofStr (dataServerUsername sd)) (VStr (js "user")) in
    let serverPort := or_ (ofStr (dataServerPort sd)) (VStr (js "22")) in
    (withConnected pg true,
     map Emit (showStatus pg (VStr (js "Подключение к SSH...")) (js "info"))
     ++ [ SetDisabled (js "connect-btn") true;
          SetDisabled (js "disconnect-btn") false;
          SetDisabled (js "terminal-input") false;
          SetDisplay (js "terminal-container") (js "block");
          SetDisplay (js "terminal-placeholder") (js "none") ]
     ++ map (After 1000)
          (map Emit
             (appendToTerminal E pg
                (js "Connecting to " ++ toString E serverUsername ++ js "@"
                   ++ toString E serverHost ++ js ":"
                   ++ toString E serverPort ++ js "..." ++ nl)
              ++ appendToTerminal E pg (js "SSH Terminal (Demo Mode)" ++ nl)
              ++ appendToTerminal E pg
                   (js "Welcome to " ++ toString E serverHost ++ nl)
              ++ appendToTerminal E pg
                   (toString E serverUsername ++ js "@"
                      ++ toString E serverHost ++ js ":~$ ")
              ++ showStatus pg
                   (VStr (js "SSH подключение установлено (Demo Mode)"))
                   (js "success"))
           ++ [After 3000 HideStatus])).

(** [disconnectSSH()] *)
Definition disconnectSSH (pg : page) : page * list effect :=
  (withConnected pg false,
   [ SetDisabled (js "connect-btn") false;
     SetDisabled (js "disconnect-btn") true;
     SetDisabled (js "terminal-input") true ]
   ++ map Emit (showStatus pg (VStr (js "Отключено от SSH")) (js "info"))).

(** [sendCommand(command)] *)
Definition sendCommand (pg : page) (sd : serverData) (command : jsstring)
  : async :=
  if negb (isConnected pg) then Finished []
  else if negb (truthy (VStr (trim command))) then Finished []
  else
    let echo := appendToTerminal E pg (command ++ nl) in
    if negb (truthy (ofStr (dataServerId sd))) then
      Finished
        (echo ++ appendToTerminal E pg (js "Error: Server ID not found" ++ nl))
    else
      Awaiting echo
        (apiCall
           (js "/api/servers/" ++ toString E (ofStr (dataServerId sd))
              ++ js "/ssh-command/")
           (js "POST") (Some [(js "command", VStr command)]))
        (fun f =>
           match apiRequest E f with
           | Returned data =>
             (if truthy (ofStr (output data)) then
                appendToTerminal E pg (toString E (ofStr (output data)))
              else [])
             ++ appendToTerminal E pg (promptLine sd)
           | Thrown error =>
             appendToTerminal E pg (js "Error: " ++ err_message error ++ nl)
             ++ appendToTerminal E pg (promptLine sd)
           end).

(** The [keypress] listener that [initTerminal] puts on the input line:
    what it starts, and the value of the input line afterwards. *)
Definition onKeypress (pg : page) (sd : serverData) (key value : jsstring)
  : async * jsstring :=
  if str_eqb key (js "Enter") then
    let command := trim value in
    if truthy (VStr command) then (sendCommand pg sd command, [])
    else (Finished [], value)
  else (Finished [], value).

End WithEngine.

(** The [disabled] flags that a list of effects leaves, latest first. *)
Fixpoint setFlags (effects : list effect) (flags : list (jsstring * bool))
  : list (jsstring * bool) :=
  match effects with
  | [] => flags
  | SetDisabled id b :: rest => setFlags rest ((id, b) :: flags)
  | _ :: rest => setFlags rest flags
  end.

Fixpoint flag (flags : list (jsstring * bool)) (id : jsstring) : option bool :=
  match flags with
  | [] => None
  | (id', b) :: rest => if str_eqb id' id then Some b else flag rest id
  end.

(** The page and the flags its scripts have set; at load the global
    [isConnected] is [false] and no flag has been set by a script. *)
Record session := {
  sessionPage : page;
  flags : list (jsstring * bool)
}.

Definition loaded (pg : page) : session :=
  {| sessionPage := withConnected pg false; flags := [] |}.

Inductive call := Connect | Disconnect.

Definition sessionStep (E : engine) (sd : serverData) (s : session) (c : call)
  : session :=
  let (pg', effects) :=
    match c with
    | Connect => connectSSH E (sessionPage s) sd
    | Disconnect => disconnectSSH (sessionPage s)
    end in
  {| sessionPage := pg'; flags := setFlags effects (flags s) |}.

Definition sessionRun (E : engine) (sd : serverData) (pg : page)
    (calls : list call) : session :=
  foldl (sessionStep E sd) (loaded pg) calls.

(** The three controls agree with the connection state: the connect
    button is disabled exactly when connected, the disconnect button and
    the input line exactly when not. *)
Definition controlsAgree (s : session) : Prop :=
  let connected := isConnected (sessionPage s) in
  flag (flags s) (js "connect-btn") = Some connected
  /\ flag (flags s) (js "disconnect-btn") = Some (negb connected)
  /\ flag (flags s) (js "terminal-input") = Some (negb connected).

Definition isConnect (c : call) : bool :=
  match c with Connect => true | Disconnect => false end.

End SshTerminal.

(** ** What the further properties observe *)

Module Outcome.
Import Regex.

(** The strings a pattern accepts at a position, read off its shape: the
    meaning of the pattern, against which the matcher is checked. *)
Fixpoint matches (re : regex) (atStart : bool) (s : jsstring) : Prop :=
  match re with
  | [] => True
  | Bol :: re' => atStart = true /\ matches re' atStart s
  | Eol :: re' => s = [] /\ matches re' atStart s
  | Cls p q :: re' | Cap p q :: re' =>
    match q with
    | Once =>
      exists c rest, s = c :: rest /\ p c = true /\ matches re' false rest
    | Optional =>
      (exists c rest, s = c :: rest /\ p c = true /\ matches re' false rest)
      \/ matches re' atStart s
    | OneOrMore =>
      exists m rest,
        s = m ++ rest /\ m <> [] /\ forallb p m = true
        /\ matches re' false rest
    end
  end.

(** A string with no white space at its start, and one with none at
    either end. *)
Definition startsClean (s : jsstring) : bool :=
  match s with
  | [] => true
  | c :: _ => negb (isSpace c)
  end.

Definition isTrimmed (s : jsstring) : bool :=
  startsClean s && startsClean (rev s).

(** A successful generate-ssh-key body with the given key and type. *)
Definition keyReply (publicKey : jsstring) (keyType : option jsstring)
  : apiData :=
  {| success := Some true; message := Some (js "done"); output := None;
     error := None; steps := None; status := None; client_id := None;
     public_key := Some publicKey; key_type := keyType;
     clients_on_server := None; clients_in_db := None;
     clients_removed := None; orphaned_clients := None;
     new_clients := None; service_running := None |}.

(** The characters that open or close markup or an attribute value. *)
Definition isRawMarkup (c : N) : bool :=
  (c =? 60) || (c =? 62) || (c =? 34) || (c =? 39).

(** Whether an exchange ended with a body that reports success. *)
Definition succeeded (o : outcome apiData) : bool :=
  match o with
  | Returned data => truthy (ofBool (success data))
  | Thrown _ => false
  end.

Definition alerts (es : list event) : list jsstring :=
  flat_map (fun e => match e with Alert text => [text] | _ => [] end) es.

Definition reloads (es : list event) : list N :=
  flat_map (fun e => match e with ReloadPage d => [d] | _ => [] end) es.

Definition savedFiles (es : list event) : list (jsstring * N) :=
  flat_map (fun e => match e with SaveFile n size => [(n, size)] | _ => [] end)
    es.

Definition statusLines (es : list event) : list (jsval * jsstring) :=
  flat_map (fun e => match e with SetStatus v t => [(v, t)] | _ => [] end) es.

Definition terminalLines (es : list event) : list jsstring :=
  flat_map (fun e => match e with TerminalAppend h => [h] | _ => [] end) es.

Definition formResets (es : list event) : list event :=
  flat_map (fun e => match e with
                     | ModalHide | FormReset => [e]
                     | _ => []
                     end) es.

Definition timerStops (es : list event) : list event :=
  flat_map (fun e => match e with ClearInterval => [e] | _ => [] end) es.

(** An operation that disables the buttons [target] before its request
    and enables them again when the exchange has settled, whatever the
    outcome; one that ends without a request leaves the buttons alone. *)
Definition restoresButtons (a : async) (target : buttons) : Prop :=
  match a with
  | Finished es => Browser.buttonEvents es = []
  | Awaiting es _ k =>
    (exists html, Browser.buttonEvents es = [ButtonLoading target html])
    /\ forall f, exists html,
         Browser.buttonEvents (k f) = [ButtonRestore target html]
  end.

End Outcome.

(** * Properties *)

(** ** Strings and truthiness *)


Lemma truthy_str (s : jsstring) : truthy (VStr s) = negb (Regex.isEmpty s).
Proof. destruct s; reflexivity. Qed.

Lemma truthy_str_nonempty (s : jsstring) : s <> [] -> truthy (VStr s) = true.
Proof. destruct s; [congruence | reflexivity]. Qed.

(** ** The matcher on the anchored patterns *)

Section MoreToEnd.
Context {R : Type}.
Variables (p : N -> bool) (k : jsstring -> jsstring -> option R) (r : R).
Hypothesis k_end : forall m, k m [] = Some r.
Hypothesis k_rest : forall m c t, k m (c :: t) = None.

(** A quantified class followed by the end anchor takes the whole rest or
    nothing. *)
Lemma more_to_end (s acc : jsstring) :
  Regex.more p k acc s = if forallb p s then Some r else None.
Proof.
  revert acc. induction s as [|c t IH]; intros acc; simpl.
  - apply k_end.
  - destruct (p c); simpl; [| apply k_rest].
    rewrite IH. destruct (forallb p t); [reflexivity | apply k_rest].
Qed.
End MoreToEnd.

Lemma searchFrom_bol_later (re : Regex.regex) (s : jsstring) :
  Regex.searchFrom (Regex.Bol :: re) false s = None.
Proof. induction s as [|c t IH]; simpl; [reflexivity | exact IH]. Qed.

(** [/^[a-zA-Z0-9_-]+$/] accepts exactly the non-empty strings made of
    characters of the class. *)
Lemma isValidClientName_spec (name : jsstring) :
  Utils.isValidClientName name
  = negb (Regex.isEmpty name) && forallb Utils.isNameChar name.
Proof.
  unfold Utils.isValidClientName, Regex.test, Regex.exec, Utils.clientNameRe.
  destruct name as [|c t]; [reflexivity |].
  cbn [Regex.searchFrom Regex.matchHere Regex.quantified Regex.isEmpty negb
       andb forallb].
  rewrite searchFrom_bol_later.
  destruct (Utils.isNameChar c); [| reflexivity].
  rewrite (more_to_end _ _ []); [| reflexivity | reflexivity].
  destruct (forallb Utils.isNameChar t); reflexivity.
Qed.

(** ** C1: validation of the client name *)

(** C1, as amended: createClient trims the two form values first.  When the
    trimmed name is non-empty and made only of the characters of
    [[A-Za-z0-9_-]], and the trimmed email is empty or passes the email
    check, the create-client request is sent, carrying the trimmed name; when
    the trimmed name is empty or has any other character, an alert is shown
    and the call ends with no request. *)
Theorem createClient_validates_trimmed_name
    (E : engine) (pg : page) (serverId : option jsstring)
    (nameValue emailValue : jsstring) :
  (trim nameValue <> [] ->
   forallb Utils.isNameChar (trim nameValue) = true ->
   trim emailValue = [] \/ Utils.isValidEmail (trim emailValue) = true ->
   dispatched (Clients.createClient E pg serverId nameValue emailValue)
   = Some (Utils.apiCall
             (js "/api/servers/" ++ toString E (ofStr serverId)
                ++ js "/create-client/")
             (js "POST")
             (Some ((js "client_name", VStr (trim nameValue))
                      :: (if Regex.isEmpty (trim emailValue) then []
                          else [(js "email", VStr (trim emailValue))])))))
  /\ (trim nameValue = [] \/ forallb Utils.isNameChar (trim nameValue) = false ->
      exists text,
        Clients.createClient E pg serverId nameValue emailValue
        = Finished [Alert text]).
Proof.
  unfold Clients.createClient. rewrite !truthy_str, isValidClientName_spec.
  split.
  - intros Hne Hall Hemail.
    destruct (trim nameValue) as [|c t] eqn:Hname; [congruence |].
    cbn [Regex.isEmpty negb andb]. rewrite Hall. cbn [negb].
    destruct Hemail as [-> | ->]; reflexivity || (destruct (trim emailValue); reflexivity).
  - intros [-> | Hbad].
    + eexists. reflexivity.
    + destruct (trim nameValue) as [|c t]; [eexists; reflexivity |].
      cbn [Regex.isEmpty negb andb]. rewrite Hbad. eexists. reflexivity.
Qed.

Lemma createClient_validates_trimmed_name_witness :
  dispatched (Clients.createClient Sample.sampleEngine Sample.samplePage
                (Some (js "3")) (js "  alice ") (js ""))
  = Some (Utils.apiCall (js "/api/servers/3/create-client/") (js "POST")
            (Some [(js "client_name", VStr (js "alice"))])).
Proof.
  apply (proj1 (createClient_validates_trimmed_name Sample.sampleEngine
                  Sample.samplePage (Some (js "3")) (js "  alice ") (js ""))).
  - vm_compute. discriminate.
  - vm_compute. reflexivity.
  - left. vm_compute. reflexivity.
Defined.

(** C1, as stated, fails: the value [" alice"] has a space, which is not a
    character of the pattern, and the request is sent all the same. *)
Lemma createClient_padded_name_dispatched :
  Utils.isValidClientName (js " alice") = false
  /\ dispatched (Clients.createClient Sample.sampleEngine Sample.samplePage
                   (Some (js "3")) (js " alice") (js ""))
     = Some (Utils.apiCall (js "/api/servers/3/create-client/") (js "POST")
               (Some [(js "client_name", VStr (js "alice"))])).
Proof. split; vm_compute; reflexivity. Qed.

(** ** C2: the typed confirmation of a reinstallation *)






(** ** Requests in a trace *)

Lemma requests_app (a b : list event) :
  requests (a ++ b) = requests a ++ requests b.
Proof. apply flat_map_app. Qed.

Lemma requests_showStatus pg message type :
  requests (Utils.showStatus pg message type) = [].
Proof. unfold Utils.showStatus. destruct (statusPresent pg); reflexivity. Qed.

Lemma requests_appendToTerminal E pg text :
  requests (Terminal.appendToTerminal E pg text) = [].
Proof.
  unfold Terminal.appendToTerminal. destruct (terminalPresent pg); reflexivity.
Qed.

Lemma requests_showAlert message title :
  requests (Utils.showAlert message title) = [].
Proof. unfold Utils.showAlert. destruct (truthy (VStr title)); reflexivity. Qed.

Lemma requests_handleApiError error context :
  requests (Utils.handleApiError error context) = [].
Proof. unfold Utils.handleApiError. cbn. apply requests_showAlert. Qed.

Create Rewrite HintDb requests.
#[local] Hint Rewrite requests_app requests_showStatus
  requests_appendToTerminal requests_showAlert requests_handleApiError
  : requests.

(** Decides [requests es = ...] for a trace built from the blocks above. *)
Ltac count_requests :=
  repeat first
    [ progress autorewrite with requests
    | progress cbn [requests flat_map app Utils.reloadPage Utils.restoreButton
                    Utils.showButtonLoading]
    | case_match ];
  try reflexivity.

(** ** C3: reconciliation *)

Lemma reconcile_partition (R D : gset jsstring) :
  size D = (size (D ∖ R) + size (D ∩ R))%nat.
Proof.
  rewrite <- (difference_union_intersection_L D R) at 1.
  apply size_union. intros x Hx1 Hx2.
  apply elem_of_difference in Hx1 as [_ Hx1].
  apply elem_of_intersection in Hx2 as [_ Hx2]. contradiction.
Qed.

Lemma syncClients_one_request E pg serverId f :
  requests (run (ServerActions.syncClients E pg serverId) f)
  = [Utils.apiCall (js "/api/servers/" ++ decimal serverId ++ js "/sync-clients/")
       (js "POST") None].
Proof.
  unfold ServerActions.syncClients, run.
  rewrite requests_app. cbn [requests flat_map app].
  rewrite requests_showStatus. cbn [app]. f_equal.
  destruct (Utils.apiRequest E f) as [data | error]; count_requests.
Qed.

Lemma elements_nonempty (X : gset jsstring) :
  X <> ∅ -> (0 <? List.length (elements X))%nat = true.
Proof.
  intros HX. apply Nat.ltb_lt.
  destruct (elements X) eqn:Hel; [| simpl; lia].
  exfalso. apply HX. apply leibniz_equiv, elements_empty_iff, Hel.
Qed.

#[local] Arguments js : simpl never.

(** C3: for any sets [R] (identifiers on the remote host) and [D]
    (identifiers in the database) the reconciliation yields
    [orphaned = D \ R] and [new = R \ D], and
    [|D| - |orphaned| = |D ∩ R|] with no truncation; on the page,
    syncClients sends the sync-clients request and nothing else whatever the
    response is, and a non-empty [new] set is shown as a warning that lists
    the new clients. *)
Theorem reconciliation_set_law (R D : gset jsstring) :
  let r := Reconciliation.reconcile R D in
  Reconciliation.orphaned r = D ∖ R
  /\ Reconciliation.new r = R ∖ D
  /\ (size (Reconciliation.orphaned r) <= size D)%nat
  /\ (size D - size (Reconciliation.orphaned r))%nat = size (D ∩ R)
  /\ (forall E pg serverId f,
        requests (run (ServerActions.syncClients E pg serverId) f)
        = [Utils.apiCall
             (js "/api/servers/" ++ decimal serverId ++ js "/sync-clients/")
             (js "POST") None])
  /\ (forall E pg serverId text,
        statusPresent pg = true -> R ∖ D <> ∅ ->
        SetStatus
          (VStr (js "⚠️ На сервере найдены новые клиенты, которых нет в БД: "
                   ++ ServerActions.join (js ", ") (elements (R ∖ D))))
          (js "warning")
        ∈ run (ServerActions.syncClients E pg serverId)
            (Sample.withJson 200 (Returned (Reconciliation.response text r)))).
Proof.
  intros r. subst r. cbn [Reconciliation.reconcile Reconciliation.orphaned
                          Reconciliation.new].
  pose proof (reconcile_partition R D) as Hsize.
  split; [reflexivity |]. split; [reflexivity |].
  split; [lia |]. split; [lia |].
  split; [intros; apply syncClients_one_request |].
  intros E pg serverId text Hstatus Hnew.
  unfold ServerActions.syncClients, run.
  apply elem_of_app. right. apply elem_of_cons. right.
  cbn [Utils.apiRequest Sample.withJson ok http_status json negb andb
       N.leb N.compare Pos.compare Pos.compare_cont
       Reconciliation.response success new_clients orphaned_clients
       Reconciliation.new Reconciliation.orphaned Reconciliation.reconcile
       ofBool truthy].
  rewrite (elements_nonempty _ Hnew). unfold Utils.showStatus.
  rewrite Hstatus.
  apply elem_of_cons. right.
  apply elem_of_app. right. apply elem_of_app. right. apply elem_of_app. left.
  apply elem_of_cons. right. apply elem_of_cons. left. reflexivity.
Qed.

Lemma reconciliation_set_law_witness :
  let R : gset jsstring := {[ js "alice"; js "bob" ]} in
  let D : gset jsstring := {[ js "alice"; js "carol" ]} in
  SetStatus
    (VStr (js "⚠️ На сервере найдены новые клиенты, которых нет в БД: "
             ++ ServerActions.join (js ", ") (elements (R ∖ D))))
    (js "warning")
  ∈ run (ServerActions.syncClients Sample.sampleEngine Sample.samplePage 1)
      (Sample.withJson 200
         (Returned (Reconciliation.response (js "done")
                      (Reconciliation.reconcile R D)))).
Proof.
  intros R D.
  apply (proj2 (proj2 (proj2 (proj2 (proj2
           (reconciliation_set_law R D)))))).
  - reflexivity.
  - intros H. assert (Hbob : js "bob" ∈ R ∖ D) by (vm_compute; reflexivity).
    rewrite H in Hbob. apply not_elem_of_empty in Hbob. exact Hbob.
Defined.

(** Scenario B of the specification. *)
Example reconcile_scenario_B :
  let r := Reconciliation.reconcile {[ js "alice"; js "bob" ]}
             {[ js "alice"; js "carol" ]} in
  elements (Reconciliation.orphaned r) = [js "carol"]
  /\ elements (Reconciliation.new r) = [js "bob"]
  /\ clients_removed (Reconciliation.response (js "done") r) = Some 1.
Proof. vm_compute. repeat split. Qed.

(** ** C4: the status labels of checkStatus *)

(** The three known literals map to their labels. *)
Lemma statusText_labels (E : engine) :
  ServerActions.statusText E (Sample.statusReply (js "running"))
  = VStr (js "✅ Работает")
  /\ ServerActions.statusText E (Sample.statusReply (js "stopped"))
     = VStr (js "⛔ Остановлен")
  /\ ServerActions.statusText E (Sample.statusReply (js "error"))
     = VStr (js "❌ Ошибка").
Proof. repeat split. Qed.

(** A literal that is neither a label nor a property name that object
    literals inherit is shown as it is. *)
Lemma statusText_verbatim (E : engine) (literal : jsstring) :
  ownProperty ServerActions.statusLabels literal = None ->
  inherited literal = VUndefined ->
  toString E (ServerActions.statusText E (Sample.statusReply literal)) = literal.
Proof.
  intros Hown Hinh. unfold ServerActions.statusText, getProperty.
  cbn [Sample.statusReply status ofStr toString].
  rewrite Hown, Hinh. reflexivity.
Qed.

Example statusText_unknown (E : engine) :
  toString E (ServerActions.statusText E (Sample.statusReply (js "unknown")))
  = js "unknown".
Proof. apply statusText_verbatim; reflexivity. Qed.

(** C4, where the code departs from it: the literal [constructor] is not
    one of the three labels, yet the lookup in the label object finds the
    inherited property of that name, a function, and the status line shows
    the source text of that function and not the literal. *)
Theorem checkStatus_inherited_name_not_verbatim (E : engine) (serverId : N) :
  ownProperty ServerActions.statusLabels (js "constructor") = None
  /\ ServerActions.statusText E (Sample.statusReply (js "constructor"))
     = VNative (js "Object")
  /\ run (ServerActions.checkStatus E Sample.samplePage serverId)
       (Sample.withJson 200 (Returned (Sample.statusReply (js "constructor"))))
     = [ ConsoleLog [LStr (js "Checking server status:"); LNum serverId];
         SetStatus (VStr (js "Проверяем статус сервера...")) (js "info");
         Sent (Utils.apiCall
                 (js "/api/servers/" ++ decimal serverId ++ js "/check-status/")
                 (js "POST") None);
         SetStatus
           (VStr (js "Статус сервера: function "
                    ++ nativeSource E (js "Object")))
           (js "warning");
         ReloadPage 1000 ]
  /\ js "Статус сервера: function " ++ nativeSource E (js "Object")
     <> js "Статус сервера: " ++ js "constructor".
Proof.
  split; [reflexivity |]. split; [reflexivity |]. split.
  - reflexivity.
  - intros H. apply (f_equal (fun s => s !! 16%nat)) in H.
    vm_compute in H. discriminate H.
Qed.

(** ** C5: declining the confirmation *)

(** C5: when the confirmation dialog of installOpenVPN, configureOpenVPN,
    startOpenVPN or reinstallOpenVPN is answered with no, the call ends at
    once: whatever the server would have answered, no request is sent and the
    trace holds nothing but the dialog itself (and, for the reinstallation,
    the console line written before it), so no button is disabled and the
    status line is untouched. *)
Theorem declined_confirmation_does_nothing
    (E : engine) (pg : page) (serverId : N) (f : fetched)
    (confirmText : option jsstring) (ticks : nat) :
  let declined (a : async) :=
    dispatched a = None
    /\ requests (run a f) = []
    /\ forallb Observe.isDialogOrLog (run a f) = true in
  declined (ServerActions.installOpenVPN E pg serverId false)
  /\ declined (ServerActions.configureOpenVPN E pg serverId false)
  /\ declined (ServerActions.startOpenVPN E pg serverId false)
  /\ declined (ServerActions.reinstallOpenVPN E pg serverId false
                 confirmText ticks)
  /\ ServerActions.installOpenVPN E pg serverId false
     = Finished [Confirm (js "Установить OpenVPN на этом сервере?")].
Proof.
  cbv zeta. repeat split.
Qed.

(** ** C6: the SSH password and what generateSSHKey writes *)

Lemma logsAndStatus_awaiting es req k f :
  Observe.logsAndStatus (run (Awaiting es req k) f)
  = Observe.logsAndStatus es ++ Observe.logsAndStatus (k f).
Proof.
  unfold Observe.logsAndStatus, run. rewrite List.filter_app. reflexivity.
Qed.

(** The password goes into the body of the request. *)
Lemma generateSSHKey_request (E : engine) (pg : page) (serverId : N)
    (password : jsstring) (useEd25519 clearPassword showKey : bool) :
  password <> [] ->
  dispatched (ServerActions.generateSSHKey E pg serverId (Some password)
                useEd25519 clearPassword showKey)
  = Some (Utils.apiCall
            (js "/api/servers/" ++ decimal serverId ++ js "/generate-ssh-key/")
            (js "POST")
            (Some [ (js "password", VStr password);
                    (js "key_type",
                     VStr (if useEd25519 then js "ed25519" else js "rsa"));
                    (js "clear_password", VBool clearPassword) ])).
Proof.
  intros H. unfold ServerActions.generateSSHKey. cbn [ofStr].
  rewrite (truthy_str_nonempty _ H). reflexivity.
Qed.

(** C6: take any two answers to the password prompt that are both a
    password (or both none), all other answers and the outcome of the
    exchange being the same: the console output and the writes to the status
    line of generateSSHKey are then the same, event for event, whether the
    exchange succeeds or fails.  What is written depends on the answer only
    through whether a password was entered at all. *)
Theorem generateSSHKey_output_independent_of_password
    (E : engine) (pg : page) (serverId : N) (answer1 answer2 : option jsstring)
    (useEd25519 clearPassword showKey : bool) (f : fetched) :
  truthy (ofStr answer1) = truthy (ofStr answer2) ->
  Observe.logsAndStatus
    (run (ServerActions.generateSSHKey E pg serverId answer1
            useEd25519 clearPassword showKey) f)
  = Observe.logsAndStatus
      (run (ServerActions.generateSSHKey E pg serverId answer2
              useEd25519 clearPassword showKey) f).
Proof.
  intros Hsame. unfold ServerActions.generateSSHKey. rewrite Hsame.
  destruct (truthy (ofStr answer2)); cbn [negb]; [| reflexivity].
  rewrite !logsAndStatus_awaiting. reflexivity.
Qed.

Lemma generateSSHKey_output_independent_of_password_witness :
  Observe.logsAndStatus
    (run (ServerActions.generateSSHKey Sample.sampleEngine Sample.samplePage 2
            (Some (js "hunter2")) true true false)
         (Sample.withJson 403 (Returned (Sample.errorReply (js "denied")))))
  = Observe.logsAndStatus
      (run (ServerActions.generateSSHKey Sample.sampleEngine Sample.samplePage 2
              (Some (js "swordfish")) true true false)
           (Sample.withJson 403 (Returned (Sample.errorReply (js "denied"))))).
Proof.
  apply (generateSSHKey_output_independent_of_password Sample.sampleEngine
           Sample.samplePage 2 (Some (js "hunter2")) (Some (js "swordfish"))
           true true false).
  reflexivity.
Defined.

(** ** C7: the file name of a download *)

Section MoreAll.
Context {R : Type}.
Variables (p : N -> bool) (k : jsstring -> jsstring -> option R).

(** A greedy class takes every character it can when the rest of the
    pattern accepts that. *)
Lemma more_all (s acc : jsstring) (r : R) :
  forallb p s = true -> k (acc ++ s) [] = Some r ->
  Regex.more p k acc s = Some r.
Proof.
  revert acc. induction s as [|c t IH]; intros acc Hall Hk; simpl.
  - rewrite app_nil_r in Hk. exact Hk.
  - simpl in Hall. apply andb_prop in Hall as [Hc Ht]. rewrite Hc.
    rewrite (IH (acc ++ [c]) Ht); [reflexivity |].
    rewrite <- app_assoc. exact Hk.
Qed.
End MoreAll.

(** On a header with the name between double quotes the capture runs to
    the end of the header and takes the closing quote with it. *)
Lemma downloadFilename_quoted (clientName name : jsstring) :
  forallb (fun c => negb (isLineTerminator c)) name = true ->
  Clients.downloadFilename clientName (Some (Sample.quotedDisposition name))
  = name ++ dquote.
Proof.
  intros Hname.
  unfold Clients.downloadFilename, Sample.quotedDisposition.
  replace (truthy _) with true by reflexivity.
  unfold Regex.exec, Clients.filenameRe.
  let x := eval vm_compute in (js "attachment; filename=") in
    change (js "attachment; filename=") with x.
  let x := eval vm_compute in (Regex.lit (js "filename=")) in
    change (Regex.lit (js "filename=")) with x.
  unfold dquote.
  cbn [app Regex.searchFrom Regex.matchHere Regex.quantified N.eqb Pos.eqb
       andb Regex.isEmpty].
  destruct name as [|c t].
  - reflexivity.
  - cbn [app Regex.quantified]. simpl in Hname.
    apply andb_prop in Hname as [Hc Ht]. rewrite Hc.
    rewrite (more_all _ _ (t ++ [34]) [c] [c :: t ++ [34]]).
    + reflexivity.
    + rewrite forallb_app, Ht. reflexivity.
    + reflexivity.
Qed.

(** C7, where the code departs from it: a successful response whose
    header is [attachment; filename=] followed by [alice.ovpn] between double
    quotes is saved under [alice.ovpn] followed by a double quote, which is
    not the name given in the header; without the header the default
    [{clientName}.ovpn] is used. *)
Theorem downloadClientConfig_keeps_closing_quote
    (E : engine) (pg : page) (serverId : option jsstring) (size : N)
    (special : outcome buttons) :
  Clients.downloadFilename (js "alice")
    (Some (Sample.quotedDisposition (js "alice.ovpn")))
  = js "alice.ovpn" ++ dquote
  /\ js "alice.ovpn" ++ dquote <> js "alice.ovpn"
  /\ SaveFile (js "alice.ovpn" ++ dquote) size
     ∈ run (Clients.downloadClientConfig E pg serverId (js "alice") special)
         (Sample.fileResponse
            (Some (Sample.quotedDisposition (js "alice.ovpn"))) size)
  /\ (forall clientName,
        Clients.downloadFilename clientName None = clientName ++ js ".ovpn").
Proof.
  assert (Hname : Clients.downloadFilename (js "alice")
                    (Some (Sample.quotedDisposition (js "alice.ovpn")))
                  = js "alice.ovpn" ++ dquote)
    by (apply downloadFilename_quoted; reflexivity).
  split; [exact Hname |]. split; [vm_compute; discriminate |].
  split; [| reflexivity].
  unfold Clients.downloadClientConfig.
  replace (Clients.downloadButtons (js "alice") special)
    with (Returned (A := buttons)
            (ByOnclick (js "downloadClientConfig('alice')")))
    by reflexivity.
  unfold run, Sample.fileResponse.
  apply elem_of_app. right. apply elem_of_cons. right.
  apply elem_of_app. left. apply elem_of_cons. right.
  cbn [ok http_status negb andb N.leb N.compare Pos.compare Pos.compare_cont
       contentDisposition blob].
  rewrite Hname.
  apply elem_of_app. left. apply elem_of_cons. right.
  apply elem_of_cons. left. reflexivity.
Qed.

(** Without quotes in the header the name is the one given. *)
Example downloadFilename_unquoted :
  Clients.downloadFilename (js "alice")
    (Some (js "attachment; filename=alice.ovpn"))
  = js "alice.ovpn".
Proof. vm_compute. reflexivity. Qed.

(** ** C8: operations in flight *)

Import Browser.

Lemma buttonEvents_app (a b : list event) :
  buttonEvents (a ++ b) = buttonEvents a ++ buttonEvents b.
Proof. apply flat_map_app. Qed.

Lemma applyEvents_buttonEvents (es : list event) (d : list button) :
  applyEvents es d = applyEvents (buttonEvents es) d.
Proof.
  revert d. induction es as [|e es IH]; intros d; [reflexivity |].
  destruct e; cbn [buttonEvents flat_map app]; unfold applyEvents in *;
    cbn [foldl applyEvent]; apply IH.
Qed.

Lemma buttonEvents_showStatus pg message type :
  buttonEvents (Utils.showStatus pg message type) = [].
Proof. unfold Utils.showStatus. destruct (statusPresent pg); reflexivity. Qed.

Lemma buttonEvents_appendToTerminal E pg text :
  buttonEvents (Terminal.appendToTerminal E pg text) = [].
Proof.
  unfold Terminal.appendToTerminal. destruct (terminalPresent pg); reflexivity.
Qed.

Lemma buttonEvents_steps E pg (stepList : list jsstring) :
  buttonEvents
    (flat_map (fun step => Terminal.appendToTerminal E pg (step ++ nl)) stepList)
  = [].
Proof.
  induction stepList as [|s l IH]; [reflexivity |].
  cbn [flat_map]. rewrite buttonEvents_app, buttonEvents_appendToTerminal.
  exact IH.
Qed.

Lemma buttonEvents_progress pg (l : list jsstring) (prefix type : jsstring) :
  buttonEvents
    (flat_map (fun m => Utils.showStatus pg (VStr (prefix ++ m)) type) l) = [].
Proof.
  induction l as [|s l IH]; [reflexivity |].
  cbn [flat_map]. rewrite buttonEvents_app, buttonEvents_showStatus. exact IH.
Qed.

Lemma buttonEvents_showAlert message title :
  buttonEvents (Utils.showAlert message title) = [].
Proof. unfold Utils.showAlert. destruct (truthy (VStr title)); reflexivity. Qed.

Lemma buttonEvents_handleApiError error context :
  buttonEvents (Utils.handleApiError error context) = [].
Proof. unfold Utils.handleApiError. cbn. apply buttonEvents_showAlert. Qed.

Lemma buttonEvents_outputBlock E pg data header footer :
  buttonEvents (ServerActions.outputBlock E pg data header footer) = [].
Proof.
  unfold ServerActions.outputBlock. case_match; [| reflexivity].
  rewrite !buttonEvents_app, !buttonEvents_appendToTerminal. reflexivity.
Qed.

Lemma buttonEvents_errorBlock E pg data header :
  buttonEvents (ServerActions.errorBlock E pg data header) = [].
Proof.
  unfold ServerActions.errorBlock. case_match; [| reflexivity].
  rewrite !buttonEvents_app, !buttonEvents_appendToTerminal.
  case_match; [rewrite buttonEvents_appendToTerminal |]; reflexivity.
Qed.

Create Rewrite HintDb buttons.
#[local] Hint Rewrite buttonEvents_app buttonEvents_showStatus
  buttonEvents_appendToTerminal buttonEvents_steps buttonEvents_progress
  buttonEvents_handleApiError buttonEvents_outputBlock buttonEvents_errorBlock
  : buttons.

Ltac button_events :=
  repeat first
    [ progress autorewrite with buttons
    | progress cbn [buttonEvents flat_map app Utils.reloadPage
                    Utils.restoreButton Utils.showButtonLoading]
    | case_match ];
  try reflexivity.

(** What a handler does to the buttons: nothing when it ends without a
    request; otherwise it disables its own buttons before the request and
    enables them again when the exchange has settled. *)
Lemma handler_buttons E pg serverId (o : operation) (a : answers) :
  match handler E pg serverId o a with
  | Finished es => buttonEvents es = []
  | Awaiting es _ k =>
    (exists html, buttonEvents es = [ButtonLoading (buttonsOf o) html])
    /\ forall f, buttonEvents (k f) = [ButtonRestore (buttonsOf o) None]
  end.
Proof.
  destruct o, a as [c text n]; unfold handler;
    cbn [confirmed confirmText ticks].
  - unfold ServerActions.installOpenVPN. destruct c; cbn [negb]; [| reflexivity].
    split; [eexists; button_events | intros f; button_events].
  - unfold ServerActions.configureOpenVPN. destruct c; cbn [negb]; [| reflexivity].
    split; [eexists; button_events | intros f; button_events].
  - unfold ServerActions.startOpenVPN. destruct c; cbn [negb]; [| reflexivity].
    split; [eexists; button_events | intros f; button_events].
  - unfold ServerActions.reinstallOpenVPN. destruct c; cbn [negb]; [| reflexivity].
    destruct (ServerActions.reinstallCancelled E text).
    + button_events.
    + split; [eexists; button_events | intros f; button_events].
Qed.


(** *** Which buttons a selector finds *)

Lemma startsWith_app_sep (fragment w rest : jsstring) (c : N) :
  c ∉ fragment ->
  startsWith fragment (w ++ c :: rest) = startsWith fragment w.
Proof.
  revert w. induction fragment as [|p fragment IH]; intros w Hc;
    [destruct w; reflexivity |].
  apply not_elem_of_cons in Hc as [Hpc Hc].
  destruct w as [|x w]; cbn [app startsWith].
  - destruct (N.eqb_spec p c) as [-> | _]; [contradiction | reflexivity].
  - rewrite (IH w Hc). reflexivity.
Qed.

Lemma includes_nil (fragment : jsstring) :
  includes fragment [] = Regex.isEmpty fragment.
Proof. destruct fragment; reflexivity. Qed.

(** A fragment without the character [c] lies on one side of it. *)
Lemma includes_app_sep (fragment w rest : jsstring) (c : N) :
  c ∉ fragment ->
  includes fragment (w ++ c :: rest)
  = includes fragment w || includes fragment rest.
Proof.
  intros Hc. induction w as [|x w IH].
  - pose proof (startsWith_app_sep fragment [] rest c Hc) as Hs.
    cbn [app] in Hs |- *. cbn [includes]. rewrite Hs.
    destruct fragment; reflexivity.
  - pose proof (startsWith_app_sep fragment (x :: w) rest c Hc) as Hs.
    cbn [app] in Hs |- *. cbn [includes]. rewrite Hs, IH.
    rewrite orb_assoc. reflexivity.
Qed.

Lemma includes_below (p : N) (fragment s : jsstring) :
  Forall (fun c => c < p) s -> includes (p :: fragment) s = false.
Proof.
  induction 1 as [|c s Hc _ IH]; [reflexivity |].
  cbn [includes startsWith]. rewrite IH.
  destruct (N.eqb_spec p c) as [-> | _]; [lia | reflexivity].
Qed.

Lemma js_digits (d : Decimal.uint) :
  Forall (fun c => c < 65) (js (NilZero.string_of_uint d)).
Proof.
  assert (Hstep : forall (a : ascii) (s : string),
             N_of_ascii a < 65 -> Forall (fun c => c < 65) (js s) ->
             Forall (fun c => c < 65) (js (String a s))).
  { intros a s Ha Hs.
    assert (Hlow : (N_of_ascii a <? 128) = true) by (apply N.ltb_lt; lia).
    assert (Hbmp : (N_of_ascii a <? 65536) = true) by (apply N.ltb_lt; lia).
    unfold js in *. cbn [list_ascii_of_string map utf8_decode].
    rewrite Hlow. cbn [flat_map]. unfold utf16_units at 1. rewrite Hbmp.
    constructor; [exact Ha | exact Hs]. }
  assert (Hall : forall d', Forall (fun c => c < 65)
                              (js (NilEmpty.string_of_uint d'))).
  { induction d' as [|d' IH|d' IH|d' IH|d' IH|d' IH|d' IH|d' IH|d' IH|d' IH
                     |d' IH];
      [constructor | ..];
      (apply Hstep; [vm_compute; reflexivity | exact IH]). }
  destruct d; try apply Hall. vm_compute. repeat constructor.
Qed.

Lemma decimal_digits (n : N) : Forall (fun c => c < 65) (decimal n).
Proof. apply js_digits. Qed.

(** The selector of an operation finds the button of another exactly
    when its name occurs in the name of the other. *)
Lemma includes_callOf (o o' : operation) (serverId : N) :
  includes (nameOf o) (callOf o' serverId) = includes (nameOf o) (nameOf o').
Proof.
  unfold callOf. change (js "(") with [40]. change (js ")") with [41].
  change (nameOf o' ++ [40] ++ decimal serverId ++ [41])
    with (nameOf o' ++ 40 :: (decimal serverId ++ [41])).
  rewrite includes_app_sep.
  - assert (Hlow : Forall (fun c => c < 97) (decimal serverId ++ [41])).
    { apply Forall_app. split.
      - eapply Forall_impl; [apply decimal_digits |]. intros c Hc. cbn in *. lia.
      - repeat constructor. }
    assert (Hrest : includes (nameOf o) (decimal serverId ++ [41]) = false).
    { destruct o;
        [ change (nameOf Install) with (105 :: List.tl (nameOf Install))
        | change (nameOf Configure) with (99 :: List.tl (nameOf Configure))
        | change (nameOf Start) with (115 :: List.tl (nameOf Start))
        | change (nameOf Reinstall) with (114 :: List.tl (nameOf Reinstall)) ];
        (apply includes_below; eapply Forall_impl; [exact Hlow |];
         intros c Hc; cbn in *; lia). }
    rewrite Hrest. apply orb_false_r.
  - destruct o; vm_compute; intros Hin;
      repeat (apply elem_of_cons in Hin as [Hin | Hin]; [discriminate Hin |]);
      inversion Hin.
Qed.

Lemma includes_nameOf (o o' : operation) :
  includes (nameOf o) (nameOf o') = true
  <-> o = o' \/ (o = Install /\ o' = Reinstall).
Proof.
  destruct o, o'; vm_compute; split; intros Hc;
    try reflexivity; try discriminate Hc; try (left; reflexivity);
    try (right; split; reflexivity);
    destruct Hc as [Hc | [Hc Hc']]; discriminate.
Qed.

Lemma invokes_onclick (serverId : N) (b : button) (o : operation) :
  invokes serverId b = Some o -> onclick b = Some (callOf o serverId).
Proof.
  unfold invokes. intros Hfind. apply List.find_some in Hfind as [_ Hb].
  apply bool_decide_eq_true in Hb. exact Hb.
Qed.

Lemma selects_invokes (serverId : N) (b : button) (o o' : operation) :
  invokes serverId b = Some o' ->
  selects (buttonsOf o) b = true <-> o = o' \/ (o = Install /\ o' = Reinstall).
Proof.
  intros Hb. apply invokes_onclick in Hb.
  unfold selects, buttonsOf. rewrite Hb, includes_callOf.
  rewrite <- includes_nameOf.
  destruct o; reflexivity.
Qed.

(** *** The flags after a handler has run *)

Lemma elem_of_setDisabled (o : operation) (value : bool) (page : list button)
    (b' : button) :
  b' ∈ setDisabled (buttonsOf o) value page
  <-> exists b, b ∈ page
        /\ b' = if selects (buttonsOf o) b then withDisabled value b else b.
Proof.
  unfold setDisabled, buttonsOf. rewrite list_elem_of_fmap. split.
  - intros (b & -> & Hb). exists b. split; [exact Hb | reflexivity].
  - intros (b & Hb & ->). exists b. split; [reflexivity | exact Hb].
Qed.

Lemma invokes_withDisabled (serverId : N) (value : bool) (b : button) :
  invokes serverId (withDisabled value b) = invokes serverId b.
Proof. reflexivity. Qed.

Lemma selects_withDisabled (target : buttons) (value : bool) (b : button) :
  selects target (withDisabled value b) = selects target b.
Proof. destruct target; reflexivity. Qed.

Lemma elem_of_delete_lookup {A} (l : list A) (i : nat) (x : A) :
  x ∈ delete i l -> exists j, j <> i /\ l !! j = Some x.
Proof.
  intros Hx. apply list_elem_of_lookup in Hx as [j Hj].
  destruct (decide (j < i)%nat) as [Hlt | Hge].
  - exists j. split; [lia |]. rewrite list_lookup_delete_lt in Hj by exact Hlt.
    exact Hj.
  - exists (S j). split; [lia |].
    rewrite list_lookup_delete_ge in Hj by lia. exact Hj.
Qed.

Lemma page_invariant_loaded (serverId : N) (page : list button) :
  page_invariant serverId (loaded page).
Proof.
  split; [| split]; cbn [loaded inflight].
  - intros i j p q Hp. rewrite lookup_nil in Hp. discriminate Hp.
  - intros p b Hp. inversion Hp.
  - intros p f Hp. inversion Hp.
Qed.

Lemma page_invariant_step E pg serverId (st : browser) (act : action) :
  page_invariant serverId st ->
  page_invariant serverId (step E pg serverId st act).
Proof.
  intros (Hone & Hdis & Hres). destruct act as [i a | i f]; cbn [step].
  - destruct (controls st !! i) as [b0 |] eqn:Hb0;
      [| split; [exact Hone | split; [exact Hdis | exact Hres]]].
    destruct (disabled b0) eqn:Hen;
      [split; [exact Hone | split; [exact Hdis | exact Hres]] |].
    destruct (invokes serverId b0) as [o |] eqn:Ho;
      [| split; [exact Hone | split; [exact Hdis | exact Hres]]].
    assert (Hb0in : b0 ∈ controls st)
      by (eapply list_elem_of_lookup_2; exact Hb0).
    assert (Hfree : forall p, p ∈ inflight st -> waiting p = o ->
                              o = Reinstall).
    { intros p Hp Hw. destruct (decide (o = Reinstall)) as [-> | Hne];
        [reflexivity |].
      subst o. rewrite (Hdis p b0 Hp Hne Hb0in Ho) in Hen. discriminate Hen. }
    pose proof (handler_buttons E pg serverId o a) as Hh.
    destruct (handler E pg serverId o a) as [es | es req k].
    + unfold page_invariant. cbn [controls inflight].
      rewrite applyEvents_buttonEvents, Hh.
      split; [exact Hone | split; [exact Hdis | exact Hres]].
    + destruct Hh as [[html Hes] Hk].
      unfold page_invariant. cbn [controls inflight].
      rewrite applyEvents_buttonEvents, Hes.
      cbn [applyEvents foldl applyEvent].
      split; [| split].
      * intros i1 i2 p q Hp Hq Hpq Hne.
        apply lookup_app_Some in Hp as [Hp | [Hlen1 Hp]];
          apply lookup_app_Some in Hq as [Hq | [Hlen2 Hq]].
        -- exact (Hone i1 i2 p q Hp Hq Hpq Hne).
        -- apply list_lookup_singleton_Some in Hq as [Hi2 <-].
           cbn [waiting] in Hpq. exfalso. apply Hne. rewrite Hpq.
           apply (Hfree p); [eapply list_elem_of_lookup_2; exact Hp | exact Hpq].
        -- apply list_lookup_singleton_Some in Hp as [Hi1 <-].
           cbn [waiting] in Hpq, Hne. exfalso. apply Hne.
           apply (Hfree q); [eapply list_elem_of_lookup_2; exact Hq |].
           symmetry. exact Hpq.
        -- apply list_lookup_singleton_Some in Hp as [Hi1 _].
           apply list_lookup_singleton_Some in Hq as [Hi2 _]. lia.
      * intros p b' Hp Hne Hb' Hinv.
        apply elem_of_setDisabled in Hb' as (b & Hb & ->).
        apply elem_of_app in Hp as [Hp | Hp].
        -- destruct (selects (buttonsOf o) b); [reflexivity |].
           exact (Hdis p b Hp Hne Hb Hinv).
        -- apply list_elem_of_singleton in Hp. subst p. cbn [waiting] in *.
           destruct (selects (buttonsOf o) b) eqn:Hsel; [reflexivity |].
           assert (Htrue : selects (buttonsOf o) b = true)
             by (apply (selects_invokes serverId b o o Hinv); left; reflexivity).
           rewrite Htrue in Hsel. discriminate Hsel.
      * intros p f Hp. apply elem_of_app in Hp as [Hp | Hp].
        -- apply Hres, Hp.
        -- apply list_elem_of_singleton in Hp. subst p. apply Hk.
  - destruct (inflight st !! i) as [p0 |] eqn:Hi;
      [| split; [exact Hone | split; [exact Hdis | exact Hres]]].
    assert (Hp0 : p0 ∈ inflight st)
      by (eapply list_elem_of_lookup_2; exact Hi).
    unfold page_invariant. cbn [controls inflight].
    rewrite applyEvents_buttonEvents, (Hres p0 f Hp0).
    cbn [applyEvents foldl applyEvent].
    split; [| split].
    + intros i1 i2 p q Hp Hq Hpq Hne.
      destruct (decide (i1 < i)%nat) as [H1 | H1];
        destruct (decide (i2 < i)%nat) as [H2 | H2].
      * rewrite list_lookup_delete_lt in Hp by exact H1.
        rewrite list_lookup_delete_lt in Hq by exact H2.
        exact (Hone i1 i2 p q Hp Hq Hpq Hne).
      * rewrite list_lookup_delete_lt in Hp by exact H1.
        rewrite list_lookup_delete_ge in Hq by lia.
        pose proof (Hone i1 (S i2) p q Hp Hq Hpq Hne). lia.
      * rewrite list_lookup_delete_ge in Hp by lia.
        rewrite list_lookup_delete_lt in Hq by exact H2.
        pose proof (Hone (S i1) i2 p q Hp Hq Hpq Hne). lia.
      * rewrite list_lookup_delete_ge in Hp by lia.
        rewrite list_lookup_delete_ge in Hq by lia.
        pose proof (Hone (S i1) (S i2) p q Hp Hq Hpq Hne). lia.
    + intros p b' Hp Hne Hb' Hinv.
      apply elem_of_setDisabled in Hb' as (b & Hb & ->).
      apply elem_of_delete_lookup in Hp as (j & Hj & Hp).
      assert (Hpin : p ∈ inflight st)
        by (eapply list_elem_of_lookup_2; exact Hp).
      destruct (selects (buttonsOf (waiting p0)) b) eqn:Hsel.
      * exfalso. rewrite invokes_withDisabled in Hinv.
        apply (selects_invokes serverId b _ _ Hinv) in Hsel
          as [Hsame | [_ Hre]]; [| exact (Hne Hre)].
        apply Hj. apply (Hone j i p p0 Hp Hi); [| exact Hne].
        symmetry. exact Hsame.
      * exact (Hdis p b Hpin Hne Hb Hinv).
    + intros p f' Hp. apply Hres.
      apply elem_of_delete_lookup in Hp as (j & _ & Hp).
      eapply list_elem_of_lookup_2. exact Hp.
Qed.






(** While an installation is in flight the reinstall button is disabled
    too: the selector of installOpenVPN finds it. *)
Example install_disables_reinstall :
  disabled <$> controls
    (exec Sample.sampleEngine Sample.samplePage 1 Sample.lifecyclePage
       [Click 0 accept])
  = [true; false; false; true]
  /\ pendingOperations
       (exec Sample.sampleEngine Sample.samplePage 1 Sample.lifecyclePage
          [Click 0 accept; Click 3 accept])
     = [Install].
Proof. vm_compute. split; reflexivity. Qed.

(** ** C9: escaping of HTML *)

Lemma replaceAll_app p f (a b : jsstring) :
  Regex.replaceAll p f (a ++ b) = Regex.replaceAll p f a ++ Regex.replaceAll p f b.
Proof. apply flat_map_app. Qed.

Lemma escapeHtml_app (E : engine) (a b : jsstring) :
  Utils.escapeHtml E (a ++ b) = Utils.escapeHtml E a ++ Utils.escapeHtml E b.
Proof. apply replaceAll_app. Qed.

(** The cases of a character: one of the seven that the terminal rewrites,
    or any other. *)
Lemma char_cases (c : N) :
  c = 38 \/ c = 60 \/ c = 62 \/ c = 34 \/ c = 39 \/ c = 10 \/ c = 32
  \/ (Utils.isHtmlSpecial c = false /\ (c =? 10) = false /\ (c =? 32) = false).
Proof.
  unfold Utils.isHtmlSpecial.
  destruct (N.eqb_spec c 38); [tauto |].
  destruct (N.eqb_spec c 60); [tauto |].
  destruct (N.eqb_spec c 62); [tauto |].
  destruct (N.eqb_spec c 34); [tauto |].
  destruct (N.eqb_spec c 39); [tauto |].
  destruct (N.eqb_spec c 10); [tauto |].
  destruct (N.eqb_spec c 32); [tauto |].
  repeat right. repeat split.
Qed.

Lemma renderChar_other (c : N) :
  Utils.isHtmlSpecial c = false -> (c =? 10) = false -> (c =? 32) = false ->
  Observe.renderChar c = [c].
Proof.
  unfold Utils.isHtmlSpecial, Observe.renderChar. intros H Hn Hsp.
  apply orb_false_elim in H as [H H39]. apply orb_false_elim in H as [H H34].
  apply orb_false_elim in H as [H H62]. apply orb_false_elim in H as [H38 H60].
  rewrite H38, H60, H62, H34, H39, Hn, Hsp. reflexivity.
Qed.

Lemma terminalHtml_char (E : engine) (c : N) :
  Terminal.terminalHtml E [c] = Observe.renderChar c.
Proof.
  destruct (char_cases c) as [-> | [-> | [-> | [-> | [-> | [-> | [-> | H]]]]]]];
    try reflexivity.
  destruct H as (Hs & Hn & Hsp). rewrite (renderChar_other c Hs Hn Hsp).
  unfold Terminal.terminalHtml, Utils.escapeHtml, Regex.replaceAll.
  cbn [flat_map app]. rewrite Hs. cbn [flat_map app].
  rewrite (N.eqb_sym 10 c), Hn. cbn [flat_map app].
  rewrite (N.eqb_sym 32 c), Hsp. reflexivity.
Qed.

Lemma terminalHtml_app (E : engine) (a b : jsstring) :
  Terminal.terminalHtml E (a ++ b)
  = Terminal.terminalHtml E a ++ Terminal.terminalHtml E b.
Proof.
  unfold Terminal.terminalHtml. rewrite escapeHtml_app, !replaceAll_app.
  reflexivity.
Qed.

Lemma terminalHtml_render (E : engine) (text : jsstring) :
  Terminal.terminalHtml E text = flat_map Observe.renderChar text.
Proof.
  induction text as [|c t IH]; [reflexivity |].
  change (c :: t) with ([c] ++ t).
  rewrite terminalHtml_app, terminalHtml_char, IH. reflexivity.
Qed.

Lemma readToken_render (c : N) (rest : jsstring) :
  Observe.readToken Observe.readables (Observe.renderChar c ++ rest)
  = Some (c, rest).
Proof.
  destruct (char_cases c) as [-> | [-> | [-> | [-> | [-> | [-> | [-> | H]]]]]]];
    try reflexivity.
  destruct H as (Hs & Hn & Hsp). rewrite (renderChar_other c Hs Hn Hsp).
  unfold Utils.isHtmlSpecial in Hs.
  apply orb_false_elim in Hs as [Hs _]. apply orb_false_elim in Hs as [Hs _].
  apply orb_false_elim in Hs as [Hs _]. apply orb_false_elim in Hs as [H38 H60].
  assert (H60' : (60 =? c) = false) by (rewrite N.eqb_sym; exact H60).
  assert (H38' : (38 =? c) = false) by (rewrite N.eqb_sym; exact H38).
  let x := eval vm_compute in Observe.readables in
    change Observe.readables with x.
  cbn [app Observe.readToken Observe.stripPrefix].
  rewrite H60', H38', H60, H38. reflexivity.
Qed.

Lemma readHtml_render (text : jsstring) :
  Observe.readHtml (List.length text) (flat_map Observe.renderChar text)
  = Some text.
Proof.
  induction text as [|c t IH]; [reflexivity |].
  cbn [List.length flat_map].
  assert (Hne : exists x y, Observe.renderChar c ++ flat_map Observe.renderChar t
                            = x :: y).
  { destruct (char_cases c) as [-> | [-> | [-> | [-> | [-> | [-> | [-> | H]]]]]]];
      try (eexists _, _; reflexivity).
    destruct H as (Hs & Hn & Hsp). rewrite (renderChar_other c Hs Hn Hsp).
    eexists _, _; reflexivity. }
  destruct Hne as (x & y & Hxy).
  cbn [Observe.readHtml]. rewrite Hxy. rewrite <- Hxy.
  rewrite readToken_render, IH. reflexivity.
Qed.

Lemma renderChar_markup (c : N) :
  c <> 10 -> forall x, x ∈ Observe.renderChar c -> Outcome.isRawMarkup x = false.
Proof.
  intros Hc x Hx.
  assert (Hentity : forall entity : jsstring,
             forallb (fun y => negb (Outcome.isRawMarkup y)) entity = true ->
             x ∈ entity -> Outcome.isRawMarkup x = false).
  { intros entity Hall Hin. rewrite forallb_forall in Hall.
    apply negb_true_iff, Hall, list_elem_of_In, Hin. }
  destruct (char_cases c) as [-> | [-> | [-> | [-> | [-> | [-> | [-> | H]]]]]]];
    [ apply (fun e => Hentity _ e Hx); reflexivity
    | apply (fun e => Hentity _ e Hx); reflexivity
    | apply (fun e => Hentity _ e Hx); reflexivity
    | apply (fun e => Hentity _ e Hx); reflexivity
    | apply (fun e => Hentity _ e Hx); reflexivity
    | contradiction
    | apply (fun e => Hentity _ e Hx); reflexivity
    | ].
  destruct H as (Hs & Hn & Hsp). rewrite (renderChar_other c Hs Hn Hsp) in Hx.
  apply list_elem_of_singleton in Hx. subst x.
  unfold Utils.isHtmlSpecial in Hs. unfold Outcome.isRawMarkup.
  apply orb_false_elim in Hs as [Hs H39]. apply orb_false_elim in Hs as [Hs H34].
  apply orb_false_elim in Hs as [Hs H62]. apply orb_false_elim in Hs as [_ H60].
  rewrite H60, H62, H34, H39. reflexivity.
Qed.

(** C9: escapeHtml works character by character: it turns [&], [<], [>],
    the double quote and the apostrophe into their entities and leaves every
    other character as it is.  So what appendToTerminal inserts into the
    terminal is, character by character of its text, the line break [<br>]
    for a line feed and otherwise an entity or the character itself, with
    no [<], [>], double quote or apostrophe in it; read back, the inserted
    HTML is the text itself. *)
Theorem escapeHtml_escapes_markup (E : engine) (pg : page) (text : jsstring) :
  (forall a b, Utils.escapeHtml E (a ++ b)
               = Utils.escapeHtml E a ++ Utils.escapeHtml E b)
  /\ Utils.escapeHtml E (js "&") = js "&amp;"
  /\ Utils.escapeHtml E (js "<") = js "&lt;"
  /\ Utils.escapeHtml E (js ">") = js "&gt;"
  /\ Utils.escapeHtml E dquote = js "&quot;"
  /\ Utils.escapeHtml E (js "'") = js "&#039;"
  /\ (forall c, c ∉ js "&<>" ++ dquote ++ js "'" ->
                Utils.escapeHtml E [c] = [c])
  /\ Terminal.terminalHtml E text = flat_map Observe.renderChar text
  /\ Observe.readHtml (List.length text) (Terminal.terminalHtml E text)
     = Some text
  /\ Terminal.appendToTerminal E pg text
     = (if terminalPresent pg
        then [TerminalAppend (flat_map Observe.renderChar text)]
        else [])
  /\ Observe.renderChar 10 = js "<br>"
  /\ (forall c x, c <> 10 -> x ∈ Observe.renderChar c ->
                  Outcome.isRawMarkup x = false)
  /\ (forall html,
        TerminalAppend html ∈ Terminal.appendToTerminal E pg text ->
        Observe.readHtml (List.length text) html = Some text).
Proof.
  split; [apply escapeHtml_app |].
  do 5 (split; [reflexivity |]).
  split; [| split; [| split; [| split; [| split; [| split]]]]].
  - intros c Hc.
    assert (Hs : Utils.isHtmlSpecial c = false).
    { unfold Utils.isHtmlSpecial.
      destruct (N.eqb_spec c 38) as [-> | _];
        [exfalso; apply Hc; vm_compute; repeat constructor |].
      destruct (N.eqb_spec c 60) as [-> | _];
        [exfalso; apply Hc; vm_compute; repeat constructor |].
      destruct (N.eqb_spec c 62) as [-> | _];
        [exfalso; apply Hc; vm_compute; repeat constructor |].
      destruct (N.eqb_spec c 34) as [-> | _];
        [exfalso; apply Hc; vm_compute; repeat constructor |].
      destruct (N.eqb_spec c 39) as [-> | _];
        [exfalso; apply Hc; vm_compute; repeat constructor |].
      reflexivity. }
    unfold Utils.escapeHtml, Regex.replaceAll. cbn [flat_map app].
    rewrite Hs. reflexivity.
  - apply terminalHtml_render.
  - rewrite terminalHtml_render. apply readHtml_render.
  - unfold Terminal.appendToTerminal. rewrite terminalHtml_render. reflexivity.
  - reflexivity.
  - intros c x Hc Hx. exact (renderChar_markup c Hc x Hx).
  - intros html. unfold Terminal.appendToTerminal.
    destruct (terminalPresent pg); intros Hin; [| inversion Hin].
    apply list_elem_of_singleton in Hin. injection Hin as ->.
    rewrite terminalHtml_render. apply readHtml_render.
Qed.

Lemma escapeHtml_escapes_markup_witness :
  Terminal.appendToTerminal Sample.sampleEngine Sample.samplePage
    (js "<b class='x'>1 & 2</b>" ++ nl)
  = [TerminalAppend
       (js "&lt;b&nbsp;class=&#039;x&#039;&gt;1&nbsp;&amp;&nbsp;2&lt;/b&gt;<br>")]
  /\ Observe.readHtml 23
       (js "&lt;b&nbsp;class=&#039;x&#039;&gt;1&nbsp;&amp;&nbsp;2&lt;/b&gt;<br>")
     = Some (js "<b class='x'>1 & 2</b>" ++ nl).
Proof.
  pose proof (escapeHtml_escapes_markup Sample.sampleEngine Sample.samplePage
                (js "<b class='x'>1 & 2</b>" ++ nl)) as H.
  destruct H as (_ & _ & _ & _ & _ & _ & _ & _ & _ & Hinsert & _ & _ & Hread).
  split.
  - rewrite Hinsert. vm_compute. reflexivity.
  - apply (Hread
             (js "&lt;b&nbsp;class=&#039;x&#039;&gt;1&nbsp;&amp;&nbsp;2&lt;/b&gt;<br>")).
    rewrite Hinsert. vm_compute. apply list_elem_of_singleton. reflexivity.
Defined.

Example appendToTerminal_script :
  Terminal.appendToTerminal Sample.sampleEngine Sample.samplePage
    (js "<b>x y</b>")
  = [TerminalAppend (js "&lt;b&gt;x&nbsp;y&lt;/b&gt;")].
Proof. vm_compute. reflexivity. Qed.

(** ** C10: the outcome of apiRequest *)

(** C10, as amended.  apiRequest reads the CSRF token first: when the
    cookie cannot be decoded it throws at once and nothing is sent.
    Otherwise it calls [fetch] with the method and the body of its caller
    and the two headers; a failure of [fetch] is passed on.  On a response
    that is ok it settles as the parsing of the body does: it returns the
    parsed JSON unchanged, or throws the parse error.  On a response that is
    not ok it always throws: an [Error] with the text [HTTP error! status: ]
    and the status when the body does not parse or has no truthy [error]
    member; an [Error] with the [error] member as its message when that is
    a non-empty string, and with its conversion to a string when it is any
    other truthy value; a [TypeError] when the body is [null].  So it throws
    exactly when the token cannot be decoded, [fetch] fails, the response is
    not ok, or the body does not parse. *)
Theorem apiRequest_outcome
    (E : engine) (H : Api.host) (documentCookie url : jsstring)
    (options : Api.requestInit) :
  let token :=
    Cookie.getCookie (Api.decodeURIComponent H) (js "csrftoken")
      documentCookie in
  let call := Api.apiRequest E H documentCookie url options in
  let fallback (r : Api.response) :=
    js "HTTP error! status: " ++ decimal (Api.status r) in
  (forall e, token = Thrown e ->
     call = Api.Rejected e /\ Api.fetchArguments call = None)
  /\ (forall value, token = Returned value ->
        (exists init,
           Api.fetchArguments call = Some (url, init)
           /\ Api.init_method init = Api.init_method options
           /\ Api.init_body init = Api.init_body options
           /\ (Api.init_headers options = [] ->
               Api.init_headers init
               = [ (js "Content-Type", Some (js "application/json"));
                   (js "X-CSRFToken", value) ]))
        /\ (forall e, Api.result call (Api.Failed e) = Thrown e)
        /\ (forall r, Api.ok r = true ->
              Api.result call (Api.Answered r) = Api.json r)
        /\ (forall r, Api.ok r = false ->
              (forall e, Api.json r = Thrown e ->
                 Api.result call (Api.Answered r)
                 = Thrown (newError E (fallback r)))
              /\ (Api.json r = Returned Api.JNull ->
                  Api.result call (Api.Answered r)
                  = Thrown (Api.typeError E
                              (Api.nullPropertyMessage H (js "error"))))
              /\ (forall members text,
                    Api.json r = Returned (Api.JObject members) ->
                    Api.member (js "error") members
                    = Some (Api.JString text) ->
                    text <> [] ->
                    Api.result call (Api.Answered r)
                    = Thrown (newError E text))
              /\ (forall members v,
                    Api.json r = Returned (Api.JObject members) ->
                    Api.member (js "error") members = Some v ->
                    Api.toBoolean v = true ->
                    Api.result call (Api.Answered r)
                    = match Api.toStringJson E H v with
                      | Returned text => Thrown (newError E text)
                      | Thrown e => Thrown e
                      end)
              /\ (forall data,
                    Api.json r = Returned data -> data <> Api.JNull ->
                    Api.noErrorText data ->
                    Api.result call (Api.Answered r)
                    = Thrown (newError E (fallback r)))
              /\ exists e, Api.result call (Api.Answered r) = Thrown e))
  /\ (forall x,
        (exists e, Api.result call x = Thrown e)
        <-> (exists e, token = Thrown e)
            \/ (exists e, x = Api.Failed e)
            \/ (exists r, x = Api.Answered r
                  /\ (Api.ok r = false \/ exists e, Api.json r = Thrown e))).
Proof.
  intros token call fallback. subst call. unfold Api.apiRequest. fold token.
  assert (Hnotok : forall r, Api.ok r = false ->
            exists e,
              (if negb (Api.ok r)
               then
                 match Api.readError E H
                         match Api.json r with
                         | Returned d => d
                         | Thrown _ => Api.JObject []
                         end with
                 | Thrown e => Thrown e
                 | Returned errorField =>
                   match Api.toStringJson E H
                           match errorField with
                           | Some v =>
                             if Api.toBoolean v then v
                             else Api.JString (fallback r)
                           | None => Api.JString (fallback r)
                           end with
                   | Returned text => Thrown (newError E text)
                   | Thrown e => Thrown e
                   end
                 end
               else Api.json r) = Thrown e).
  { intros r Hr. rewrite Hr. cbn [negb].
    destruct (Api.readError E H _) as [field | e]; [| eexists; reflexivity].
    destruct (Api.toStringJson E H _); eexists; reflexivity. }
  destruct token as [value | e0] eqn:Htoken.
  - split; [intros e He; discriminate He |]. split.
    + intros value' Hvalue. injection Hvalue as <-.
      cbn [Api.result Api.fetchArguments].
      split; [| split; [| split]].
      * eexists. split; [reflexivity |]. cbn [Api.init_method Api.init_body
                                               Api.init_headers].
        split; [reflexivity |]. split; [reflexivity |].
        intros ->. reflexivity.
      * reflexivity.
      * intros r Hr. rewrite Hr. reflexivity.
      * intros r Hr. split; [| split; [| split; [| split; [| split]]]].
        -- intros e He. rewrite Hr, He. reflexivity.
        -- intros Hj. rewrite Hr, Hj. reflexivity.
        -- intros members text Hj Hm Htext. rewrite Hr, Hj. cbn [negb].
           cbn [Api.readError]. rewrite Hm. cbn [Api.toBoolean].
           destruct text as [|c t]; [contradiction | reflexivity].
        -- intros members v Hj Hm Hv. rewrite Hr, Hj. cbn [negb].
           cbn [Api.readError]. rewrite Hm, Hv. reflexivity.
        -- intros data Hj Hnull Hnone. rewrite Hr, Hj. cbn [negb].
           destruct data as [| b | x | t | items | members];
             [contradiction | reflexivity | reflexivity | reflexivity
             | reflexivity |].
           cbn [Api.readError]. cbn [Api.noErrorText] in Hnone.
           destruct (Api.member (js "error") members) as [v |];
             [rewrite Hnone |]; reflexivity.
        -- apply Hnotok, Hr.
    + intros x. cbn [Api.result]. split.
      * intros [e He]. right. destruct x as [e' | r].
        -- left. eexists. reflexivity.
        -- right. exists r. split; [reflexivity |].
           destruct (Api.ok r); [| left; reflexivity].
           right. exists e. exact He.
      * intros [[e He] | [[e ->] | (r & -> & [Hr | [e He]])]].
        -- discriminate He.
        -- eexists. reflexivity.
        -- apply Hnotok, Hr.
        -- destruct (Api.ok r) eqn:Hr in |- *.
           ++ exists e. exact He.
           ++ pose proof (Hnotok r Hr) as Hthrown. rewrite Hr in Hthrown.
              exact Hthrown.
  - split; [| split].
    + intros e He. injection He as <-. split; reflexivity.
    + intros value Hvalue. discriminate Hvalue.
    + intros x. cbn [Api.result]. split.
      * intros _. left. exists e0. reflexivity.
      * intros _. exists e0. reflexivity.
Qed.

Lemma apiRequest_outcome_witness :
  Api.result
    (Api.apiRequest Sample.sampleEngine Api.sampleHost
       (js "sessionid=4f2a; csrftoken=abc123") (js "/api/servers/7/check-status/")
       {| Api.init_method := Some (js "POST"); Api.init_body := None;
          Api.init_headers := [] |})
    (Api.Answered
       {| Api.status := 404;
          Api.json :=
            Returned (Api.JObject
                        [ (js "success", Api.JBool false);
                          (js "error", Api.JString (js "no such server")) ]) |})
  = Thrown (newError Sample.sampleEngine (js "no such server")).
Proof.
  pose proof (apiRequest_outcome Sample.sampleEngine Api.sampleHost
                (js "sessionid=4f2a; csrftoken=abc123")
                (js "/api/servers/7/check-status/")
                {| Api.init_method := Some (js "POST"); Api.init_body := None;
                   Api.init_headers := [] |}) as Hall.
  cbv zeta in Hall. destruct Hall as (_ & Hfetch & _).
  destruct (Hfetch (Some (js "abc123")) eq_refl) as (_ & _ & _ & Hnotok).
  destruct (Hnotok
              {| Api.status := 404;
                 Api.json :=
                   Returned (Api.JObject
                               [ (js "success", Api.JBool false);
                                 (js "error",
                                  Api.JString (js "no such server")) ]) |}
              eq_refl) as (_ & _ & Htext & _).
  apply (Htext _ (js "no such server") eq_refl eq_refl).
  vm_compute. discriminate.
Defined.

(** C10, as stated, fails: a response that is ok but whose body is not
    JSON makes apiRequest throw. *)
Lemma apiRequest_throws_on_ok_response :
  Api.ok {| Api.status := 200; Api.json := Thrown Sample.syntaxError |} = true
  /\ Api.result
       (Api.apiRequest Sample.sampleEngine Api.sampleHost
          (js "csrftoken=abc123") (js "/api/servers/7/check-status/")
          {| Api.init_method := Some (js "POST"); Api.init_body := None;
             Api.init_headers := [] |})
       (Api.Answered
          {| Api.status := 200; Api.json := Thrown Sample.syntaxError |})
     = Thrown Sample.syntaxError.
Proof. split; reflexivity. Qed.

(** With a [null] body on a response that is not ok, what is thrown is
    the [TypeError] of reading [error], not the status. *)
Example apiRequest_null_body :
  Api.result
    (Api.apiRequest Sample.sampleEngine Api.sampleHost
       (js "csrftoken=abc123") (js "/api/servers/7/check-status/")
       {| Api.init_method := Some (js "POST"); Api.init_body := None;
          Api.init_headers := [] |})
    (Api.Answered {| Api.status := 500; Api.json := Returned Api.JNull |})
  = Thrown
      (Api.typeError Sample.sampleEngine
         (js "Cannot read properties of null (reading 'error')")).
Proof. vm_compute. reflexivity. Qed.

(** A cookie that cannot be decoded stops the call before [fetch]. *)
Example apiRequest_undecodable_token :
  Api.fetchArguments
    (Api.apiRequest Sample.sampleEngine Api.sampleHost
       (js "csrftoken=%E0%A4%A") (js "/api/servers/7/check-status/")
       {| Api.init_method := Some (js "POST"); Api.init_body := None;
          Api.init_headers := [] |})
  = None.
Proof. vm_compute. reflexivity. Qed.

(** *** The function of the handlers

    The handlers are followed on bodies of the REST contract, with
    [Utils.apiRequest]: on such a body, given as the JSON object with the
    same [error] member, it throws what [Api.apiRequest] throws, and
    returns when that returns. *)
Lemma apiRequest_on_contract (E : engine) (H : Api.host)
    (documentCookie url : jsstring) (options : Api.requestInit)
    (value : option jsstring) (r : httpResponse)
    (body : outcome Api.jsonValue) :
  Cookie.getCookie (Api.decodeURIComponent H) (js "csrftoken") documentCookie
  = Returned value ->
  Api.sameBody (json r) body ->
  match Utils.apiRequest E (Responded r),
        Api.result (Api.apiRequest E H documentCookie url options)
          (Api.Answered {| Api.status := http_status r; Api.json := body |})
  with
  | Thrown e, Thrown e' => e = e'
  | Returned d, Returned j => json r = Returned d /\ body = Returned j
  | _, _ => False
  end.
Proof.
  intros Htoken Hbody. unfold Api.apiRequest, Utils.apiRequest.
  rewrite Htoken. cbn [Api.result].
  change (Api.ok {| Api.status := http_status r; Api.json := body |})
    with (ok r).
  cbn [Api.status Api.json].
  destruct (ok r); cbn [negb].
  - destruct (json r) as [d | e], body as [[| | | | | members] | e'];
      cbn [Api.sameBody] in Hbody; try contradiction; [split; reflexivity |].
    exact Hbody.
  - destruct (json r) as [d | e], body as [[| | | | | members] | e'];
      cbn [Api.sameBody] in Hbody; try contradiction.
    + cbn [Api.readError]. rewrite Hbody.
      destruct (error d) as [[|c t] |]; reflexivity.
    + reflexivity.
Qed.

(** A failure of [fetch] itself is passed on. *)
Lemma apiRequest_network_failure (E : engine) (e : jsError) :
  Utils.apiRequest E (NetworkFailure e) = Thrown e.
Proof. reflexivity. Qed.

(** * Further properties *)

(** ** The matcher against the meaning of the patterns *)

Ltac conjs := repeat split; try reflexivity; try assumption.

Section MoreSpec.
Context {R : Type}.
Variables (p : N -> bool) (k : jsstring -> jsstring -> option R).

(** A greedy class succeeds exactly when some run of its characters can be
    taken so that the rest of the pattern succeeds. *)
Lemma more_is_Some (s acc : jsstring) :
  is_Some (Regex.more p k acc s)
  <-> exists m rest,
        s = m ++ rest /\ forallb p m = true /\ is_Some (k (acc ++ m) rest).
Proof.
  revert acc. induction s as [|c t IH]; intros acc; cbn [Regex.more].
  - split.
    + intros H. exists [], []. rewrite (app_nil_r acc). conjs.
    + intros (m & rest & Hs & _ & Hk).
      symmetry in Hs. apply app_eq_nil in Hs as [-> ->].
      rewrite app_nil_r in Hk. exact Hk.
  - split.
    + intros H. destruct (p c) eqn:Hc.
      * destruct (Regex.more p k (acc ++ [c]) t) as [r|] eqn:Hm.
        -- assert (Hs : is_Some (Regex.more p k (acc ++ [c]) t))
             by (rewrite Hm; eauto).
           apply IH in Hs as (m & rest & -> & Hall & Hk).
           exists (c :: m), rest. cbn [forallb]. rewrite Hc, Hall.
           rewrite <- app_assoc in Hk. conjs.
        -- exists [], (c :: t). rewrite (app_nil_r acc). conjs.
      * exists [], (c :: t). rewrite (app_nil_r acc). conjs.
    + intros (m & rest & Hs & Hall & Hk).
      destruct m as [|c' m'].
      * cbn [app] in Hs. subst rest. rewrite app_nil_r in Hk.
        destruct (p c); [| exact Hk].
        destruct (Regex.more p k (acc ++ [c]) t); [eauto | exact Hk].
      * cbn [app] in Hs. injection Hs as <- ->.
        cbn [forallb] in Hall. apply andb_prop in Hall as [Hc Hall].
        rewrite Hc.
        assert (Hsome : is_Some (Regex.more p k (acc ++ [c]) (m' ++ rest))).
        { apply IH. exists m', rest. rewrite <- app_assoc. conjs. }
        destruct Hsome as [r ->]. eauto.
Qed.

Lemma quantified_is_Some (q : Regex.quant) (s : jsstring) :
  is_Some (Regex.quantified p k q s)
  <-> match q with
      | Regex.Once =>
        exists c rest, s = c :: rest /\ p c = true /\ is_Some (k [c] rest)
      | Regex.Optional =>
        (exists c rest, s = c :: rest /\ p c = true /\ is_Some (k [c] rest))
        \/ is_Some (k [] s)
      | Regex.OneOrMore =>
        exists m rest,
          s = m ++ rest /\ m <> [] /\ forallb p m = true /\ is_Some (k m rest)
      end.
Proof.
  destruct q, s as [|c t]; cbn [Regex.quantified].
  - split; [intros [? [=]] | intros (? & ? & [=] & _)].
  - split.
    + intros H. destruct (p c) eqn:Hc; [eauto 6 | destruct H as [? [=]]].
    + intros (c' & rest & [= <- <-] & -> & H). exact H.
  - split; [auto | intros [(? & ? & [=] & _) | H]; exact H].
  - split.
    + intros H. destruct (p c) eqn:Hc; [| auto].
      destruct (k [c] t) eqn:Hk; [left; exists c, t; rewrite Hk; eauto | auto].
    + intros [(c' & rest & [= <- <-] & -> & [r ->]) | H]; [eauto |].
      destruct (p c); [| exact H]. destruct (k [c] t); [eauto | exact H].
  - split; [intros [? [=]] |].
    intros (m & rest & Hs & Hne & _). symmetry in Hs.
    apply app_eq_nil in Hs as [-> _]. congruence.
  - split.
    + intros H. destruct (p c) eqn:Hc; [| destruct H as [? [=]]].
      apply more_is_Some in H as (m & rest & -> & Hall & Hk).
      exists (c :: m), rest. cbn [forallb]. rewrite Hc, Hall. auto.
    + intros (m & rest & Hs & Hne & Hall & Hk).
      destruct m as [|c' m']; [congruence |].
      cbn [app] in Hs. injection Hs as <- ->.
      cbn [forallb] in Hall. apply andb_prop in Hall as [-> Hall].
      apply more_is_Some. exists m', rest. auto.
Qed.
End MoreSpec.

(** The matcher accepts exactly what the pattern means. *)
Lemma matchHere_matches (re : Regex.regex) (atStart : bool) (s : jsstring) :
  is_Some (Regex.matchHere re atStart s) <-> Outcome.matches re atStart s.
Proof.
  revert atStart s. induction re as [|a re IH]; intros atStart s.
  - cbn. split; eauto.
  - destruct a as [| | p q | p q]; cbn [Regex.matchHere Outcome.matches].
    + destruct atStart.
      * rewrite IH. tauto.
      * split; [intros [? [=]] | intros [[=] _]].
    + destruct s as [|c t].
      * rewrite IH. tauto.
      * split; [intros [? [=]] | intros [[=] _]].
    + rewrite quantified_is_Some. destruct q.
      * setoid_rewrite IH. cbn [Regex.isEmpty]. rewrite andb_false_r.
        reflexivity.
      * setoid_rewrite IH. cbn [Regex.isEmpty].
        rewrite andb_false_r, andb_true_r. reflexivity.
      * split; intros (m & rest & Hs & Hne & Hall & H);
          exists m, rest; (repeat split; try assumption);
          destruct m; try congruence; cbn [Regex.isEmpty] in *;
          rewrite andb_false_r in *; apply IH; exact H.
    + assert (Hcap : forall b m rest,
                 is_Some (match Regex.matchHere re b rest with
                          | Some caps => Some (m :: caps)
                          | None => None
                          end)
                 <-> Outcome.matches re b rest).
      { intros b m rest. rewrite <- IH.
        destruct (Regex.matchHere re b rest); split; eauto. }
      rewrite quantified_is_Some. destruct q.
      * setoid_rewrite Hcap. cbn [Regex.isEmpty]. rewrite andb_false_r.
        reflexivity.
      * setoid_rewrite Hcap. cbn [Regex.isEmpty].
        rewrite andb_false_r, andb_true_r. reflexivity.
      * split; intros (m & rest & Hs & Hne & Hall & H);
          exists m, rest; (repeat split; try assumption);
          destruct m; try congruence; cbn [Regex.isEmpty] in *;
          rewrite andb_false_r in *;
          first [exact (proj1 (Hcap _ _ _) H) | exact (proj2 (Hcap _ _ _) H)].
Qed.

(** An anchored pattern is tried at the first position only. *)
Lemma test_anchored (re : Regex.regex) (s : jsstring) :
  Regex.test (Regex.Bol :: re) s = true
  <-> Outcome.matches (Regex.Bol :: re) true s.
Proof.
  rewrite <- matchHere_matches. unfold Regex.test, Regex.exec.
  destruct s as [|c t]; cbn [Regex.searchFrom].
  - destruct (Regex.matchHere (Regex.Bol :: re) true []); split; eauto;
      try discriminate. intros [? [=]].
  - rewrite searchFrom_bol_later.
    destruct (Regex.matchHere (Regex.Bol :: re) true (c :: t)); split; eauto;
      try discriminate. intros [? [=]].
Qed.

(** ** The email check *)

Lemma notSpaceNorAt_facts (s : jsstring) :
  forallb Utils.notSpaceNorAt s = true ->
  forallb (fun c => negb (isSpace c)) s = true
  /\ List.count_occ N.eq_dec s 64 = 0%nat.
Proof.
  induction s as [|c t IH]; [auto |].
  cbn [forallb List.count_occ]. intros H. apply andb_prop in H as [Hc Ht].
  destruct (IH Ht) as [IH1 IH2]. rewrite IH1, IH2.
  unfold Utils.notSpaceNorAt in Hc. apply negb_true_iff in Hc.
  apply orb_false_elim in Hc as [Hsp Hat]. rewrite Hsp.
  apply N.eqb_neq in Hat. destruct (N.eq_dec c 64); [contradiction | auto].
Qed.

(** X1: isValidEmail accepts exactly the strings made of a non-empty local
    part, an at sign, and a part after it that has a dot with something on
    either side, none of the three runs holding white space or a further at
    sign.  An accepted address therefore has no white space and exactly one
    at sign. *)
Theorem isValidEmail_shape (email : jsstring) :
  (Utils.isValidEmail email = true
   <-> exists name host suffix,
         email = name ++ js "@" ++ host ++ js "." ++ suffix
         /\ name <> [] /\ host <> [] /\ suffix <> []
         /\ forallb Utils.notSpaceNorAt name = true
         /\ forallb Utils.notSpaceNorAt host = true
         /\ forallb Utils.notSpaceNorAt suffix = true)
  /\ (Utils.isValidEmail email = true ->
      forallb (fun c => negb (isSpace c)) email = true
      /\ List.count_occ N.eq_dec email 64 = 1%nat).
Proof.
  assert (Hshape : Utils.isValidEmail email = true
   <-> exists name host suffix,
         email = name ++ js "@" ++ host ++ js "." ++ suffix
         /\ name <> [] /\ host <> [] /\ suffix <> []
         /\ forallb Utils.notSpaceNorAt name = true
         /\ forallb Utils.notSpaceNorAt host = true
         /\ forallb Utils.notSpaceNorAt suffix = true).
  { unfold Utils.isValidEmail, Utils.emailRe. rewrite test_anchored.
    cbn [Outcome.matches]. split.
    - intros (_ & name & r1 & -> & Hn & Hname & c1 & r2 & -> & Hc1
              & host & r3 & -> & Hh & Hhost & c2 & r4 & -> & Hc2
              & suffix & r5 & -> & Hs & Hsuffix & -> & _).
      apply N.eqb_eq in Hc1, Hc2. subst c1 c2.
      exists name, host, suffix. rewrite app_nil_r. conjs.
    - intros (name & host & suffix & -> & Hn & Hh & Hs & Hname & Hhost
              & Hsuffix).
      split; [reflexivity |].
      exists name, (js "@" ++ host ++ js "." ++ suffix). conjs.
      exists 64, (host ++ js "." ++ suffix). conjs.
      exists host, (js "." ++ suffix). conjs.
      exists 46, suffix. conjs.
      exists suffix, []. rewrite app_nil_r. conjs. }
  split; [exact Hshape |].
  intros H. apply Hshape in H
    as (name & host & suffix & -> & _ & _ & _ & Hname & Hhost & Hsuffix).
  apply notSpaceNorAt_facts in Hname as [Hn1 Hn2].
  apply notSpaceNorAt_facts in Hhost as [Hh1 Hh2].
  apply notSpaceNorAt_facts in Hsuffix as [Hs1 Hs2].
  change (js "@") with [64]. change (js ".") with [46].
  rewrite !forallb_app, !List.count_occ_app, Hn1, Hh1, Hs1, Hn2, Hh2, Hs2.
  split; reflexivity.
Qed.

Lemma isValidEmail_shape_witness :
  forallb (fun c => negb (isSpace c)) (js "ann@vpn.example.org") = true
  /\ List.count_occ N.eq_dec (js "ann@vpn.example.org") 64 = 1%nat.
Proof.
  apply (proj2 (isValidEmail_shape (js "ann@vpn.example.org"))).
  vm_compute. reflexivity.
Defined.

(** ** Trimming *)

Lemma trimStart_clean (s : jsstring) : Outcome.startsClean (trimStart s) = true.
Proof.
  induction s as [|c t IH]; [reflexivity |]. cbn [trimStart].
  destruct (isSpace c) eqn:Hc; [exact IH |]. cbn. rewrite Hc. reflexivity.
Qed.

Lemma trimStart_split (s : jsstring) :
  exists ws, s = ws ++ trimStart s /\ forallb isSpace ws = true.
Proof.
  induction s as [|c t (ws & Hs & Hws)]; [exists []; auto |].
  cbn [trimStart]. destruct (isSpace c) eqn:Hc.
  - exists (c :: ws). cbn [app forallb]. rewrite Hc, Hws, <- Hs. auto.
  - exists []. auto.
Qed.

Lemma trimStart_fixed (s : jsstring) :
  Outcome.startsClean s = true -> trimStart s = s.
Proof.
  destruct s as [|c t]; [reflexivity |]. cbn. intros H.
  apply negb_true_iff in H. rewrite H. reflexivity.
Qed.

Lemma trim_fixed (s : jsstring) : Outcome.isTrimmed s = true -> trim s = s.
Proof.
  unfold Outcome.isTrimmed, trim, trimEnd. intros H.
  apply andb_prop in H as [H1 H2].
  rewrite (trimStart_fixed s H1), (trimStart_fixed (rev s) H2).
  apply rev_involutive.
Qed.

(** What [trim] returns has no white space at either end. *)
Lemma trim_isTrimmed (s : jsstring) : Outcome.isTrimmed (trim s) = true.
Proof.
  unfold Outcome.isTrimmed, trim, trimEnd.
  rewrite rev_involutive, trimStart_clean, andb_true_r.
  pose proof (trimStart_clean s) as Hy.
  destruct (trimStart_split (rev (trimStart s))) as (ws & Hsplit & Hws).
  destruct (trimStart (rev (trimStart s))) as [|d z] eqn:Hz; [reflexivity |].
  apply (f_equal (@rev N)) in Hsplit.
  rewrite rev_involutive, rev_app_distr in Hsplit.
  cbn [rev] in Hsplit |- *.
  destruct (rev z) as [|e z'].
  - cbn [app] in Hsplit |- *. rewrite Hsplit in Hy. exact Hy.
  - cbn [app] in Hsplit |- *. rewrite Hsplit in Hy. exact Hy.
Qed.

Lemma trim_idempotent (s : jsstring) : trim (trim s) = trim s.
Proof. apply trim_fixed, trim_isTrimmed. Qed.

(** A string without white space is left as it is. *)
Lemma trim_no_space (s : jsstring) :
  forallb (fun c => negb (isSpace c)) s = true -> trim s = s.
Proof.
  intros H. apply trim_fixed. unfold Outcome.isTrimmed.
  assert (Hclean : forall t, forallb (fun c => negb (isSpace c)) t = true ->
                             Outcome.startsClean t = true).
  { intros [|c t] Ht; [reflexivity |]. cbn in Ht |- *.
    apply andb_prop in Ht as [-> _]. reflexivity. }
  rewrite (Hclean s H), Hclean; [reflexivity |].
  apply forallb_forall. intros c Hc. apply in_rev in Hc.
  rewrite forallb_forall in H. apply H, Hc.
Qed.

(** ** What createClient sends *)

(** X2: whatever is typed into the form, a request that createClient
    sends is a POST whose [client_name] is non-empty, made only of
    characters of the class [[a-zA-Z0-9_-]] and free of white space at
    either end, and whose [email], when present, passes the email check; no
    other field is sent. *)
Theorem createClient_sends_only_valid_names
    (E : engine) (pg : page) (serverId : option jsstring)
    (nameValue emailValue : jsstring) (req : request) :
  dispatched (Clients.createClient E pg serverId nameValue emailValue)
  = Some req ->
  method req = js "POST"
  /\ exists name fields,
       payload req = Some ((js "client_name", VStr name) :: fields)
       /\ name <> []
       /\ forallb Utils.isNameChar name = true
       /\ Outcome.isTrimmed name = true
       /\ (fields = []
           \/ exists email,
                fields = [(js "email", VStr email)]
                /\ Utils.isValidEmail email = true).
Proof.
  unfold Clients.createClient.
  rewrite !truthy_str, isValidClientName_spec.
  pose proof (trim_isTrimmed nameValue) as Htrim.
  destruct (trim nameValue) as [|c t] eqn:Hname; [discriminate |].
  cbn [Regex.isEmpty negb andb].
  destruct (forallb Utils.isNameChar (c :: t)) eqn:Hall; [| discriminate].
  cbn [negb].
  destruct (trim emailValue) as [|d u] eqn:Hemail; cbn [Regex.isEmpty negb andb].
  - intros [= <-]. split; [reflexivity |].
    exists (c :: t), [].
    split; [reflexivity |]. split; [discriminate |].
    split; [exact Hall |]. split; [exact Htrim |]. left. reflexivity.
  - destruct (Utils.isValidEmail (d :: u)) eqn:Hvalid; [| discriminate].
    cbn [negb]. intros [= <-]. split; [reflexivity |].
    exists (c :: t), [(js "email", VStr (d :: u))].
    split; [reflexivity |]. split; [discriminate |].
    split; [exact Hall |]. split; [exact Htrim |].
    right. exists (d :: u). split; [reflexivity | exact Hvalid].
Qed.

Lemma createClient_sends_only_valid_names_witness :
  method (Utils.apiCall (js "/api/servers/3/create-client/") (js "POST")
            (Some [(js "client_name", VStr (js "bob"));
                   (js "email", VStr (js "bob@example.org"))]))
  = js "POST".
Proof.
  apply (createClient_sends_only_valid_names Sample.sampleEngine
           Sample.samplePage (Some (js "3")) (js " bob") (js "bob@example.org ")).
  vm_compute. reflexivity.
Defined.

(** ** What the handlers leave on the page *)

(** A loop whose every round is invisible to an observer is invisible. *)
Lemma flat_map_quiet {A B C} (g : B -> list C) (h : A -> list B) (l : list A) :
  (forall x, flat_map g (h x) = []) -> flat_map g (flat_map h l) = [].
Proof.
  intros Hg. induction l as [|x l IH]; [reflexivity |].
  cbn [flat_map]. rewrite flat_map_app, Hg, IH. reflexivity.
Qed.

(** Evaluates the observers of [Outcome] on a trace built from the blocks
    of the scripts, by cases on every test the trace depends on. *)
Ltac observe :=
  unfold Outcome.alerts, Outcome.reloads, Outcome.savedFiles,
    Outcome.statusLines, Outcome.terminalLines, Outcome.formResets,
    Outcome.timerStops, Browser.buttonEvents, requests,
    ServerActions.outputBlock, ServerActions.errorBlock,
    Utils.handleApiError, Utils.showStatus, Utils.showAlert,
    Utils.reloadPage, Utils.restoreButton, Utils.showButtonLoading,
    Terminal.appendToTerminal;
  repeat first
    [ progress cbn [flat_map app List.length Outcome.succeeded]
    | rewrite flat_map_app
    | rewrite length_app
    | rewrite flat_map_quiet by (intros; repeat case_match; reflexivity)
    | case_match ];
  try reflexivity; try discriminate; try congruence.

(** X3: every call of createClient shows exactly one alert, however it
    ends.  When a request was sent, the modal is hidden, the form reset and
    the reload scheduled exactly when the exchange returned a body that
    reports success; in every case the create button is enabled again. *)
Theorem createClient_one_alert
    (E : engine) (pg : page) (serverId : option jsstring)
    (nameValue emailValue : jsstring) :
  match Clients.createClient E pg serverId nameValue emailValue with
  | Finished es => List.length (Outcome.alerts es) = 1%nat
  | Awaiting es _ k =>
    Outcome.alerts es = []
    /\ forall f,
         List.length (Outcome.alerts (k f)) = 1%nat
         /\ Outcome.reloads (k f)
            = (if Outcome.succeeded (Utils.apiRequest E f) then [1500] else [])
         /\ Outcome.formResets (k f)
            = (if Outcome.succeeded (Utils.apiRequest E f)
               then [ModalHide; FormReset] else [])
         /\ Browser.buttonEvents (k f)
            = [ButtonRestore (ById (js "createClientBtn")) None]
  end.
Proof.
  unfold Clients.createClient.
  destruct (negb (truthy (VStr (trim nameValue)))); [reflexivity |].
  destruct (negb (Utils.isValidClientName (trim nameValue))); [reflexivity |].
  destruct (truthy (VStr (trim emailValue))
            && negb (Utils.isValidEmail (trim emailValue))); [reflexivity |].
  split; [reflexivity |]. intros f.
  destruct (Utils.apiRequest E f) as [data | error].
  - repeat split; observe.
  - repeat split; observe.
Qed.

(** ** The file name and the file of a download *)

Lemma searchFrom_Some (re : Regex.regex) (b : bool) (s : jsstring)
    (caps : list jsstring) :
  Regex.searchFrom re b s = Some caps ->
  exists pre suffix b', s = pre ++ suffix
                        /\ is_Some (Regex.matchHere re b' suffix).
Proof.
  revert b. induction s as [|c t IH]; intros b; cbn [Regex.searchFrom].
  - destruct (Regex.matchHere re b []) eqn:Hm; [| discriminate].
    intros _. exists [], [], b. rewrite Hm. eauto.
  - destruct (Regex.matchHere re b (c :: t)) eqn:Hm.
    + intros _. exists [], (c :: t), b. rewrite Hm. eauto.
    + intros H. apply IH in H as (pre & suffix & b' & -> & H).
      exists (c :: pre), suffix, b'. auto.
Qed.

Lemma matches_lit (w : jsstring) (re : Regex.regex) (b : bool) (s : jsstring) :
  Outcome.matches (Regex.lit w ++ re) b s ->
  exists post, s = w ++ post.
Proof.
  revert b s. induction w as [|c w IH]; intros b s; [eauto |].
  cbn [Regex.lit map app Outcome.matches].
  intros (c' & rest & -> & Hc & H). apply N.eqb_eq in Hc. subst c'.
  apply IH in H as [post ->]. eauto.
Qed.

(** X4: a header that does not contain [filename=] at all, or is empty,
    leaves the default name [{clientName}.ovpn]. *)
Theorem downloadFilename_without_parameter
    (clientName header : jsstring) :
  (forall pre post, header <> pre ++ js "filename=" ++ post) ->
  Clients.downloadFilename clientName (Some header) = clientName ++ js ".ovpn".
Proof.
  intros Hno. unfold Clients.downloadFilename.
  destruct (truthy (VStr header)); [| reflexivity].
  destruct (Regex.exec Clients.filenameRe header) as [caps|] eqn:Hexec;
    [| reflexivity].
  exfalso. unfold Regex.exec in Hexec.
  apply searchFrom_Some in Hexec as (pre & suffix & b & -> & Hm).
  apply matchHere_matches in Hm. unfold Clients.filenameRe in Hm.
  apply matches_lit in Hm as [post ->]. exact (Hno pre post eq_refl).
Qed.

Lemma downloadFilename_without_parameter_witness :
  Clients.downloadFilename (js "alice") (Some (js "inline"))
  = js "alice" ++ js ".ovpn".
Proof.
  apply downloadFilename_without_parameter.
  intros pre post H.
  assert (Hin : In 61 (js "inline")).
  { rewrite H. apply in_or_app. right. vm_compute. auto 12. }
  vm_compute in Hin. intuition discriminate.
Defined.

Lemma matchHere_lit (w : jsstring) (re : Regex.regex) (b : bool)
    (s : jsstring) :
  Regex.matchHere (Regex.lit w ++ re) b (w ++ s)
  = Regex.matchHere re (b && Regex.isEmpty w) s.
Proof.
  revert b. induction w as [|c w IH]; intros b.
  - cbn. rewrite andb_true_r. reflexivity.
  - cbn [Regex.lit map app Regex.matchHere Regex.quantified Regex.isEmpty].
    rewrite N.eqb_refl. fold (Regex.lit w). rewrite IH, !andb_false_r.
    reflexivity.
Qed.

Lemma searchFrom_skip (x : N) (re : Regex.regex) (pre s : jsstring) (b : bool) :
  pre <> [] ->
  forallb (fun c => negb (x =? c)) pre = true ->
  Regex.searchFrom (Regex.Cls (N.eqb x) Regex.Once :: re) b (pre ++ s)
  = Regex.searchFrom (Regex.Cls (N.eqb x) Regex.Once :: re) false s.
Proof.
  revert b. induction pre as [|c pre IH]; intros b Hne Hall; [congruence |].
  cbn [forallb] in Hall. apply andb_prop in Hall as [Hc Hall].
  apply negb_true_iff in Hc.
  cbn [app Regex.searchFrom Regex.matchHere Regex.quantified]. rewrite Hc.
  destruct pre as [|d pre]; [reflexivity |].
  apply IH; [discriminate | exact Hall].
Qed.

(** X5: when the header gives the name without quotes, as
    [attachment; filename=] followed by a non-empty name that has no line
    terminator and does not begin with a double quote, the file is saved
    under exactly that name. *)
Theorem downloadFilename_unquoted_verbatim (clientName name : jsstring) :
  name <> [] ->
  forallb (fun c => negb (isLineTerminator c)) name = true ->
  head name <> Some 34 ->
  Clients.downloadFilename clientName
    (Some (js "attachment; filename=" ++ name))
  = name.
Proof.
  intros Hne Hname Hhead.
  unfold Clients.downloadFilename.
  destruct name as [|c t]; [congruence |].
  replace (truthy _) with true by reflexivity.
  unfold Regex.exec, Clients.filenameRe.
  change (js "attachment; filename=")
    with (js "attachment; " ++ js "filename=").
  rewrite <- app_assoc.
  let x := eval vm_compute in (js "filename=") in
    change (js "filename=") with x.
  cbn [Regex.lit map]. rewrite <- app_comm_cons.
  rewrite (searchFrom_skip 102 _ (js "attachment; "));
    [| vm_compute; discriminate | vm_compute; reflexivity].
  match goal with
  | |- context [Regex.searchFrom ?re false ?text] =>
    assert (Hm : Regex.matchHere re false text = Some [c :: t])
  end.
  { change (Regex.matchHere
              (Regex.lit [102; 105; 108; 101; 110; 97; 109; 101; 61]
                 ++ [Regex.Cls (N.eqb 34) Regex.Optional;
                     Regex.Cap (fun c => negb (isLineTerminator c))
                       Regex.OneOrMore;
                     Regex.Cls (N.eqb 34) Regex.Optional])
              false ([102; 105; 108; 101; 110; 97; 109; 101; 61] ++ c :: t)
            = Some [c :: t]).
    rewrite (matchHere_lit [102; 105; 108; 101; 110; 97; 109; 101; 61]).
    cbn [Regex.matchHere Regex.quantified Regex.isEmpty andb].
    assert (Hq : (34 =? c) = false).
    { apply N.eqb_neq. intros <-. apply Hhead. reflexivity. }
    rewrite Hq. cbn [Regex.quantified].
    simpl in Hname. apply andb_prop in Hname as [Hc Ht]. rewrite Hc.
    rewrite (more_all _ _ t [c] [c :: t]); [reflexivity | exact Ht |].
    reflexivity. }
  cbn [app Regex.searchFrom] in Hm |- *. rewrite Hm. reflexivity.
Qed.

Lemma downloadFilename_unquoted_verbatim_witness :
  Clients.downloadFilename (js "alice")
    (Some (js "attachment; filename=" ++ js "office.ovpn"))
  = js "office.ovpn".
Proof.
  apply downloadFilename_unquoted_verbatim.
  - vm_compute. discriminate.
  - vm_compute. reflexivity.
  - vm_compute. discriminate.
Defined.

(** X6: when the lookup of the download buttons throws, which a client
    name with a double quote can cause, downloadClientConfig ends there:
    nothing is sent, saved or shown, and no button is touched.  Otherwise it
    saves a file exactly when the response is ok and its body could be read,
    and then exactly one, under the name derived from the header; either way
    one alert is shown, and the buttons found are disabled before the
    request and given their icon back after it.  For a name of ordinary
    characters the buttons found are those whose onclick contains the call
    with that name. *)
Theorem downloadClientConfig_saves_on_ok_only
    (E : engine) (pg : page) (serverId : option jsstring)
    (clientName : jsstring) (special : outcome buttons) (f : fetched) :
  let started :=
    Clients.downloadClientConfig E pg serverId clientName special in
  let es := run started f in
  match Clients.downloadButtons clientName special with
  | Thrown _ =>
    dispatched started = None
    /\ Outcome.savedFiles es = [] /\ Outcome.alerts es = []
    /\ Browser.buttonEvents es = []
  | Returned downloadBtns =>
    Outcome.savedFiles es
    = match f with
      | Responded response =>
        match ok response, blob response with
        | true, Returned size =>
          [(Clients.downloadFilename clientName
              (contentDisposition response), size)]
        | _, _ => []
        end
      | NetworkFailure _ => []
      end
    /\ List.length (Outcome.alerts es) = 1%nat
    /\ exists loading restored,
         Browser.buttonEvents es
         = [ButtonLoading downloadBtns loading;
            ButtonRestore downloadBtns restored]
  end
  /\ (forallb Clients.isCssPlain clientName = true ->
      Clients.downloadButtons clientName special
      = Returned
          (ByOnclick (js "downloadClientConfig('" ++ clientName ++ js "')"))).
Proof.
  cbv zeta. split.
  - unfold Clients.downloadClientConfig.
    destruct (Clients.downloadButtons clientName special) as [btns | e].
    + unfold run. destruct f as [error | response].
      * split; [| split; [| eexists _, _]]; observe.
      * destruct (ok response), (blob response) as [size | error];
          cbn [negb];
          (split; [| split; [| eexists _, _]]); observe.
    + repeat split.
  - intros Hplain. unfold Clients.downloadButtons. rewrite Hplain. reflexivity.
Qed.

Lemma downloadClientConfig_saves_on_ok_only_witness :
  Clients.downloadButtons (js "alice") (Thrown Sample.syntaxError)
  = Returned (ByOnclick (js "downloadClientConfig('alice')")).
Proof.
  apply (proj2 (downloadClientConfig_saves_on_ok_only Sample.sampleEngine
                  Sample.samplePage (Some (js "7")) (js "alice")
                  (Thrown Sample.syntaxError)
                  (NetworkFailure Sample.syntaxError))).
  vm_compute. reflexivity.
Defined.

(** A name with a double quote, on a host whose parser refuses the
    selector: the call logs its first line and ends. *)
Example downloadClientConfig_quoted_name :
  run (Clients.downloadClientConfig Sample.sampleEngine Sample.samplePage
         (Some (js "7")) (js "al" ++ dquote ++ js "ice")
         (Thrown Sample.syntaxError))
      (Sample.fileResponse None 10)
  = [ConsoleLog [LStr (js "Downloading client config:");
                 LStr (js "al" ++ dquote ++ js "ice");
                 LStr (js "from server:"); LVal (VStr (js "7"))]].
Proof. vm_compute. reflexivity. Qed.

(** ** Revocation, agent update and STunnel *)

(** X7: revokeClient sends its request, a POST with an empty object to
    [/clients/{id}/revoke/], exactly when the dialog is accepted.  A
    confirmed call ends with exactly one alert whatever the outcome, and
    schedules the reload exactly when the body reports success; a declined
    call shows nothing.  No button is touched. *)
Theorem revokeClient_outcome
    (E : engine) (clientId : N) (confirmed : bool) (f : fetched) :
  let a := Revocation.revokeClient E clientId confirmed in
  dispatched a
  = (if confirmed
     then Some (Utils.apiCall
                  (js "/clients/" ++ decimal clientId ++ js "/revoke/")
                  (js "POST") (Some []))
     else None)
  /\ List.length (Outcome.alerts (run a f)) = (if confirmed then 1 else 0)%nat
  /\ Outcome.reloads (run a f)
     = (if confirmed && Outcome.succeeded (Utils.apiRequest E f)
        then [1000] else [])
  /\ Browser.buttonEvents (run a f) = [].
Proof.
  cbv zeta. unfold Revocation.revokeClient.
  destruct confirmed; cbn [negb andb dispatched run];
    [| repeat split].
  split; [reflexivity |].
  destruct (Utils.apiRequest E f) as [data | error];
    (split; [| split]); observe.
Qed.


(** A body that reports failure is announced as a success. *)
Example updateAgent_failure_body :
  Outcome.statusLines
    (run (AgentUpdate.updateAgent Sample.sampleEngine Sample.samplePage 5 true)
         (Sample.withJson 200
            (Returned (Sample.errorReply (js "agent not found")))))
  = [ (VStr (js "Обновляем агент на сервере..."), js "info");
      (VStr (js "Агент успешно обновлен!"), js "success") ].
Proof. vm_compute. reflexivity. Qed.

(** X9: each STunnel action sends its request, a POST without body to
    [/api/servers/{id}/stunnel/{action}/], exactly when its dialog is
    accepted; a declined call shows the dialog and nothing else; a confirmed
    one disables its own button and enables it again on every outcome. *)
Theorem stunnel_request
    (E : engine) (pg : page) (serverId : N) (a : Stunnel.action)
    (confirmed : bool) :
  let call := Stunnel.perform E a pg serverId confirmed in
  dispatched call
  = (if confirmed
     then Some (Utils.apiCall
                  (js "/api/servers/" ++ decimal serverId ++ js "/stunnel/"
                     ++ Stunnel.segment a ++ js "/")
                  (js "POST") None)
     else None)
  /\ Outcome.restoresButtons call (Stunnel.buttonOf a)
  /\ (confirmed = true \/ exists text, call = Finished [Confirm text]).
Proof.
  cbv zeta.
  destruct a, confirmed;
    cbn [Stunnel.perform Stunnel.setupStunnel Stunnel.startStunnel
         Stunnel.stopStunnel Stunnel.restartStunnel negb dispatched
         Outcome.restoresButtons];
    (split; [reflexivity |]);
    (split; [| first [left; reflexivity | right; eexists; reflexivity]]);
    try reflexivity;
    (split; [eexists; observe |]);
    intros f; eexists;
    destruct (Utils.apiRequest E f); unfold AgentUpdate.errorOutput; observe.
Qed.


Example startStunnel_failure_body :
  Outcome.statusLines
    (run (Stunnel.startStunnel Sample.sampleEngine Sample.samplePage 5 true)
         (Sample.withJson 200
            (Returned (Sample.errorReply (js "port 443 is in use")))))
  = [ (VStr (js "Запускаем STunnel..."), js "info");
      (VStr (js "STunnel успешно запущен!"), js "success") ].
Proof. vm_compute. reflexivity. Qed.

(** ** The terminal: commands, the input line and the connection *)

Lemma last_terminalLines_app (a : list event) (html : jsstring) :
  last (Outcome.terminalLines (a ++ [TerminalAppend html])) = Some html.
Proof.
  unfold Outcome.terminalLines. rewrite flat_map_app. cbn [flat_map app].
  apply last_snoc.
Qed.

(** X11: sendCommand sends a request only when the terminal is connected,
    the command is not blank and the page names a server; the body then
    carries the command exactly as given.  When it does send and the terminal
    element exists, the first thing written to the terminal is the escaped
    echo of the command, which reads back as the command and a line feed,
    and the last thing written after the exchange is the prompt, on success
    and on failure alike. *)
Theorem sendCommand_guards
    (E : engine) (pg : page) (sd : SshTerminal.serverData)
    (command : jsstring) (f : fetched) :
  let a := SshTerminal.sendCommand E pg sd command in
  dispatched a
  = (if isConnected pg && negb (Regex.isEmpty (trim command))
        && truthy (ofStr (SshTerminal.dataServerId sd))
     then Some (Utils.apiCall
                  (js "/api/servers/"
                     ++ toString E (ofStr (SshTerminal.dataServerId sd))
                     ++ js "/ssh-command/")
                  (js "POST") (Some [(js "command", VStr command)]))
     else None)
  /\ (isConnected pg && negb (Regex.isEmpty (trim command)) = false ->
      run a f = [])
  /\ (terminalPresent pg = true -> dispatched a <> None ->
      exists html rest,
        Outcome.terminalLines (run a f) = html :: rest
        /\ Observe.readHtml (List.length (command ++ nl)) html
           = Some (command ++ nl)
        /\ last (Outcome.terminalLines (run a f))
           = Some (Terminal.terminalHtml E (SshTerminal.promptLine E sd))).
Proof.
  cbv zeta. unfold SshTerminal.sendCommand. rewrite truthy_str.
  assert (Hnone : forall P : Prop, (None : option request) <> None -> P)
    by (intros P H; exfalso; apply H; reflexivity).
  destruct (isConnected pg); cbn [negb andb];
    [| split; [reflexivity | split; [reflexivity | intros _; apply Hnone]]].
  destruct (Regex.isEmpty (trim command)); cbn [negb andb];
    [split; [reflexivity | split; [reflexivity | intros _; apply Hnone]] |].
  destruct (truthy (ofStr (SshTerminal.dataServerId sd))); cbn [negb andb];
    [| split; [reflexivity | split; [discriminate | intros _; apply Hnone]]].
  split; [reflexivity |]. split; [discriminate |].
  intros Hterm _. unfold Terminal.appendToTerminal. rewrite Hterm.
  eexists _, _. split; [reflexivity |]. split.
  - rewrite terminalHtml_render. apply readHtml_render.
  - cbn [run app].
    change (?x :: ?y :: ?z) with ([x; y] ++ z).
    destruct (Utils.apiRequest E f) as [data | error].
    + destruct (truthy (ofStr (output data)));
        rewrite ?app_assoc; apply last_terminalLines_app.
    + rewrite ?app_assoc.
      change (?l ++ [?x] ++ [?y]) with (l ++ [x; y]).
      rewrite (app_assoc _ [_] [_]) || idtac.
      match goal with
      | |- last (Outcome.terminalLines (?l ++ [?x; ?y])) = _ =>
        change (l ++ [x; y]) with (l ++ [x] ++ [y]);
        rewrite (app_assoc l [x] [y]); apply last_terminalLines_app
      end.
Qed.

Lemma sendCommand_guards_witness :
  run (SshTerminal.sendCommand Sample.sampleEngine
         (SshTerminal.withConnected Sample.samplePage false)
         {| SshTerminal.dataServerId := Some (js "7");
            SshTerminal.dataServerHost := None;
            SshTerminal.dataServerUsername := None;
            SshTerminal.dataServerPort := None |}
         (js "uptime"))
      (Sample.withJson 200 (Returned (Sample.statusReply (js "running"))))
  = [].
Proof.
  apply (sendCommand_guards Sample.sampleEngine
           (SshTerminal.withConnected Sample.samplePage false)).
  reflexivity.
Defined.

(** X12: the input line acts on the Enter key only.  On Enter it trims
    the line; a line that is blank after trimming is left as it is and
    nothing happens; otherwise the line is cleared and, when the terminal is
    connected and the page names a server, the trimmed line is sent as the
    command. *)
Theorem onKeypress_sends_trimmed_line
    (E : engine) (pg : page) (sd : SshTerminal.serverData)
    (key value : jsstring) :
  let typed := str_eqb key (js "Enter") && negb (Regex.isEmpty (trim value)) in
  dispatched (fst (SshTerminal.onKeypress E pg sd key value))
  = (if typed && isConnected pg
        && truthy (ofStr (SshTerminal.dataServerId sd))
     then Some (Utils.apiCall
                  (js "/api/servers/"
                     ++ toString E (ofStr (SshTerminal.dataServerId sd))
                     ++ js "/ssh-command/")
                  (js "POST") (Some [(js "command", VStr (trim value))]))
     else None)
  /\ snd (SshTerminal.onKeypress E pg sd key value)
     = (if typed then [] else value)
  /\ Outcome.isTrimmed (trim value) = true.
Proof.
  cbv zeta. unfold SshTerminal.onKeypress. rewrite truthy_str.
  split; [| split; [| apply trim_isTrimmed]].
  - destruct (str_eqb key (js "Enter")); cbn [andb fst]; [| reflexivity].
    destruct (Regex.isEmpty (trim value)) eqn:Hblank; cbn [negb andb fst];
      [reflexivity |].
    rewrite (proj1 (sendCommand_guards E pg sd (trim value)
                      (NetworkFailure Sample.syntaxError))).
    rewrite trim_idempotent, Hblank, andb_true_r. reflexivity.
  - destruct (str_eqb key (js "Enter")); cbn [andb snd]; [| reflexivity].
    destruct (Regex.isEmpty (trim value)); reflexivity.
Qed.

Example onKeypress_enter :
  dispatched (fst (SshTerminal.onKeypress Sample.sampleEngine Sample.samplePage
                     {| SshTerminal.dataServerId := Some (js "7");
                        SshTerminal.dataServerHost := None;
                        SshTerminal.dataServerUsername := None;
                        SshTerminal.dataServerPort := None |}
                     (js "Enter") (js "  ls -la  ")))
  = Some (Utils.apiCall (js "/api/servers/7/ssh-command/") (js "POST")
            (Some [(js "command", VStr (js "ls -la"))])).
Proof. vm_compute. reflexivity. Qed.

(** ** The connection state *)

Lemma setFlags_app (a b : list SshTerminal.effect) flags :
  SshTerminal.setFlags (a ++ b) flags
  = SshTerminal.setFlags b (SshTerminal.setFlags a flags).
Proof.
  revert flags. induction a as [|e a IH]; intros flags; [reflexivity |].
  destruct e; cbn [app SshTerminal.setFlags]; apply IH.
Qed.

Lemma setFlags_Emit (es : list event) flags :
  SshTerminal.setFlags (map SshTerminal.Emit es) flags = flags.
Proof. induction es as [|e es IH]; [reflexivity | exact IH]. Qed.

Lemma setFlags_After (d : N) (l : list SshTerminal.effect) flags :
  SshTerminal.setFlags (map (SshTerminal.After d) l) flags = flags.
Proof. induction l as [|e l IH]; [reflexivity | exact IH]. Qed.

Lemma sessionStep_agrees (E : engine) (sd : SshTerminal.serverData)
    (s : SshTerminal.session) (c : SshTerminal.call) :
  (isConnected (SshTerminal.sessionPage s) = true ->
   SshTerminal.controlsAgree s) ->
  SshTerminal.controlsAgree (SshTerminal.sessionStep E sd s c)
  /\ isConnected (SshTerminal.sessionPage (SshTerminal.sessionStep E sd s c))
     = SshTerminal.isConnect c.
Proof.
  intros Hs. destruct s as [p fl].
  unfold SshTerminal.sessionStep, SshTerminal.controlsAgree in *.
  cbn [SshTerminal.sessionPage SshTerminal.flags] in *.
  destruct c; unfold SshTerminal.connectSSH, SshTerminal.disconnectSSH.
  - destruct (isConnected p) eqn:Hp.
    + cbn [SshTerminal.sessionPage SshTerminal.flags SshTerminal.setFlags
           SshTerminal.isConnect].
      rewrite Hp. split; [apply Hs; reflexivity | reflexivity].
    + cbn [SshTerminal.sessionPage SshTerminal.flags SshTerminal.withConnected
           isConnected SshTerminal.isConnect].
      rewrite !setFlags_app, setFlags_Emit, setFlags_After.
      repeat split.
  - cbn [SshTerminal.sessionPage SshTerminal.flags SshTerminal.withConnected
         isConnected SshTerminal.isConnect].
    rewrite !setFlags_app, setFlags_Emit. repeat split.
Qed.

Lemma sessionRun_agrees (E : engine) (sd : SshTerminal.serverData) (pg : page)
    (calls : list SshTerminal.call) :
  isConnected (SshTerminal.sessionPage (SshTerminal.sessionRun E sd pg calls))
  = true ->
  SshTerminal.controlsAgree (SshTerminal.sessionRun E sd pg calls).
Proof.
  unfold SshTerminal.sessionRun.
  induction calls as [|c calls IH] using rev_ind; [discriminate |].
  rewrite foldl_app. cbn [foldl]. intros _.
  apply sessionStep_agrees, IH.
Qed.

(** X13: once connectSSH or disconnectSSH has run, the page is connected
    exactly when the last of them was connectSSH, and the three controls
    agree with that: the connect button is disabled exactly when connected,
    the disconnect button and the input line exactly when not.  A
    connectSSH on a connected page changes nothing. *)
Theorem connection_controls_agree
    (E : engine) (sd : SshTerminal.serverData) (pg : page)
    (calls : list SshTerminal.call) (c : SshTerminal.call) :
  let s := SshTerminal.sessionRun E sd pg (calls ++ [c]) in
  isConnected (SshTerminal.sessionPage s) = SshTerminal.isConnect c
  /\ SshTerminal.controlsAgree s
  /\ SshTerminal.sessionRun E sd pg
       (calls ++ [SshTerminal.Connect; SshTerminal.Connect])
     = SshTerminal.sessionRun E sd pg (calls ++ [SshTerminal.Connect]).
Proof.
  cbv zeta. unfold SshTerminal.sessionRun. rewrite !foldl_app. cbn [foldl].
  pose proof (sessionRun_agrees E sd pg calls) as Hcalls.
  unfold SshTerminal.sessionRun in Hcalls.
  set (s := foldl (SshTerminal.sessionStep E sd) (SshTerminal.loaded pg) calls)
    in *.
  destruct (sessionStep_agrees E sd s c Hcalls) as [Hagree Hconn].
  split; [exact Hconn |]. split; [exact Hagree |].
  destruct (sessionStep_agrees E sd s SshTerminal.Connect Hcalls) as [_ Hc].
  generalize dependent (SshTerminal.sessionStep E sd s SshTerminal.Connect).
  intros [p fl] Hp. cbn in Hp.
  unfold SshTerminal.sessionStep, SshTerminal.connectSSH.
  cbn [SshTerminal.sessionPage SshTerminal.flags]. rewrite Hp. reflexivity.
Qed.

(** ** Cookies *)

Lemma splitOn_segment (sep : N) (a : jsstring) :
  forallb (fun c => negb (c =? sep)) a = true ->
  (forall b, Cookie.splitOn sep (a ++ sep :: b) = a :: Cookie.splitOn sep b)
  /\ Cookie.splitOn sep a = [a].
Proof.
  induction a as [|c a IH]; intros Ha.
  - split; [| reflexivity]. intros b. cbn. rewrite N.eqb_refl. reflexivity.
  - cbn [forallb] in Ha. apply andb_prop in Ha as [Hc Ha].
    apply negb_true_iff in Hc. destruct (IH Ha) as [IH1 IH2].
    split; [intros b |]; cbn [app Cookie.splitOn]; rewrite Hc;
      [rewrite IH1 | rewrite IH2]; reflexivity.
Qed.

Lemma take_name_prefix (name n v : jsstring) :
  forallb (fun c => negb (c =? 61)) name = true ->
  forallb (fun c => negb (c =? 61)) n = true ->
  take (List.length name + 1) (n ++ 61 :: v) = name ++ [61] <-> n = name.
Proof.
  revert n. induction name as [|a name IH]; intros n Hname Hn.
  - destruct n as [|c n]; cbn; [tauto |].
    cbn [forallb] in Hn. apply andb_prop in Hn as [Hc _].
    apply negb_true_iff, N.eqb_neq in Hc. destruct n; cbn; split; congruence.
  - cbn [forallb] in Hname. apply andb_prop in Hname as [Ha Hname].
    apply negb_true_iff, N.eqb_neq in Ha.
    destruct n as [|c n]; cbn [List.length Nat.add app take].
    + split; congruence.
    + cbn [forallb] in Hn. apply andb_prop in Hn as [_ Hn].
      specialize (IH n Hname Hn). split.
      * intros [= -> H]. f_equal. apply IH, H.
      * intros [= -> ->]. f_equal. apply IH. reflexivity.
Qed.

Lemma drop_name (name v : jsstring) :
  drop (List.length name + 1) (name ++ 61 :: v) = v.
Proof. induction name as [|a name IH]; [reflexivity | exact IH]. Qed.

Lemma cookieName_facts (n : jsstring) :
  Cookie.isCookieName n = true ->
  forallb Cookie.isCookieChar n = true
  /\ forallb (fun c => negb (c =? 61)) n = true.
Proof.
  unfold Cookie.isCookieName. induction n as [|c n IH]; [auto |].
  cbn [forallb]. intros H. apply andb_prop in H as [Hc Hn].
  apply andb_prop in Hc as [-> ->]. destruct (IH Hn) as [-> ->]. auto.
Qed.

Lemma cookieChar_facts (s : jsstring) :
  forallb Cookie.isCookieChar s = true ->
  forallb (fun c => negb (isSpace c)) s = true
  /\ forallb (fun c => negb (c =? 59)) s = true.
Proof.
  induction s as [|c s IH]; [auto |].
  cbn [forallb]. intros H. apply andb_prop in H as [Hc Hs].
  unfold Cookie.isCookieChar in Hc. apply andb_prop in Hc as [-> ->].
  destruct (IH Hs) as [-> ->]. auto.
Qed.

(** One pair of a well-formed jar, as the piece of [document.cookie] that
    the loop sees: it has no semicolon and trimming leaves it alone. *)
Lemma pair_piece (n v : jsstring) :
  Cookie.isCookieName n = true -> forallb Cookie.isCookieChar v = true ->
  forallb (fun c => negb (c =? 59)) (n ++ 61 :: v) = true
  /\ trim (n ++ 61 :: v) = n ++ 61 :: v
  /\ trim (32 :: n ++ 61 :: v) = n ++ 61 :: v.
Proof.
  intros Hn Hv. apply cookieName_facts in Hn as [Hn _].
  apply cookieChar_facts in Hn as [Hn1 Hn2].
  apply cookieChar_facts in Hv as [Hv1 Hv2].
  assert (Htrim : trim (n ++ 61 :: v) = n ++ 61 :: v).
  { apply trim_no_space. rewrite forallb_app. cbn [forallb].
    rewrite Hn1, Hv1. reflexivity. }
  split; [| split; [exact Htrim | exact Htrim]].
  rewrite forallb_app. cbn [forallb]. rewrite Hn2, Hv2. reflexivity.
Qed.

Section CookieScan.
Variable decode : jsstring -> outcome jsstring.
Variable name : jsstring.
Hypothesis name_ok : forallb (fun c => negb (c =? 61)) name = true.

Lemma scan_pieces (jar : list (jsstring * jsstring)) (pieces : list jsstring) :
  Cookie.wellFormed jar = true ->
  Forall2 (fun piece p => trim piece = fst p ++ 61 :: snd p) pieces jar ->
  Cookie.scan decode name pieces
  = Cookie.decoded decode (Cookie.firstValue name jar).
Proof.
  intros Hwf Hpieces. induction Hpieces as [|piece [n v] pieces jar Hp _ IH];
    [reflexivity |].
  cbn [Cookie.wellFormed forallb fst snd] in Hwf, Hp.
  apply andb_prop in Hwf as [Hnv Hwf]. apply andb_prop in Hnv as [Hn Hv].
  cbn [Cookie.scan Cookie.firstValue]. rewrite Hp.
  change (name ++ js "=") with (name ++ [61]).
  destruct (cookieName_facts n Hn) as [_ Hn61].
  pose proof (take_name_prefix name n v name_ok Hn61) as Hprefix.
  unfold str_eqb. destruct (decide (n = name)) as [-> | Hne].
  - rewrite bool_decide_eq_true_2 by (apply Hprefix; reflexivity).
    rewrite bool_decide_eq_true_2 by reflexivity.
    rewrite drop_name. reflexivity.
  - rewrite bool_decide_eq_false_2 by (intros H; apply Hne, Hprefix, H).
    rewrite bool_decide_eq_false_2 by exact Hne.
    apply IH, Hwf.
Qed.
End CookieScan.

Lemma serialise_pieces (jar : list (jsstring * jsstring)) (pre : jsstring) :
  jar <> [] -> Cookie.wellFormed jar = true -> pre = [] \/ pre = [32] ->
  exists pieces,
    Cookie.splitOn 59 (pre ++ Cookie.serialise jar) = pieces
    /\ Forall2 (fun piece p => trim piece = fst p ++ 61 :: snd p) pieces jar.
Proof.
  revert pre. induction jar as [|[n v] jar IH]; intros pre Hne Hwf Hpre;
    [congruence |].
  cbn [Cookie.wellFormed forallb fst snd] in Hwf.
  apply andb_prop in Hwf as [Hnv Hwf]. apply andb_prop in Hnv as [Hn Hv].
  destruct (pair_piece n v Hn Hv) as (Hsemi & Htrim & Htrim').
  assert (Hpiece : forallb (fun c => negb (c =? 59)) (pre ++ n ++ 61 :: v) = true
                   /\ trim (pre ++ n ++ 61 :: v) = n ++ 61 :: v).
  { destruct Hpre as [-> | ->]; cbn [app forallb]; rewrite Hsemi; auto. }
  destruct Hpiece as [Hpsemi Hptrim].
  destruct jar as [|q jar].
  - exists [pre ++ n ++ 61 :: v]. split.
    + cbn [Cookie.serialise]. change (js "=") with [61].
      apply (splitOn_segment 59 _ Hpsemi).
    + constructor; [exact Hptrim | constructor].
  - destruct (IH [32]) as (pieces & Hsplit & Hall);
      [discriminate | exact Hwf | auto |].
    exists ((pre ++ n ++ 61 :: v) :: pieces). split.
    + change (Cookie.serialise ((n, v) :: q :: jar))
        with (n ++ js "=" ++ v ++ js "; " ++ Cookie.serialise (q :: jar)).
      change (js "=") with [61]. change (js "; ") with [59; 32].
      replace (pre ++ n ++ [61] ++ v ++ [59; 32] ++ Cookie.serialise (q :: jar))
        with ((pre ++ n ++ 61 :: v)
                ++ 59 :: ([32] ++ Cookie.serialise (q :: jar)))
        by (rewrite <- !app_assoc; reflexivity).
      rewrite (proj1 (splitOn_segment 59 _ Hpsemi)), Hsplit. reflexivity.
    + constructor; [exact Hptrim | exact Hall].
Qed.

(** X14: for a cookie string that is a well-formed jar, pairs
    [name=value] without white space or semicolon, joined by a semicolon and
    a space, getCookie returns the decoded value of the first pair with
    exactly the name asked for, and [null] when there is none (a cookie whose
    name only ends with the name asked for is not taken for it); an empty
    string gives [null]; an error of the decoder is passed on. *)
Theorem getCookie_first_value
    (decode : jsstring -> outcome jsstring) (name : jsstring)
    (jar : list (jsstring * jsstring)) :
  Cookie.wellFormed jar = true ->
  forallb (fun c => negb (c =? 61)) name = true ->
  Cookie.getCookie decode name (Cookie.serialise jar)
  = Cookie.decoded decode (Cookie.firstValue name jar).
Proof.
  intros Hwf Hname. unfold Cookie.getCookie.
  destruct jar as [|p jar]; [reflexivity |].
  destruct (serialise_pieces (p :: jar) []) as (pieces & Hsplit & Hall);
    [discriminate | exact Hwf | auto |].
  cbn [app] in Hsplit. rewrite Hsplit.
  assert (Hne : Cookie.serialise (p :: jar) <> []).
  { destruct p as [n v]. change (js "=") with [61].
    destruct jar; cbn [Cookie.serialise]; change (js "=") with [61];
      destruct n; discriminate. }
  rewrite truthy_str_nonempty by exact Hne.
  unfold str_eqb. rewrite bool_decide_eq_false_2 by exact Hne.
  cbn [negb andb]. apply scan_pieces; assumption.
Qed.

Lemma getCookie_first_value_witness :
  Cookie.getCookie (fun text => Returned text) (js "token")
    (Cookie.serialise [ (js "csrftoken", js "abc"); (js "token", js "xyz") ])
  = Returned (Some (js "xyz")).
Proof.
  apply (getCookie_first_value (fun text => Returned text) (js "token")
           [ (js "csrftoken", js "abc"); (js "token", js "xyz") ]).
  - vm_compute. reflexivity.
  - vm_compute. reflexivity.
Defined.

(** ** The reinstallation while it runs *)

Lemma statusLines_progress pg (l : list jsstring) (prefix type : jsstring) :
  Outcome.statusLines
    (flat_map (fun m => Utils.showStatus pg (VStr (prefix ++ m)) type) l)
  = (if statusPresent pg then map (fun m => (VStr (prefix ++ m), type)) l
     else []).
Proof.
  unfold Outcome.statusLines, Utils.showStatus.
  destruct (statusPresent pg); induction l as [|s l IH]; try reflexivity.
  - cbn [flat_map map app]. rewrite IH. reflexivity.
  - exact IH.
Qed.

(** X15: a confirmed reinstallOpenVPN stops its progress timer exactly
    when the exchange returns a body; when an error is thrown the timer is
    left running.  However many times the timer fires before the exchange
    settles, the progress lines shown are the first of the five messages, in
    order, and never more than five.  When the body reports success, the
    last text written to the status line is the notice of the reload, after
    the success message and the state of the service. *)
Theorem reinstallOpenVPN_progress
    (E : engine) (pg : page) (serverId : N) (ticks : nat) (f : fetched) :
  let es :=
    run (ServerActions.reinstallOpenVPN E pg serverId true
           (Some (js "REINSTALL")) ticks) f in
  let shown := take ticks ServerActions.progressMessages in
  Outcome.timerStops es
  = match Utils.apiRequest E f with
    | Returned _ => [ClearInterval]
    | Thrown _ => []
    end
  /\ (List.length shown <= 5)%nat
  /\ (exists rest,
        Outcome.statusLines es
        = (if statusPresent pg then
             (VStr (js "⚙️ Запускаем полную переустановку OpenVPN..."),
              js "warning")
             :: map (fun m => (VStr (js "⏳ " ++ m), js "info")) shown
           else [])
          ++ rest
        /\ (List.length rest <= 3)%nat)
  /\ (statusPresent pg = true ->
      Outcome.succeeded (Utils.apiRequest E f) = true ->
      last (Outcome.statusLines es)
      = Some (VStr (js "Страница будет перезагружена через 3 секунды..."),
              js "info")).
Proof.
  cbv zeta. unfold ServerActions.reinstallOpenVPN.
  replace (ServerActions.reinstallCancelled E (Some (js "REINSTALL")))
    with false by reflexivity.
  cbn [negb run].
  split; [| split; [| split]].
  - destruct (Utils.apiRequest E f) as [data | error]; observe.
  - rewrite length_take. apply Nat.le_min_r.
  - unfold Outcome.statusLines at 1.
    rewrite !flat_map_app. cbn [flat_map app].
    rewrite !flat_map_app.
    fold (Outcome.statusLines
            (flat_map
               (fun m => Utils.showStatus pg (VStr (js "⏳ " ++ m)) (js "info"))
               (take ticks ServerActions.progressMessages))).
    rewrite statusLines_progress.
    unfold Utils.showStatus at 1 2. unfold Utils.showButtonLoading.
    destruct (statusPresent pg) eqn:Hstatus; cbn [flat_map app];
      (eexists; split; [rewrite <- ?app_assoc; cbn [app]; reflexivity |]);
      destruct (Utils.apiRequest E f) as [data | error]; observe;
      cbn [List.length]; lia.
  - intros Hstatus Hok.
    destruct (Utils.apiRequest E f) as [data | error]; [| discriminate Hok].
    cbn [Outcome.succeeded] in Hok. rewrite Hok.
    unfold Outcome.statusLines.
    repeat first
      [ rewrite flat_map_app
      | rewrite last_app
      | rewrite last_cons
      | progress cbn [flat_map app last Utils.reloadPage Utils.restoreButton] ].
    unfold Utils.showStatus at 1. rewrite Hstatus. reflexivity.
Qed.

Lemma reinstallOpenVPN_progress_witness :
  last (Outcome.statusLines
          (run (ServerActions.reinstallOpenVPN Sample.sampleEngine
                  Sample.samplePage 4 true (Some (js "REINSTALL")) 9)
               (Sample.withJson 200
                  (Returned (Sample.statusReply (js "running"))))))
  = Some (VStr (js "Страница будет перезагружена через 3 секунды..."),
          js "info").
Proof.
  apply (reinstallOpenVPN_progress Sample.sampleEngine Sample.samplePage 4 9).
  - reflexivity.
  - reflexivity.
Defined.

(** ** Buttons and reloads *)

Lemma setFirst_attributes (id : jsstring) (value : bool)
    (page : list Browser.button) :
  Browser.onclick <$> Browser.setFirst id value page = Browser.onclick <$> page.
Proof.
  induction page as [|b page IH]; [reflexivity |].
  cbn [Browser.setFirst]. destruct (Browser.selects (ById id) b);
    cbn [fmap list_fmap]; [reflexivity |].
  f_equal. exact IH.
Qed.

Lemma setDisabled_attributes (target : buttons) (value : bool)
    (page : list Browser.button) :
  Browser.onclick <$> Browser.setDisabled target value page
  = Browser.onclick <$> page.
Proof.
  destruct target as [fragment | id]; [| apply setFirst_attributes].
  unfold Browser.setDisabled. rewrite <- list_fmap_compose.
  apply list_fmap_ext. intros i b _.
  change (Browser.onclick
            (if Browser.selects (ByOnclick fragment) b
             then Browser.withDisabled value b else b)
          = Browser.onclick b).
  destruct (Browser.selects (ByOnclick fragment) b); reflexivity.
Qed.

Lemma applyEvents_attributes (es : list event) (page : list Browser.button) :
  Browser.onclick <$> Browser.applyEvents es page = Browser.onclick <$> page.
Proof.
  revert page. induction es as [|e es IH]; intros page; [reflexivity |].
  unfold Browser.applyEvents in *. cbn [foldl]. rewrite IH.
  destruct e; try reflexivity; apply setDisabled_attributes.
Qed.

Lemma elem_of_delete_other {A} (l : list A) (i : nat) (x y : A) :
  x ∈ l -> l !! i = Some y -> x <> y -> x ∈ delete i l.
Proof.
  intros Hx Hy Hne. apply list_elem_of_lookup in Hx as [j Hj].
  destruct (decide (j < i)%nat) as [Hlt | Hge].
  - apply (list_elem_of_lookup_2 _ j).
    rewrite list_lookup_delete_lt by exact Hlt. exact Hj.
  - assert (Hji : j <> i) by (intros ->; rewrite Hy in Hj; congruence).
    apply (list_elem_of_lookup_2 _ (Nat.pred j)).
    rewrite list_lookup_delete_ge by lia.
    replace (S (Nat.pred j)) with j by lia. exact Hj.
Qed.

Lemma disabled_by_pending_step E pg serverId (st : Browser.browser)
    (act : Browser.action) :
  Browser.page_invariant serverId st -> Browser.disabled_by_pending st ->
  Browser.disabled_by_pending (Browser.step E pg serverId st act).
Proof.
  intros (_ & _ & Hres) Hjust. destruct act as [i a | i f]; cbn [Browser.step].
  - destruct (Browser.controls st !! i) as [b0 |]; [| exact Hjust].
    destruct (Browser.disabled b0); [exact Hjust |].
    destruct (Browser.invokes serverId b0) as [o |]; [| exact Hjust].
    pose proof (handler_buttons E pg serverId o a) as Hh.
    destruct (Browser.handler E pg serverId o a) as [es | es req k].
    + unfold Browser.disabled_by_pending. cbn [Browser.controls Browser.inflight].
      rewrite applyEvents_buttonEvents, Hh. exact Hjust.
    + destruct Hh as [[html Hes] _].
      unfold Browser.disabled_by_pending. cbn [Browser.controls Browser.inflight].
      rewrite applyEvents_buttonEvents, Hes.
      cbn [Browser.applyEvents foldl Browser.applyEvent].
      intros b' Hb' Hdis. apply elem_of_setDisabled in Hb' as (b & Hb & ->).
      destruct (Browser.selects (Browser.buttonsOf o) b) eqn:Hsel.
      * eexists. split; [apply elem_of_app; right; apply list_elem_of_singleton;
                         reflexivity |].
        cbn [Browser.waiting]. rewrite selects_withDisabled. exact Hsel.
      * destruct (Hjust b Hb Hdis) as (p & Hp & Hpb).
        exists p. split; [apply elem_of_app; left; exact Hp | exact Hpb].
  - destruct (Browser.inflight st !! i) as [p0 |] eqn:Hi; [| exact Hjust].
    assert (Hp0 : p0 ∈ Browser.inflight st)
      by (eapply list_elem_of_lookup_2; exact Hi).
    unfold Browser.disabled_by_pending. cbn [Browser.controls Browser.inflight].
    rewrite applyEvents_buttonEvents, (Hres p0 f Hp0).
    cbn [Browser.applyEvents foldl Browser.applyEvent].
    intros b' Hb' Hdis. apply elem_of_setDisabled in Hb' as (b & Hb & ->).
    destruct (Browser.selects (Browser.buttonsOf (Browser.waiting p0)) b)
      eqn:Hsel; [discriminate Hdis |].
    destruct (Hjust b Hb Hdis) as (p & Hp & Hpb).
    exists p. split; [| exact Hpb].
    apply (elem_of_delete_other _ i p p0 Hp Hi).
    intros ->. rewrite Hpb in Hsel. discriminate Hsel.
Qed.

Lemma step_attributes E pg serverId (st : Browser.browser)
    (act : Browser.action) :
  Browser.onclick <$> Browser.controls (Browser.step E pg serverId st act)
  = Browser.onclick <$> Browser.controls st.
Proof.
  destruct act as [i a | i f]; cbn [Browser.step].
  - destruct (Browser.controls st !! i) as [b0 |]; [| reflexivity].
    destruct (Browser.disabled b0); [reflexivity |].
    destruct (Browser.invokes serverId b0) as [o |]; [| reflexivity].
    destruct (Browser.handler E pg serverId o a);
      cbn [Browser.controls]; apply applyEvents_attributes.
  - destruct (Browser.inflight st !! i); [| reflexivity].
    cbn [Browser.controls]. apply applyEvents_attributes.
Qed.

(** X16: on a page that is loaded with its buttons enabled, a button is
    disabled only while an operation whose selector finds it is pending:
    however the clicks and the settlements interleave, and whatever the
    outcomes are, no button stays disabled once nothing is pending.  The
    buttons keep their onclick attributes throughout. *)
Theorem no_button_left_disabled
    (E : engine) (pg : page) (serverId : N) (page : list Browser.button)
    (acts : list Browser.action) :
  Forall (fun b => Browser.disabled b = false) page ->
  let st := Browser.exec E pg serverId page acts in
  (forall b, b ∈ Browser.controls st -> Browser.disabled b = true ->
     exists p, p ∈ Browser.inflight st
       /\ Browser.selects (Browser.buttonsOf (Browser.waiting p)) b = true)
  /\ (Browser.inflight st = [] ->
      Forall (fun b => Browser.disabled b = false) (Browser.controls st))
  /\ Browser.onclick <$> Browser.controls st = Browser.onclick <$> page.
Proof.
  intros Hpage. cbv zeta.
  assert (Hinv : Browser.page_invariant serverId
                   (Browser.exec E pg serverId page acts)
                 /\ Browser.disabled_by_pending
                      (Browser.exec E pg serverId page acts)
                 /\ Browser.onclick
                      <$> Browser.controls (Browser.exec E pg serverId page acts)
                    = Browser.onclick <$> page).
  { unfold Browser.exec.
    assert (Hstart : Browser.page_invariant serverId (Browser.loaded page)
                     /\ Browser.disabled_by_pending (Browser.loaded page)
                     /\ Browser.onclick <$> Browser.controls (Browser.loaded page)
                        = Browser.onclick <$> page).
    { split; [apply page_invariant_loaded |]. split; [| reflexivity].
      intros b Hb Hdis. cbn [Browser.loaded Browser.controls] in Hb.
      rewrite Forall_forall in Hpage. rewrite (Hpage b Hb) in Hdis.
      discriminate Hdis. }
    revert Hstart. generalize (Browser.loaded page).
    induction acts as [|act acts IH]; intros st Hst; [exact Hst |].
    cbn [foldl]. apply IH. destruct Hst as (Hi & Hj & Ha).
    split; [apply page_invariant_step, Hi |].
    split; [apply disabled_by_pending_step; assumption |].
    rewrite step_attributes. exact Ha. }
  destruct Hinv as (_ & Hjust & Hattr).
  split; [exact Hjust |]. split; [| exact Hattr].
  intros Hnone. apply Forall_forall. intros b Hb.
  destruct (Browser.disabled b) eqn:Hdis; [| reflexivity].
  destruct (Hjust b Hb Hdis) as (p & Hp & _). rewrite Hnone in Hp.
  inversion Hp.
Qed.

Lemma no_button_left_disabled_witness :
  Forall (fun b => Browser.disabled b = false)
    (Browser.controls
       (Browser.exec Sample.sampleEngine Sample.samplePage 1
          Sample.lifecyclePage
          [ Browser.Click 3 Browser.accept;
            Browser.Click 0 Browser.accept;
            Browser.Settle 0 (NetworkFailure Sample.syntaxError);
            Browser.Settle 0
              (Sample.withJson 200
                 (Returned (Sample.statusReply (js "running")))) ])).
Proof.
  apply (no_button_left_disabled Sample.sampleEngine Sample.samplePage 1
           Sample.lifecyclePage).
  - repeat constructor.
  - reflexivity.
Defined.

(** X17: installOpenVPN and startOpenVPN schedule the reload exactly when
    the dialog was accepted and the body reports success; checkStatus and
    syncClients, which ask nothing, exactly when the body reports success;
    configureOpenVPN never schedules one. *)
Theorem reload_on_success_only
    (E : engine) (pg : page) (serverId : N) (confirmed : bool) (f : fetched) :
  let good := Outcome.succeeded (Utils.apiRequest E f) in
  Outcome.reloads (run (ServerActions.installOpenVPN E pg serverId confirmed) f)
  = (if confirmed && good then [2000] else [])
  /\ Outcome.reloads (run (ServerActions.startOpenVPN E pg serverId confirmed) f)
     = (if confirmed && good then [2000] else [])
  /\ Outcome.reloads
       (run (ServerActions.configureOpenVPN E pg serverId confirmed) f) = []
  /\ Outcome.reloads (run (ServerActions.checkStatus E pg serverId) f)
     = (if good then [1000] else [])
  /\ Outcome.reloads (run (ServerActions.syncClients E pg serverId) f)
     = (if good then [2000] else []).
Proof.
  cbv zeta.
  unfold ServerActions.installOpenVPN, ServerActions.startOpenVPN,
    ServerActions.configureOpenVPN, ServerActions.checkStatus,
    ServerActions.syncClients.
  destruct confirmed; cbn [negb andb run];
    destruct (Utils.apiRequest E f) as [data | error];
    repeat split; observe.
Qed.

(** X18: generateSSHKey enables its buttons again on every outcome.  It
    schedules the reload when the body reports success, except when the body
    has a public key but no key type: reading the type then fails, the
    error is caught, and the call ends with an error on the status line and
    no reload although the key was installed. *)
Theorem generateSSHKey_outcome
    (E : engine) (pg : page) (serverId : N) (password : jsstring)
    (useEd25519 clearPassword showKey : bool) (f : fetched) :
  password <> [] ->
  let a := ServerActions.generateSSHKey E pg serverId (Some password)
             useEd25519 clearPassword showKey in
  Outcome.restoresButtons a (ByOnclick (js "generateSSHKey"))
  /\ Outcome.reloads (run a f)
     = match Utils.apiRequest E f with
       | Returned data =>
         if truthy (ofBool (success data))
            && negb (truthy (ofStr (public_key data))
                     && negb (bool_decide (is_Some (key_type data))))
         then [1000] else []
       | Thrown _ => []
       end
  /\ (forall data,
        Utils.apiRequest E f = Returned data ->
        truthy (ofBool (success data)) = true ->
        truthy (ofStr (public_key data)) = true ->
        key_type data = None ->
        statusPresent pg = true ->
        last (Outcome.statusLines (run a f))
        = Some (VStr (js "Ошибка: "
                        ++ undefinedPropertyMessage E (js "toUpperCase")),
                js "danger")).
Proof.
  intros Hpw. cbv zeta. unfold ServerActions.generateSSHKey. cbn [ofStr].
  rewrite (truthy_str_nonempty _ Hpw). cbn [negb].
  split; [| split].
  - cbn [Outcome.restoresButtons]. split; [eexists; observe |].
    intros f'. eexists. destruct (Utils.apiRequest E f'); observe.
  - cbn [run]. destruct (Utils.apiRequest E f) as [data | error]; observe.
  - intros data Hf Hok Hkey Htype Hstatus. cbn [run]. rewrite Hf, Hok, Hkey, Htype.
    unfold Outcome.statusLines.
    repeat first
      [ rewrite flat_map_app
      | rewrite last_app
      | rewrite last_cons
      | progress cbn [flat_map app last Utils.restoreButton] ].
    unfold Utils.showStatus at 1. rewrite Hstatus. reflexivity.
Qed.

Lemma generateSSHKey_outcome_witness :
  last (Outcome.statusLines
          (run (ServerActions.generateSSHKey Sample.sampleEngine
                  Sample.samplePage 2 (Some (js "hunter2")) true true false)
               (Sample.withJson 200
                  (Returned (Outcome.keyReply (js "ssh-ed25519 AAAA") None)))))
  = Some (VStr (js "Ошибка: "
                  ++ undefinedPropertyMessage Sample.sampleEngine
                       (js "toUpperCase")),
          js "danger").
Proof.
  refine (proj2 (proj2 (generateSSHKey_outcome Sample.sampleEngine
            Sample.samplePage 2 (js "hunter2") true true false
            (Sample.withJson 200
               (Returned (Outcome.keyReply (js "ssh-ed25519 AAAA") None)))
            _))
          (Outcome.keyReply (js "ssh-ed25519 AAAA") None) _ _ _ _ _);
    try reflexivity.
  vm_compute. discriminate.
Defined.

(** ** Escaped text *)

Lemma escapeHtml_cons (E : engine) (c : N) (t : jsstring) :
  Utils.escapeHtml E (c :: t) = Utils.escapeHtml E [c] ++ Utils.escapeHtml E t.
Proof. apply (escapeHtml_app E [c] t). Qed.

Lemma render_injective (a b : jsstring) :
  flat_map Observe.renderChar a = flat_map Observe.renderChar b -> a = b.
Proof.
  assert (Hne : forall c rest, Observe.renderChar c ++ rest <> []).
  { intros c rest H. pose proof (readToken_render c rest) as Hr.
    rewrite H in Hr. discriminate Hr. }
  revert b. induction a as [|c a IH]; intros [|d b]; cbn [flat_map]; intros H.
  - reflexivity.
  - symmetry in H. destruct (Hne _ _ H).
  - destruct (Hne _ _ H).
  - pose proof (readToken_render c (flat_map Observe.renderChar a)) as Hc.
    rewrite H, readToken_render in Hc. injection Hc as <- Hrest.
    f_equal. apply IH. symmetry. exact Hrest.
Qed.

(** X19: the text that escapeHtml returns has no [<], no [>], no double
    quote and no apostrophe, whatever the input; and neither escapeHtml nor
    the HTML built for the terminal confuses two texts: different inputs
    give different outputs. *)
Theorem escapeHtml_safe_and_faithful (E : engine) (text other : jsstring) :
  forallb (fun c => negb (Outcome.isRawMarkup c)) (Utils.escapeHtml E text)
  = true
  /\ (Terminal.terminalHtml E text = Terminal.terminalHtml E other ->
      text = other)
  /\ (Utils.escapeHtml E text = Utils.escapeHtml E other -> text = other).
Proof.
  assert (Hinj : Terminal.terminalHtml E text = Terminal.terminalHtml E other ->
                 text = other).
  { rewrite !terminalHtml_render. apply render_injective. }
  split; [| split; [exact Hinj |]].
  - clear Hinj. induction text as [|c t IH]; [reflexivity |].
    rewrite escapeHtml_cons, forallb_app, IH, andb_true_r.
    destruct (char_cases c)
      as [-> | [-> | [-> | [-> | [-> | [-> | [-> | (Hs & _ & _)]]]]]]];
      try reflexivity.
    unfold Utils.escapeHtml, Regex.replaceAll. cbn [flat_map app].
    rewrite Hs. cbn [app forallb]. rewrite andb_true_r.
    unfold Utils.isHtmlSpecial in Hs. unfold Outcome.isRawMarkup.
    apply orb_false_elim in Hs as [Hs H39].
    apply orb_false_elim in Hs as [Hs H34].
    apply orb_false_elim in Hs as [Hs H62].
    apply orb_false_elim in Hs as [_ H60].
    rewrite H60, H62, H34, H39. reflexivity.
  - intros H. apply Hinj. unfold Terminal.terminalHtml. rewrite H. reflexivity.
Qed.

Lemma escapeHtml_safe_and_faithful_witness :
  js "<b>" = js "<b>".
Proof.
  apply (proj1 (proj2 (escapeHtml_safe_and_faithful Sample.sampleEngine
                         (js "<b>") (js "<b>")))).
  reflexivity.
Defined.

(** ** Errors of the server on the operator's screen *)

(** X20: when apiRequest throws, whatever the reason, installOpenVPN,
    configureOpenVPN and startOpenVPN show exactly one alert: the title, the
    name of the step and the message of the error, unchanged; nothing is
    reloaded.  So when the server answers with a status that is not ok and
    a JSON object whose [error] member is a non-empty text, that text reaches
    the operator as it was sent. *)
Theorem lifecycle_alert_names_server_error
    (E : engine) (pg : page) (serverId : N) (f : fetched) (e : jsError) :
  Utils.apiRequest E f = Thrown e ->
  let alert step :=
    [js "Ошибка" ++ nl ++ nl ++ step ++ js ": " ++ err_message e] in
  let install := run (ServerActions.installOpenVPN E pg serverId true) f in
  let configure := run (ServerActions.configureOpenVPN E pg serverId true) f in
  let start := run (ServerActions.startOpenVPN E pg serverId true) f in
  Outcome.alerts install = alert (js "Ошибка установки")
  /\ Outcome.alerts configure = alert (js "Ошибка настройки")
  /\ Outcome.alerts start = alert (js "Ошибка запуска")
  /\ Outcome.reloads install = [] /\ Outcome.reloads configure = []
  /\ Outcome.reloads start = []
  /\ (forall response data text,
        f = Responded response -> json response = Returned data ->
        error data = Some text -> text <> [] ->
        ok response = false /\ err_message e = text).
Proof.
  intros Hthrown. cbv zeta.
  unfold ServerActions.installOpenVPN, ServerActions.configureOpenVPN,
    ServerActions.startOpenVPN.
  cbn [negb run]. rewrite Hthrown.
  do 6 (split; [observe |]).
  intros response data text -> Hjson Herror Htext.
  unfold Utils.apiRequest in Hthrown. rewrite Hjson in Hthrown.
  destruct (ok response); cbn [negb] in Hthrown; [discriminate Hthrown |].
  split; [reflexivity |]. injection Hthrown as <-.
  rewrite Herror. destruct text as [|c t]; [contradiction | reflexivity].
Qed.

Lemma lifecycle_alert_names_server_error_witness :
  Outcome.alerts
    (run (ServerActions.installOpenVPN Sample.sampleEngine Sample.samplePage 1
            true)
         (Sample.withJson 500
            (Returned (Sample.errorReply (js "apt is locked")))))
  = [js "Ошибка" ++ nl ++ nl ++ js "Ошибка установки" ++ js ": "
       ++ js "apt is locked"].
Proof.
  pose proof (lifecycle_alert_names_server_error Sample.sampleEngine
                Sample.samplePage 1
                (Sample.withJson 500
                   (Returned (Sample.errorReply (js "apt is locked"))))
                (newError Sample.sampleEngine (js "apt is locked"))
                eq_refl) as H.
  cbv zeta in H. destruct H as [H _].
  vm_compute in H |- *. exact H.
Defined.

(** ** The status line after a synchronisation *)

(** X21: after a synchronisation that reports success, the text left on
    the status line is the warning that lists the new clients, joined by a
    comma and a space, whenever the body has new clients: the summary with
    the three counts is written first and overwritten at once.  Without new
    clients the summary stays.  The orphaned clients go to the console only. *)
Theorem syncClients_last_status
    (E : engine) (pg : page) (serverId : N) (f : fetched) (data : apiData) :
  Utils.apiRequest E f = Returned data ->
  truthy (ofBool (success data)) = true ->
  statusPresent pg = true ->
  last (Outcome.statusLines (run (ServerActions.syncClients E pg serverId) f))
  = Some
      match new_clients data with
      | Some (first :: others) =>
        (VStr (js "⚠️ На сервере найдены новые клиенты, которых нет в БД: "
                 ++ ServerActions.join (js ", ") (first :: others)),
         js "warning")
      | _ =>
        (VStr (js "✅ " ++ toString E (ofStr (message data)) ++ nl
                 ++ js "Клиентов на сервере: "
                 ++ toString E (or_ (ofNum (clients_on_server data)) (VNum 0))
                 ++ nl ++ js "Клиентов в БД: "
                 ++ toString E (or_ (ofNum (clients_in_db data)) (VNum 0))
                 ++ nl ++ js "Удалено: "
                 ++ toString E (or_ (ofNum (clients_removed data)) (VNum 0))),
         js "success")
      end.
Proof.
  intros Hf Hok Hstatus. unfold ServerActions.syncClients, run.
  rewrite Hf, Hok. unfold Utils.showStatus. rewrite Hstatus.
  unfold Outcome.statusLines.
  destruct (new_clients data) as [[|first others] |];
    destruct (orphaned_clients data) as [[|gone rest] |];
    reflexivity.
Qed.

Lemma syncClients_last_status_witness :
  last (Outcome.statusLines
          (run (ServerActions.syncClients Sample.sampleEngine
                  Sample.samplePage 1)
               (Sample.withJson 200
                  (Returned
                     (Reconciliation.response (js "done")
                        (Reconciliation.reconcile
                           {[ js "alice"; js "bob" ]}
                           {[ js "alice"; js "carol" ]}))))))
  = Some (VStr (js "⚠️ На сервере найдены новые клиенты, которых нет в БД: "
                  ++ js "bob"),
          js "warning").
Proof.
  pose proof (syncClients_last_status Sample.sampleEngine Sample.samplePage 1
                (Sample.withJson 200
                   (Returned
                      (Reconciliation.response (js "done")
                         (Reconciliation.reconcile
                            {[ js "alice"; js "bob" ]}
                            {[ js "alice"; js "carol" ]}))))
                (Reconciliation.response (js "done")
                   (Reconciliation.reconcile
                      {[ js "alice"; js "bob" ]}
                      {[ js "alice"; js "carol" ]}))
                eq_refl eq_refl eq_refl) as H.
  vm_compute in H |- *. exact H.
Defined.

(** ** The status line of checkStatus *)

(** X22: after a status check that reports success, the status line reads
    the label of the literal when it is one of the three known ones, with
    the type [success] for [running] only; a literal that is neither a label
    nor a property name that object literals inherit is shown as it came,
    with the type [warning]. *)
Theorem checkStatus_status_line
    (E : engine) (pg : page) (serverId : N) (f : fetched) (data : apiData)
    (literal : jsstring) :
  Utils.apiRequest E f = Returned data ->
  truthy (ofBool (success data)) = true ->
  status data = Some literal ->
  statusPresent pg = true ->
  let shown text type :=
    Outcome.statusLines (run (ServerActions.checkStatus E pg serverId) f)
    = [ (VStr (js "Проверяем статус сервера..."), js "info");
        (VStr (js "Статус сервера: " ++ text), type) ] in
  (forall label,
     ownProperty ServerActions.statusLabels literal = Some label ->
     label <> [] ->
     shown label (if str_eqb literal (js "running")
                  then js "success" else js "warning"))
  /\ (ownProperty ServerActions.statusLabels literal = None ->
      inherited literal = VUndefined ->
      shown literal (js "warning")).
Proof.
  intros Hf Hok Hstatus Hpresent. cbv zeta.
  unfold ServerActions.checkStatus, run. rewrite Hf, Hok.
  unfold ServerActions.statusText, getProperty. rewrite Hstatus.
  cbn [ofStr toString]. unfold Utils.showStatus. rewrite Hpresent.
  unfold Outcome.statusLines. cbn [flat_map app Utils.reloadPage].
  split.
  - intros label Hown Hne. rewrite Hown.
    unfold or_. rewrite (truthy_str_nonempty _ Hne). cbn [toString].
    unfold str_eqb.
    destruct (decide (literal = js "running")) as [-> | Hrun].
    + rewrite !bool_decide_eq_true_2 by reflexivity. reflexivity.
    + rewrite !bool_decide_eq_false_2 by congruence. reflexivity.
  - intros Hown Hinh. rewrite Hown, Hinh. cbn [or_ truthy toString].
    rewrite bool_decide_eq_false_2; [reflexivity |].
    intros [= ->]. discriminate Hown.
Qed.

Lemma checkStatus_status_line_witness :
  Outcome.statusLines
    (run (ServerActions.checkStatus Sample.sampleEngine Sample.samplePage 1)
         (Sample.withJson 200 (Returned (Sample.statusReply (js "installing")))))
  = [ (VStr (js "Проверяем статус сервера..."), js "info");
      (VStr (js "Статус сервера: " ++ js "installing"), js "warning") ].
Proof.
  pose proof (checkStatus_status_line Sample.sampleEngine Sample.samplePage 1
                (Sample.withJson 200
                   (Returned (Sample.statusReply (js "installing"))))
                (Sample.statusReply (js "installing")) (js "installing")
                eq_refl eq_refl eq_refl eq_refl) as H.
  cbv zeta in H. destruct H as [_ H].
  specialize (H eq_refl eq_refl).
  vm_compute in H |- *. exact H.
Defined.
